(** * Cell formatting of Arrow data (arrowFormatUtils.ts)

    A shallow embedding of the display-formatting functions of the
    dataframe layer: [convertTimestampToSeconds], the period formatters
    and their lookup table, [formatDecimal], [formatObject],
    [formatInterval] and the dispatcher [format], followed by the
    properties proved about them.

    JavaScript numbers are IEEE 754 binary64 values and are modelled by
    Rocq's primitive floats; big integers are modelled by [Z]; strings by
    [string], the bytes of their UTF-8 text, so that ASCII text reads one
    character per code unit.  A call ends in a result, in an exception or
    outside the typed program, and carries the warnings it logged. *)

From Stdlib Require Import ZArith List String Ascii Bool Lia.
From Stdlib Require Import Floats DecimalString.
Import ListNotations.

Local Open Scope string_scope.
Local Open Scope Z_scope.

Set Warnings "-register-all".

(* ================================================================== *)
(** * Strings as the JavaScript runtime handles them *)
(* ================================================================== *)

Module JsString.

(** The double quote character, as a one-character string. *)
Definition dq : string := String (ascii_of_nat 34) EmptyString.

Definition len (s : string) : Z := Z.of_nat (String.length s).

(** [n] copies of the character [c]. *)
Fixpoint replicate (n : nat) (c : ascii) : string :=
  match n with
  | O => EmptyString
  | S n' => String c (replicate n' c)
  end.

(** The clamping of a relative index that [String.prototype.slice]
    applies: negative indices count from the end. *)
Definition relIndex (l i : Z) : Z :=
  if i <? 0 then Z.max (l + i) 0 else Z.min i l.

(** [s.slice(start, end)]; [None] for an omitted [end]. *)
Definition slice (s : string) (start : Z) (stop : option Z) : string :=
  let l := len s in
  let from := relIndex l start in
  let to := match stop with Some e => relIndex l e | None => l end in
  String.substring (Z.to_nat from) (Z.to_nat (Z.max (to - from) 0)) s.

(** [s.padStart(targetLength, "0")]. *)
Definition padStart0 (s : string) (targetLength : Z) : string :=
  if targetLength <=? len s then s
  else replicate (Z.to_nat (targetLength - len s)) "0"%char ++ s.

(** [s.startsWith(p)]. *)
Definition startsWith (s p : string) : bool := String.prefix p s.

(** The characters of a string, last first, and back. *)
Fixpoint rev_chars (s : string) (acc : list ascii) : list ascii :=
  match s with
  | EmptyString => acc
  | String c s' => rev_chars s' (c :: acc)
  end.

Fixpoint of_rev_chars (l : list ascii) (acc : string) : string :=
  match l with
  | [] => acc
  | c :: l' => of_rev_chars l' (String c acc)
  end.

Fixpoint drop_while (c : ascii) (l : list ascii) : list ascii :=
  match l with
  | [] => []
  | d :: l' => if Ascii.eqb d c then drop_while c l' else l
  end.

(** lodash's [trimEnd(s, c)] for a one-character set [c]: every trailing
    occurrence of [c] is removed. *)
Definition trimEnd (s : string) (c : ascii) : string :=
  of_rev_chars (drop_while c (rev_chars s [])) EmptyString.

(** The pieces of [s] around each occurrence of the character [c]
    ([s.split(c)], never empty). *)
Fixpoint split (c : ascii) (s : string) : list string :=
  match s with
  | EmptyString => [EmptyString]
  | String d s' =>
      if Ascii.eqb d c then EmptyString :: split c s'
      else match split c s' with
           | [] => [String d EmptyString]
           | p :: ps => String d p :: ps
           end
  end.

(** [xs.join(sep)]. *)
Fixpoint join (sep : string) (xs : list string) : string :=
  match xs with
  | [] => EmptyString
  | [x] => x
  | x :: rest => x ++ sep ++ join sep rest
  end.

(** The decimal digits of an integer, with a leading minus sign for a
    negative one: what [String(n)] yields for a bigint. *)
Definition ofZ (z : Z) : string := NilZero.string_of_int (Z.to_int z).

End JsString.

Import JsString.

(* ================================================================== *)
(** * Numbers: IEEE 754 binary64 *)
(* ================================================================== *)

Module JsNumber.

(** [Number(b)] for a bigint [b]: the nearest double, ties to even,
    infinite past the largest finite double. *)
Definition ofZ (z : Z) : float := SF2Prim (binary_normalize 53 1024 z 0 false).

(** [Number.MAX_SAFE_INTEGER], 2^53 - 1. *)
Definition MAX_SAFE_INTEGER : Z := 9007199254740991.
Definition MIN_SAFE_INTEGER : Z := - MAX_SAFE_INTEGER.

(** [Number.isFinite(x)] for a number. *)
Definition isFinite (x : float) : bool :=
  match Prim2SF x with
  | S754_zero _ | S754_finite _ _ _ => true
  | S754_infinity _ | S754_nan => false
  end.

(** The integral part of a finite double, fraction dropped (truncation
    towards zero); [None] for NaN and the infinities. *)
Definition truncate (x : float) : option Z :=
  match Prim2SF x with
  | S754_zero _ => Some 0
  | S754_finite s m e =>
      let a := if 0 <=? e then Z.pos m * 2 ^ e else Z.pos m / 2 ^ (- e) in
      Some (if s then - a else a)
  | S754_infinity _ | S754_nan => None
  end.

(** The value of a double, given by sign, mantissa and exponent, that is
    a mathematical integer; [None] for every other double. *)
Definition integerOf (x : spec_float) : option Z :=
  match x with
  | S754_zero _ => Some 0
  | S754_finite s m e =>
      if 0 <=? e then Some ((if s then -1 else 1) * (Z.pos m * 2 ^ e))
      else if Z.pos m mod 2 ^ (- e) =? 0
           then Some ((if s then -1 else 1) * (Z.pos m / 2 ^ (- e)))
           else None
  | S754_infinity _ | S754_nan => None
  end.

Definition toInteger (x : float) : option Z := integerOf (Prim2SF x).

(** [x % 1 === 0]: the remainder is zero exactly for the integral
    doubles (it is NaN for NaN and the infinities). *)
Definition isIntegral (x : float) : bool :=
  match toInteger x with Some _ => true | None => false end.

(** [Number.isSafeInteger(x)]. *)
Definition isSafeInteger (x : float) : bool :=
  match toInteger x with
  | Some z => Z.abs z <=? MAX_SAFE_INTEGER
  | None => false
  end.

(** ** Number::toString, radix 10

    For a positive finite [x = m * 2^e] the standard asks for integers
    [n], [k], [s] with [k >= 1], [10^(k-1) <= s < 10^k], [s * 10^(n-k)]
    rounding to [x], and [k] as small as possible. *)

(** Compares [a * 10^p] with [b * 2^q], all four integers, [a], [b] >= 0. *)
Definition cmp_scaled (a p b q : Z) : comparison :=
  (a * 10 ^ Z.max p 0 * 2 ^ Z.max (- q) 0
   ?= b * 10 ^ Z.max (- p) 0 * 2 ^ Z.max q 0).

(** [floor (m * 2^e / 10^p)]. *)
Definition floor_scaled (m e p : Z) : Z :=
  (m * 2 ^ Z.max e 0 * 10 ^ Z.max (- p) 0)
  / (2 ^ Z.max (- e) 0 * 10 ^ Z.max p 0).

(** The reals that round to [m * 2^e] lie between [lo * 2^(e-2)] and
    [hi * 2^(e-2)], bounds included exactly when [m] is even. *)
Definition round_interval (m e : Z) : Z * Z :=
  let lo := if (m =? 2 ^ 52) && (-1074 <? e) then 4 * m - 1 else 4 * m - 2 in
  (lo, 4 * m + 2).

Definition rounds_to (m e s p : Z) : bool :=
  let '(lo, hi) := round_interval m e in
  let incl := Z.even m in
  let above := match cmp_scaled s p lo (e - 2) with
               | Gt => true | Eq => incl | Lt => false end in
  let below := match cmp_scaled s p hi (e - 2) with
               | Lt => true | Eq => incl | Gt => false end in
  above && below.

(** The [n] with [10^(n-1) <= m * 2^e < 10^n], searched around the
    estimate that the binary logarithm gives. *)
Definition decimal_exponent (m e : Z) : Z :=
  let est := (Z.log2 m + e) * 30103 / 100000 in
  let ok n := match cmp_scaled 1 (n - 1) m e, cmp_scaled 1 n m e with
              | (Lt | Eq), Gt => true
              | _, _ => false
              end in
  match List.find ok (map (fun d => est + d) [-2; -1; 0; 1; 2; 3]) with
  | Some n => n
  | None => est
  end.

(** A candidate [s * 10^(n-k)]: [s] has [k] digits and the product
    rounds to [m * 2^e]. *)
Definition candidate_ok (m e k n s : Z) : bool :=
  (10 ^ (k - 1) <=? s) && (s <? 10 ^ k) && rounds_to m e s (n - k).

(** The candidates with [k] digits: for each of the two possible [n],
    the integers just below and just above [x / 10^(n-k)]. *)
Definition candidates (m e n0 k : Z) : list (Z * Z) :=
  flat_map (fun n =>
    let f := floor_scaled m e (n - k) in
    filter (fun c => candidate_ok m e k (fst c) (snd c)) [(n, f); (n, f + 1)])
    [n0; n0 + 1].

(** The distance of [s * 10^(n-k)] to [m * 2^e], on the scale on which
    every candidate with [k] digits is an integer. *)
Definition distance (m e n0 k : Z) (c : Z * Z) : Z :=
  let pmin := n0 - k in
  let '(n, s) := c in
  Z.abs (s * 10 ^ (n - k - pmin) * 10 ^ Z.max pmin 0 * 2 ^ Z.max (- e) 0
         - m * 2 ^ Z.max e 0 * 10 ^ Z.max (- pmin) 0).

(** The candidate nearest to [m * 2^e]; of two equally near ones, the
    one whose digits form an even number. *)
Fixpoint nearest (m e n0 k : Z) (best : Z * Z) (cs : list (Z * Z)) : Z * Z :=
  match cs with
  | [] => best
  | c :: cs' =>
      let dc := distance m e n0 k c in
      let db := distance m e n0 k best in
      nearest m e n0 k
        (if dc <? db then c
         else if (dc =? db) && Z.even (snd c) && negb (Z.even (snd best)) then c
         else best) cs'
  end.

Fixpoint shortest (fuel : nat) (m e n0 k : Z) : Z * Z * Z :=
  match fuel with
  | O => (n0, k, floor_scaled m e (n0 - k))
  | S fuel' =>
      match candidates m e n0 k with
      | c :: cs => let '(n, s) := nearest m e n0 k c cs in (n, k, s)
      | [] => shortest fuel' m e n0 (k + 1)
      end
  end.

Definition zeros (n : Z) : string := replicate (Z.to_nat n) "0"%char.

(** The text of a positive finite double from its [n], [k] and digits. *)
Definition render (n k : Z) (digits : string) : string :=
  if (k <=? n) && (n <=? 21) then digits ++ zeros (n - k)
  else if (0 <? n) && (n <=? 21) then
    slice digits 0 (Some n) ++ "." ++ slice digits n None
  else if (-6 <? n) && (n <=? 0) then "0." ++ zeros (- n) ++ digits
  else
    let ex := n - 1 in
    let sign := if ex <? 0 then "-" else "+" in
    let mant := if k =? 1 then digits
                else slice digits 0 (Some 1) ++ "." ++ slice digits 1 None in
    mant ++ "e" ++ sign ++ JsString.ofZ (Z.abs ex).

(** [String(x)] for a number [x]. *)
Definition toString (x : float) : string :=
  match Prim2SF x with
  | S754_nan => "NaN"
  | S754_infinity false => "Infinity"
  | S754_infinity true => "-Infinity"
  | S754_zero _ => "0"
  | S754_finite sg m e =>
      let '(n, k, s) := shortest 17 (Z.pos m) e (decimal_exponent (Z.pos m) e) 1 in
      (if sg then "-" else "") ++ render n k (JsString.ofZ s)
  end.

(** The double nearest to [m * 10^e10] for a natural [m], as the reading
    of a decimal literal yields it. *)
Definition ofDecimal (negative : bool) (m e10 : Z) : float :=
  let signed (z : Z) := if negative then - z else z in
  if m =? 0 then (if negative then (-0)%float else 0%float)
  else if 400 <? e10 then (if negative then neg_infinity else infinity)
  else if e10 + Z.log2 m <? -1200 then (if negative then (-0)%float else 0%float)
  else if 0 <=? e10 then
    SF2Prim (binary_normalize 53 1024 (signed (m * 10 ^ e10)) 0 negative)
  else
    let d := 10 ^ (- e10) in
    let sh := Z.max 0 (Z.log2 d - Z.log2 m + 66) in
    let q := (m * 2 ^ sh) / d in
    let sticky := if (m * 2 ^ sh) mod d =? 0 then 0 else 1 in
    SF2Prim (binary_normalize 53 1024 (signed (2 * q + sticky)) (- sh - 1) negative).

End JsNumber.

(* ================================================================== *)
(** * Number formatting (numbro) *)
(* ================================================================== *)

(** [numbro(value).format(pattern)] for a finite [value] and a pattern
    made of zeros, an optional comma and a point followed by zeros, such
    as "0,0.0000", which the specification writes [#,##0.0000].  The
    library is not among the sources; the model follows numbro 2: the
    pattern is parsed into a precision and a grouping flag, the number is
    rounded to the precision, the digits before the point are grouped and
    the sign is put back. *)
Module Numbro.

Fixpoint countZeros (s : string) : Z :=
  match s with
  | EmptyString => 0
  | String c s' => (if Ascii.eqb c "0" then 1 else 0) + countZeros s'
  end.

Fixpoint contains (c : ascii) (s : string) : bool :=
  match s with
  | EmptyString => false
  | String d s' => Ascii.eqb d c || contains c s'
  end.

(** The precision of a pattern: the number of zeros after its point. *)
Definition mantissaOf (pattern : string) : Z :=
  match split "." pattern with
  | _ :: m :: _ => countZeros m
  | _ => 0
  end.

(** A comma in the pattern asks for thousands separators. *)
Definition thousandSeparatedOf (pattern : string) : bool := contains "," pattern.

(** The text [String(x)] of a finite double other than zero, taken
    apart: the sign, and the [n], [k] and digits [s] of [Number::toString],
    for which [|x|] reads [s * 10^(n-k)]. *)
Definition digitsOf (x : float) : option (bool * Z * Z * Z) :=
  match Prim2SF x with
  | S754_finite sg m e =>
      let '(n, k, s) :=
        JsNumber.shortest 17 (Z.pos m) e (JsNumber.decimal_exponent (Z.pos m) e) 1 in
      Some (sg, n, k, s)
  | _ => None
  end.

(** [String(x)] holds an exponent: [x] is at least 10^21 or below
    10^-6. *)
Definition usesExponent (n : Z) : bool := (21 <? n) || (n <? -5).

(** [Math.round(x)]: the nearest integer, a half rounded upwards. *)
Definition round (x : float) : float :=
  match Prim2SF x with
  | S754_finite sg m e =>
      if 0 <=? e then x
      else
        let num := if sg then - Z.pos m else Z.pos m in
        let k := (2 * num + 2 ^ (- e)) / (2 * 2 ^ (- e)) in
        if k =? 0 then (if sg then (-0)%float else 0%float) else JsNumber.ofZ k
  | _ => x
  end.

(** [s * 10^p] cut to an integer, and rounded to the nearest integer
    with a half rounded upwards, for a natural [s]. *)
Definition truncated (s p : Z) : Z :=
  if 0 <=? p then s * 10 ^ p else s / 10 ^ (- p).

Definition halfUp (s p : Z) : Z :=
  if 0 <=? p then s * 10 ^ p else (2 * s + 10 ^ (- p)) / (2 * 10 ^ (- p)).

(** [toFixed(value, precision)] of numbro, as the number of units of
    [10^-precision] in its result, sign apart.  A value whose text holds
    an exponent is written out digit by digit and cut.  Any other value
    is shifted by appending "e+precision" to its text, rounded with
    [Math.round], divided by [10^precision] and printed by bignumber.js
    with [precision] decimals, which reads the shortest text of the
    quotient and rounds a half upwards. *)
Definition toFixed (value : float) (precision : Z) : Z :=
  match digitsOf value with
  | None => 0
  | Some (sg, n, k, s) =>
      if usesExponent n then truncated s (n - k + precision)
      else
        let shifted := JsNumber.ofDecimal sg s (n - k + precision) in
        let rounded := (round shifted / JsNumber.ofZ (10 ^ precision))%float in
        match digitsOf rounded with
        | None => 0
        | Some (_, n', k', s') => halfUp s' (n' - k' + precision)
        end
  end.

(** The digits in groups of three, counted from the right. *)
Fixpoint threes (s : string) : list string :=
  match s with
  | String a (String b (String c rest)) =>
      String a (String b (String c EmptyString)) :: threes rest
  | _ => []
  end.

Definition groups (digits : string) : list string :=
  match (String.length digits mod 3)%nat, digits with
  | 1%nat, String a rest => String a EmptyString :: threes rest
  | 2%nat, String a (String b rest) => String a (String b EmptyString) :: threes rest
  | _, _ => threes digits
  end.

(** The last [n] decimal digits of a natural number. *)
Fixpoint lastDigits (n : nat) (f : Z) : string :=
  match n with
  | O => EmptyString
  | S n' => lastDigits n' (f / 10) ++ JsString.ofZ (f mod 10)
  end.

(** The digits before the point, grouped when the pattern asks for it,
    the point, and the digits after it; a minus sign in front for a
    negative value unless every digit is zero. *)
Definition format (value : float) (pattern : string) : string :=
  let precision := mantissaOf pattern in
  let units := toFixed value precision in
  let whole := JsString.ofZ (units / 10 ^ precision) in
  let fraction := lastDigits (Z.to_nat precision) units in
  let sign := if (value <? 0)%float && negb (units =? 0) then "-" else "" in
  sign ++ (if thousandSeparatedOf pattern then join "," (groups whole) else whole)
       ++ "." ++ fraction.

End Numbro.

(* ================================================================== *)
(** * Outcomes of a call: result, exception, logged warnings *)
(* ================================================================== *)

(** What a [throw] carries: [new Error(message)], or one of the two
    built-in errors the runtime raises (their text is the engine's). *)
Inductive JsError : Type :=
| Error (message : string)
| SyntaxError
| TypeError.

(** How a call ends.  [OffContract] marks a run that left the typed
    program: a value reached a cast ([x as T]) that its shape does not
    satisfy, or a callee declared to return a string returned something
    else.  What the untyped runtime does from there is not modelled. *)
Inductive Outcome (A : Type) : Type :=
| Returns (a : A)
| Throws (e : JsError)
| OffContract.

Arguments Returns {A} a.
Arguments Throws {A} e.
Arguments OffContract {A}.

(** A call of an effectful function: the warnings it logged, oldest
    first, and how it ended. *)
Definition Eff (A : Type) : Type := (list string * Outcome A)%type.

Definition ret {A} (a : A) : Eff A := ([], Returns a).
Definition throw {A} (e : JsError) : Eff A := ([], Throws e).
Definition offContract {A} : Eff A := ([], OffContract).

Definition bind {A B} (m : Eff A) (k : A -> Eff B) : Eff B :=
  match m with
  | (w, Returns a) => let '(w', o) := k a in (app w w', o)
  | (w, Throws e) => (w, Throws e)
  | (w, OffContract) => (w, OffContract)
  end.

Notation "x <- m ;; k" := (bind m (fun x => k))
  (at level 61, m at next level, right associativity).

(** Modelled from the spec: [logWarning] of util/log, which is not among
    the sources: a best-effort diagnostic, recorded here as one more line
    of the call's warnings. *)
Definition logWarning (message : string) : Eff unit := ([message], Returns tt).

(** A pure step that may throw, run as an effectful one. *)
Definition lift {A} (o : Outcome A) : Eff A := ([], o).

(* ================================================================== *)
(** * Cell values and type metadata *)
(* ================================================================== *)

(** The values a cell (or a part of a nested cell) can hold. *)
Inductive JsValue : Type :=
| VUndefined
| VNull
| VBool (b : bool)
| VNumber (x : float)
| VBigInt (z : Z)
| VString (s : string)
| VDate (t : option Z)               (* time value in ms; [None]: invalid date *)
| VUint32Array (words : list Z)      (* unscaled decimal, least significant word first *)
| VArray (items : list JsValue)
| VObject (props : list (string * JsValue))      (* own properties, as enumerated *)
| VStructRow (props : list (string * JsValue))   (* Arrow struct cell: what toJSON() holds *)
| VVector (items : list JsValue).                (* Arrow list cell *)

(** [number | bigint], the declared type of timestamps and durations. *)
Inductive Numeric : Type :=
| NumNumber (x : float)
| NumBigInt (z : Z).

(** The pandas type descriptor of a column. *)
Record Type_ : Type := mkType {
  pandas_type : string;
  numpy_type : string;
  meta : option (list (string * string))
}.

(** The Arrow classes the code tests with [instanceof]. *)
Inductive TypeId : Type := Struct | Timestamp | Float | OtherType.

(** An Arrow field: its physical type and its string metadata. *)
Inductive ArrowType : Type :=
| mkArrowType (typeId : TypeId) (unit : option Z) (timezone : option string)
              (scale : option Z) (children : list Field)
with Field : Type :=
| mkField (type : ArrowType) (metadata : list (string * string)).

Definition typeId (t : ArrowType) : TypeId := let 'mkArrowType i _ _ _ _ := t in i.
Definition unit_ (t : ArrowType) : option Z := let 'mkArrowType _ u _ _ _ := t in u.
Definition timezone (t : ArrowType) : option string := let 'mkArrowType _ _ z _ _ := t in z.
Definition scale (t : ArrowType) : option Z := let 'mkArrowType _ _ _ s _ := t in s.
Definition children (t : ArrowType) : list Field := let 'mkArrowType _ _ _ _ c := t in c.
Definition type (f : Field) : ArrowType := let 'mkField t _ := f in t.
Definition metadata (f : Field) : list (string * string) := let 'mkField _ m := f in m.

(** [map.get(key)] on the metadata of a field. *)
Fixpoint get (key : string) (m : list (string * string)) : option string :=
  match m with
  | [] => None
  | (k, v) :: m' => if String.eqb k key then Some v else get key m'
  end.

(** [TimeUnit] of Arrow. *)
Module TimeUnit.
Definition SECOND : Z := 0.
Definition MILLISECOND : Z := 1.
Definition MICROSECOND : Z := 2.
Definition NANOSECOND : Z := 3.
End TimeUnit.

(** Modelled from the spec: [isNullOrUndefined] and [notNullOrUndefined]
    of util/utils, which is not among the sources. *)
Definition isNullOrUndefined (v : JsValue) : bool :=
  match v with VUndefined | VNull => true | _ => false end.

Definition notNullOrUndefined (v : JsValue) : bool := negb (isNullOrUndefined v).

(** The own property [key] of a value; [undefined] when there is none. *)
Fixpoint getProp (key : string) (props : list (string * JsValue)) : JsValue :=
  match props with
  | [] => VUndefined
  | (k, v) :: ps => if String.eqb k key then v else getProp key ps
  end.

(** Assignment to a property: an existing one keeps its place. *)
Fixpoint setProp (key : string) (v : JsValue) (props : list (string * JsValue))
  : list (string * JsValue) :=
  match props with
  | [] => [(key, v)]
  | (k, w) :: ps =>
      if String.eqb k key then (k, v) :: ps else (k, w) :: setProp key v ps
  end.

Definition asNumeric (v : JsValue) : option Numeric :=
  match v with
  | VNumber x => Some (NumNumber x)
  | VBigInt z => Some (NumBigInt z)
  | _ => None
  end.

(** [Number(v)] and [String(v)] on [number | bigint]. *)
Definition Number_ (v : Numeric) : float :=
  match v with
  | NumNumber x => x
  | NumBigInt z => JsNumber.ofZ z
  end.

Definition String_ (v : Numeric) : string :=
  match v with
  | NumNumber x => JsNumber.toString x
  | NumBigInt z => JsString.ofZ z
  end.

(* ================================================================== *)
(** * Calendar arithmetic (moment.js) *)
(* ================================================================== *)

Module Calendar.

Definition MS_PER_DAY : Z := 86400000.

(** The largest time value of a Date, in ms either side of the epoch. *)
Definition MAX_TIME : Z := 8640000000000000.

(** A moment: the milliseconds since 1970-01-01T00:00 of a valid one,
    [None] for an invalid one.  The count is on the wall clock the moment
    is read on: UTC for [moment.utc], the local calendar for the periods
    counted in days and more. *)
Definition Moment : Type := option Z.

Definition timeClip (t : Z) : Moment :=
  if Z.abs t <=? MAX_TIME then Some t else None.

(** Day number since 1970-01-01 to proleptic Gregorian (year, month,
    day), months and days from 1. *)
Definition civil_from_days (z : Z) : Z * Z * Z :=
  let z := z + 719468 in
  let era := z / 146097 in
  let doe := z - era * 146097 in
  let yoe := (doe - doe / 1460 + doe / 36524 - doe / 146096) / 365 in
  let doy := doe - (365 * yoe + yoe / 4 - yoe / 100) in
  let mp := (5 * doy + 2) / 153 in
  let d := doy - (153 * mp + 2) / 5 + 1 in
  let m := if mp <? 10 then mp + 3 else mp - 9 in
  let y := yoe + era * 400 in
  ((if m <=? 2 then y + 1 else y), m, d).

Definition days_from_civil (y m d : Z) : Z :=
  let y := if m <=? 2 then y - 1 else y in
  let era := y / 400 in
  let yoe := y - era * 400 in
  let doy := (153 * (if 2 <? m then m - 3 else m + 9) + 2) / 5 + d - 1 in
  let doe := yoe * 365 + yoe / 4 - yoe / 100 + doy in
  era * 146097 + doe - 719468.

Definition isLeap (y : Z) : bool :=
  ((y mod 4 =? 0) && negb (y mod 100 =? 0)) || (y mod 400 =? 0).

Definition daysInMonth (y m : Z) : Z :=
  if m =? 2 then (if isLeap y then 29 else 28)
  else if (m =? 4) || (m =? 6) || (m =? 9) || (m =? 11) then 30 else 31.

(** Day number and millisecond of the day of a time value. *)
Definition dayOf (t : Z) : Z := t / MS_PER_DAY.
Definition msOfDay (t : Z) : Z := t mod MS_PER_DAY.

(** Day of the week of a day number, Sunday 0; 1970-01-01 was a Thursday. *)
Definition weekday (day : Z) : Z := (day + 4) mod 7.

(** [moment("19700101", "YYYYMMDD")]. *)
Definition epoch : Moment := Some 0.

(** [m.add(n, unit)] for the units counted in milliseconds. *)
Definition addMs (n : Z) (m : Moment) : Moment :=
  match m with Some t => timeClip (t + n) | None => None end.
Definition addSeconds (n : Z) := addMs (n * 1000).
Definition addMinutes (n : Z) := addMs (n * 60000).
Definition addHours (n : Z) := addMs (n * 3600000).

(** [m.add(n, "d")] and [m.add(n, "w")]: whole days on the calendar. *)
Definition addDays (n : Z) := addMs (n * MS_PER_DAY).
Definition addWeeks (n : Z) := addDays (7 * n).

(** [m.add(n, "M")]: the month moves, the day of the month is kept, cut
    to the length of the month reached. *)
Definition addMonths (n : Z) (m : Moment) : Moment :=
  match m with
  | None => None
  | Some t =>
      let '(y, mo, d) := civil_from_days (dayOf t) in
      let idx := mo - 1 + n in
      let y' := y + idx / 12 in
      let mo' := idx mod 12 + 1 in
      let d' := Z.min d (daysInMonth y' mo') in
      timeClip (days_from_civil y' mo' d' * MS_PER_DAY + msOfDay t)
  end.
Definition addQuarters (n : Z) := addMonths (3 * n).
Definition addYears (n : Z) := addMonths (12 * n).

(** [m.day(k)]: the day of the week is set within the week of [m]; a [k]
    outside 0..6 reaches into the neighbouring weeks. *)
Definition day (k : Z) (m : Moment) : Moment :=
  match m with
  | None => None
  | Some t => addDays (k - weekday (dayOf t)) (Some t)
  end.

(** [m.endOf("quarter")]: the last millisecond of the quarter of [m]. *)
Definition endOfQuarter (m : Moment) : Moment :=
  match m with
  | None => None
  | Some t =>
      let '(y, mo, _) := civil_from_days (dayOf t) in
      let next := (mo - 1) - (mo - 1) mod 3 + 3 in
      timeClip (days_from_civil (y + next / 12) (next mod 12 + 1) 1 * MS_PER_DAY - 1)
  end.

(** [zeroFill(n, width)] of moment: the sign, then the digits padded. *)
Definition zeroFill (n width : Z) : string :=
  (if n <? 0 then "-" else "") ++ padStart0 (JsString.ofZ (Z.abs n)) width.

Definition year (t : Z) : Z := let '(y, _, _) := civil_from_days (dayOf t) in y.
Definition month (t : Z) : Z := let '(_, m, _) := civil_from_days (dayOf t) in m.
Definition date (t : Z) : Z := let '(_, _, d) := civil_from_days (dayOf t) in d.

(** The tokens of a format string. *)
Definition YYYY (t : Z) : string := zeroFill (year t) 4.
Definition MM (t : Z) : string := zeroFill (month t) 2.
Definition DD (t : Z) : string := zeroFill (date t) 2.
Definition HH (t : Z) : string := zeroFill (msOfDay t / 3600000) 2.
Definition mm (t : Z) : string := zeroFill (msOfDay t / 60000 mod 60) 2.
Definition ss (t : Z) : string := zeroFill (msOfDay t / 1000 mod 60) 2.
Definition SSS (t : Z) : string := zeroFill (msOfDay t mod 1000) 3.
Definition Q (t : Z) : string := JsString.ofZ ((month t - 1) / 3 + 1).

(** [m.format(...)]: the text of an invalid moment is fixed. *)
Definition formatWith (render : Z -> string) (m : Moment) : string :=
  match m with
  | Some t => render t
  | None => "Invalid date"
  end.

Definition isoDate (t : Z) : string := YYYY t ++ "-" ++ MM t ++ "-" ++ DD t.
Definition clock (t : Z) : string := HH t ++ ":" ++ mm t ++ ":" ++ ss t.

(** [moment.utc(x)] for a number: the time value [new Date(x)] holds. *)
Definition ofNumber (x : float) : Moment :=
  match JsNumber.truncate x with
  | Some t => timeClip t
  | None => None
  end.

End Calendar.

(* ================================================================== *)
(** * JSON text *)
(* ================================================================== *)

Module JSON.

Definition isWhitespace (c : ascii) : bool :=
  let n := nat_of_ascii c in
  (Nat.eqb n 32 || Nat.eqb n 9 || Nat.eqb n 10 || Nat.eqb n 13)%bool.

Fixpoint skipWhitespace (s : string) : string :=
  match s with
  | String c s' => if isWhitespace c then skipWhitespace s' else s
  | EmptyString => s
  end.

Definition digit (c : ascii) : option Z :=
  let n := Z.of_nat (nat_of_ascii c) in
  if (48 <=? n) && (n <=? 57) then Some (n - 48) else None.

Definition hexDigit (c : ascii) : option Z :=
  let n := Z.of_nat (nat_of_ascii c) in
  if (48 <=? n) && (n <=? 57) then Some (n - 48)
  else if (97 <=? n) && (n <=? 102) then Some (n - 87)
  else if (65 <=? n) && (n <=? 70) then Some (n - 55)
  else None.

Definition char (n : Z) : ascii := ascii_of_nat (Z.to_nat n).

Definition quoteChar : ascii := ascii_of_nat 34.

(** The UTF-8 bytes of a code point below 2^16. *)
Definition utf8 (cp : Z) : string :=
  if cp <? 128 then String (char cp) EmptyString
  else if cp <? 2048 then
    String (char (192 + cp / 64)) (String (char (128 + cp mod 64)) EmptyString)
  else
    String (char (224 + cp / 4096))
      (String (char (128 + cp / 64 mod 64))
         (String (char (128 + cp mod 64)) EmptyString)).

(** The characters of a string literal after its opening quote, up to
    the closing one, escapes decoded; and the text that follows. *)
Fixpoint stringBody (s : string) : option (string * string) :=
  match s with
  | EmptyString => None
  | String c s1 =>
      let n := nat_of_ascii c in
      if Nat.eqb n 34 then Some (EmptyString, s1)
      else if Nat.ltb n 32 then None
      else if Nat.eqb n 92 then
        match s1 with
        | EmptyString => None
        | String e s2 =>
            let continue (decoded : string) (rest : option (string * string)) :=
              match rest with
              | Some (body, tail) => Some (decoded ++ body, tail)
              | None => None
              end in
            let one (k : Z) := String (char k) EmptyString in
            match nat_of_ascii e with
            | 34%nat => continue (one 34) (stringBody s2)
            | 92%nat => continue (one 92) (stringBody s2)
            | 47%nat => continue (one 47) (stringBody s2)
            | 98%nat => continue (one 8) (stringBody s2)
            | 102%nat => continue (one 12) (stringBody s2)
            | 110%nat => continue (one 10) (stringBody s2)
            | 114%nat => continue (one 13) (stringBody s2)
            | 116%nat => continue (one 9) (stringBody s2)
            | 117%nat =>
                match s2 with
                | String h1 (String h2 (String h3 (String h4 s6))) =>
                    match hexDigit h1, hexDigit h2, hexDigit h3, hexDigit h4 with
                    | Some a, Some b, Some c', Some d =>
                        continue (utf8 (((a * 16 + b) * 16 + c') * 16 + d))
                                 (stringBody s6)
                    | _, _, _, _ => None
                    end
                | _ => None
                end
            | _ => None
            end
        end
      else
        match stringBody s1 with
        | Some (body, tail) => Some (String c body, tail)
        | None => None
        end
  end.

(** A run of decimal digits: its value, how many there were, the rest. *)
Fixpoint digits (s : string) (acc count : Z) : Z * Z * string :=
  match s with
  | String c s' =>
      match digit c with
      | Some d => digits s' (acc * 10 + d) (count + 1)
      | None => (acc, count, s)
      end
  | EmptyString => (acc, count, s)
  end.

(** A number literal: [-]int[.frac][e[+-]exp], no leading zeros. *)
Definition number (s : string) : option (float * string) :=
  let '(negative, s0) :=
    match s with
    | String "-"%char r => (true, r)
    | _ => (false, s)
    end in
  let '(int, nInt, s1) := digits s0 0 0 in
  let leadingZero := match s0 with String "0"%char _ => true | _ => false end in
  if (nInt =? 0) || (leadingZero && (1 <? nInt)) then None
  else
    let fraction :=
      match s1 with
      | String "."%char r =>
          let '(m, nFrac, s2) := digits r int 0 in
          if nFrac =? 0 then None else Some (m, nFrac, s2)
      | _ => Some (int, 0, s1)
      end in
    match fraction with
    | None => None
    | Some (m, nFrac, s2) =>
        let exponent :=
          match s2 with
          | String c r =>
              if (Ascii.eqb c "e" || Ascii.eqb c "E")%bool then
                let '(sign, r') :=
                  match r with
                  | String "-"%char r' => (-1, r')
                  | String "+"%char r' => (1, r')
                  | _ => (1, r)
                  end in
                let '(ex, nEx, s3) := digits r' 0 0 in
                if nEx =? 0 then None else Some (sign * ex, s3)
              else Some (0, s2)
          | EmptyString => Some (0, s2)
          end in
        match exponent with
        | None => None
        | Some (ex, s3) => Some (JsNumber.ofDecimal negative m (ex - nFrac), s3)
        end
    end.

(** One JSON value at the head of the text, and the text after it. *)
Fixpoint value (fuel : nat) (s : string) : option (JsValue * string) :=
  match fuel with
  | O => None
  | S fuel' =>
      match skipWhitespace s with
      | String "{"%char r =>
          match skipWhitespace r with
          | String "}"%char r' => Some (VObject [], r')
          | r' => members fuel' r' []
          end
      | String "["%char r =>
          match skipWhitespace r with
          | String "]"%char r' => Some (VArray [], r')
          | r' => elements fuel' r' []
          end
      | String c r as s' =>
          if Ascii.eqb c quoteChar then
            match stringBody r with
            | Some (body, tail) => Some (VString body, tail)
            | None => None
            end
          else if String.prefix "true" s' then Some (VBool true, JsString.slice s' 4 None)
          else if String.prefix "false" s' then Some (VBool false, JsString.slice s' 5 None)
          else if String.prefix "null" s' then Some (VNull, JsString.slice s' 4 None)
          else match number s' with
               | Some (x, tail) => Some (VNumber x, tail)
               | None => None
               end
      | EmptyString => None
      end
  end
with elements (fuel : nat) (s : string) (acc : list JsValue)
  : option (JsValue * string) :=
  match fuel with
  | O => None
  | S fuel' =>
      match value fuel' s with
      | Some (v, r) =>
          match skipWhitespace r with
          | String ","%char r' => elements fuel' r' (app acc [v])
          | String "]"%char r' => Some (VArray (app acc [v]), r')
          | _ => None
          end
      | None => None
      end
  end
with members (fuel : nat) (s : string) (acc : list (string * JsValue))
  : option (JsValue * string) :=
  match fuel with
  | O => None
  | S fuel' =>
      match skipWhitespace s with
      | String c r =>
          if Ascii.eqb c quoteChar then
            match stringBody r with
            | Some (key, r1) =>
                match skipWhitespace r1 with
                | String ":"%char r2 =>
                    match value fuel' r2 with
                    | Some (v, r3) =>
                        match skipWhitespace r3 with
                        | String ","%char r4 => members fuel' r4 (setProp key v acc)
                        | String "}"%char r4 => Some (VObject (setProp key v acc), r4)
                        | _ => None
                        end
                    | None => None
                    end
                | _ => None
                end
            | None => None
            end
          else None
      | EmptyString => None
      end
  end.

(** [JSON.parse(text)]: the value of a text that is one JSON value and
    nothing else; a [SyntaxError] for any other text. *)
Definition parse (text : string) : Outcome JsValue :=
  match value (2 * String.length text + 2) text with
  | Some (v, rest) =>
      match skipWhitespace rest with
      | EmptyString => Returns v
      | _ => Throws SyntaxError
      end
  | None => Throws SyntaxError
  end.

End JSON.

(* ================================================================== *)
(** * Library renderers taken as given *)
(* ================================================================== *)

(** What the formatting code calls and this development does not unfold:
    the type classifier of arrowTypeUtils (its tests are among the
    sources, its code is not), renderers of moment and the runtime whose
    text no property below depends on, and the time zone of the runtime.
    Each is a total function: these calls return normally. *)
Class Externals : Type := {
  (** [getTypeName(type)] of arrowTypeUtils. *)
  getTypeName : Type_ -> string;
  (** [moment.duration(seconds, "seconds").humanize()]. *)
  humanize : float -> string;
  (** [m.tz(zone).format("YYYY-MM-DD HH:mm:ssZ")] for a zone of the zone
      database, and [m.utcOffset(zone).format(...)] for any other text. *)
  zonedFormat : Calendar.Moment -> string -> string;
  (** [String(d)] for a Date [d], given its time value. *)
  dateToString : option Z -> string;
  (** [String(v)] for an Arrow struct row or vector [v]. *)
  arrowToString : JsValue -> string;
  (** [Number(s)] for a string [s]: the number its text denotes, NaN
      when it denotes none. *)
  stringToNumber : string -> float;
  (** The local time zone of the runtime, as the standard's
      [LocalTZA(t, isUTC)]: the offset of local time from UTC, in
      milliseconds, at the time value [t], or at the local wall-clock
      time [t] when [isUTC] is false. *)
  localTZA : Z -> bool -> Z
}.

Section Formatting.

Context {E : Externals}.

(** [String(v)] for any cell value. *)
Fixpoint toString (v : JsValue) : string :=
  match v with
  | VUndefined => "undefined"
  | VNull => "null"
  | VBool true => "true"
  | VBool false => "false"
  | VNumber x => JsNumber.toString x
  | VBigInt z => JsString.ofZ z
  | VString s => s
  | VDate t => dateToString t
  | VUint32Array words => join "," (map JsString.ofZ words)
  | VArray items =>
      join "," (map (fun i => if isNullOrUndefined i then "" else toString i) items)
  | VObject _ => "[object Object]"
  | VStructRow _ | VVector _ => arrowToString v
  end.

(** [Number(v)] for any cell value: a Date gives its time value, any
    other object the number that its text denotes. *)
Definition toNumber (v : JsValue) : float :=
  match v with
  | VUndefined => nan
  | VNull => 0%float
  | VBool true => 1%float
  | VBool false => 0%float
  | VNumber x => x
  | VBigInt z => JsNumber.ofZ z
  | VString s => stringToNumber s
  | VDate (Some t) => JsNumber.ofZ t
  | VDate None => nan
  | _ => stringToNumber (toString v)
  end.

End Formatting.

(* ================================================================== *)
(** * JSON.stringify *)
(* ================================================================== *)

Module Stringify.

Definition hex (n : Z) : ascii :=
  JSON.char (if n <? 10 then 48 + n else 87 + n).

(** The escape of one character inside a JSON string. *)
Definition escapeChar (c : ascii) : string :=
  let n := Z.of_nat (nat_of_ascii c) in
  if n =? 34 then "\" ++ dq
  else if n =? 92 then "\\"
  else if n =? 8 then "\b"
  else if n =? 12 then "\f"
  else if n =? 10 then "\n"
  else if n =? 13 then "\r"
  else if n =? 9 then "\t"
  else if n <? 32 then "\u00" ++ String (hex (n / 16)) (String (hex (n mod 16)) EmptyString)
  else String c EmptyString.

Fixpoint escape (s : string) : string :=
  match s with
  | EmptyString => EmptyString
  | String c s' => escapeChar c ++ escape s'
  end.

Definition quote (s : string) : string := dq ++ escape s ++ dq.

(** [d.toISOString()] for a valid time value. *)
Definition toISOString (t : Z) : string :=
  let y := Calendar.year t in
  let yyyy := if (0 <=? y) && (y <=? 9999) then Calendar.zeroFill y 4
              else (if y <? 0 then "-" else "+") ++ padStart0 (JsString.ofZ (Z.abs y)) 6 in
  yyyy ++ "-" ++ Calendar.MM t ++ "-" ++ Calendar.DD t ++ "T"
       ++ Calendar.clock t ++ "." ++ Calendar.SSS t ++ "Z".

(** What the serialization of one property value comes to: its text,
    nothing at all ([undefined]), or a [TypeError]. *)
Inductive Serialized : Type :=
| Text (s : string)
| Omitted
| Raised.

(** The key-value pairs of a typed array: its indices and elements. *)
Fixpoint indexed (i : Z) (words : list Z) : list (string * JsValue) :=
  match words with
  | [] => []
  | w :: ws => (JsString.ofZ i, VNumber (JsNumber.ofZ w)) :: indexed (i + 1) ws
  end.

(** A value that is not an object, once the replacer has seen it. *)
Definition leaf (v : JsValue) : Serialized :=
  match v with
  | VNull => Text "null"
  | VBool true => Text "true"
  | VBool false => Text "false"
  | VString s => Text (quote s)
  | VNumber x => Text (if JsNumber.isFinite x then JsNumber.toString x else "null")
  | VBigInt _ => Raised
  | _ => Omitted
  end.

(** The elements of an array: a missing text reads [null]. *)
Fixpoint arrayItems (items : list Serialized) : option (list string) :=
  match items with
  | [] => Some []
  | Raised :: _ => None
  | Text s :: rest => option_map (cons s) (arrayItems rest)
  | Omitted :: rest => option_map (cons "null") (arrayItems rest)
  end.

(** The members of an object: a property with no text is left out. *)
Fixpoint objectMembers (props : list (string * Serialized)) : option (list string) :=
  match props with
  | [] => Some []
  | (_, Raised) :: _ => None
  | (k, Text s) :: rest => option_map (cons (quote k ++ ":" ++ s)) (objectMembers rest)
  | (_, Omitted) :: rest => objectMembers rest
  end.

Definition array (items : list Serialized) : Serialized :=
  match arrayItems items with
  | Some texts => Text ("[" ++ join "," texts ++ "]")
  | None => Raised
  end.

Definition object (props : list (string * Serialized)) : Serialized :=
  match objectMembers props with
  | Some texts => Text ("{" ++ join "," texts ++ "}")
  | None => Raised
  end.

(** SerializeJSONProperty with a replacer function.  A value with a
    [toJSON] method (a Date, an Arrow struct row or vector) is replaced by
    what the method returns; the replacer then sees the value.  Both
    replacers of [formatObject] hand objects and arrays back as they got
    them, and the serialization is defined for such replacers: [replacer]
    is asked about the values that are not objects. *)
Fixpoint serialize (replacer : JsValue -> JsValue) (v : JsValue) : Serialized :=
  match v with
  | VArray items | VVector items =>
      array (map (serialize replacer) items)
  | VObject props | VStructRow props =>
      object (map (fun kv => let '(k, w) := kv in (k, serialize replacer w)) props)
  | VUint32Array words =>
      object (map (fun kv => let '(k, w) := kv in (k, leaf (replacer w)))
                  (indexed 0 words))
  | VDate (Some t) => leaf (replacer (VString (toISOString t)))
  | VDate None => leaf (replacer VNull)
  | _ => leaf (replacer v)
  end.

(** [JSON.stringify(value, replacer)]: a string, or [undefined]. *)
Definition stringify (v : JsValue) (replacer : JsValue -> JsValue)
  : Outcome (option string) :=
  match serialize replacer v with
  | Text s => Returns (Some s)
  | Omitted => Returns None
  | Raised => Throws TypeError
  end.

End Stringify.

(* ================================================================== *)
(** * The period formatters and their table *)
(* ================================================================== *)

Import Calendar.

(** The formatters take the duration as an integer: their one caller,
    [formatPeriodFromFreq], passes a number it has checked to be a safe
    integer.

    [moment("19700101", "YYYYMMDD")] is midnight of 1970-01-01 on the
    local wall clock.  The units from the day upwards are added on the
    local calendar, on which that midnight is day 0 of [epoch] whatever
    the zone.  Milliseconds, seconds, minutes and hours are added to the
    time value as elapsed time, and the result is read back on the local
    wall clock: these four formatters depend on the zone. *)

Section PeriodTable.

Context {E : Externals}.

Definition WEEKDAY_SHORT : list string :=
  ["SUN"; "MON"; "TUE"; "WED"; "THU"; "FRI"; "SAT"].

(** The time value of local midnight of 1970-01-01, as
    [new Date(1970, 0, 1)] computes it. *)
Definition localEpoch : Moment := timeClip (0 - localTZA 0 false).

(** The wall-clock reading of a moment in the local zone, on which the
    getters of a Date work. *)
Definition localTime (m : Moment) : Moment :=
  match m with
  | Some t => Some (t + localTZA t true)
  | None => None
  end.

Definition formatMs (duration : Z) : string :=
  formatWith (fun t => isoDate t ++ " " ++ clock t ++ "." ++ SSS t)
             (localTime (addMs duration localEpoch)).

Definition formatSec (duration : Z) : string :=
  formatWith (fun t => isoDate t ++ " " ++ clock t)
             (localTime (addSeconds duration localEpoch)).

Definition formatMin (duration : Z) : string :=
  formatWith (fun t => isoDate t ++ " " ++ HH t ++ ":" ++ mm t)
             (localTime (addMinutes duration localEpoch)).

Definition formatHours (duration : Z) : string :=
  formatWith (fun t => isoDate t ++ " " ++ HH t ++ ":" ++ mm t)
             (localTime (addHours duration localEpoch)).

Definition formatDay (duration : Z) : string :=
  formatWith isoDate (addDays duration epoch).

Definition formatMonth (duration : Z) : string :=
  formatWith (fun t => YYYY t ++ "-" ++ MM t) (addMonths duration epoch).

Definition formatYear (duration : Z) : string :=
  formatWith YYYY (addYears duration epoch).

(** [xs.indexOf(x)]: the first position of [x], -1 when there is none. *)
Fixpoint indexOf (x : string) (xs : list string) : Z :=
  match xs with
  | [] => -1
  | y :: ys =>
      if String.eqb y x then 0
      else let i := indexOf x ys in if i <? 0 then -1 else i + 1
  end.

(** [JSON.stringify] of an array of strings. *)
Definition stringifyStrings (xs : list string) : string :=
  "[" ++ join "," (map Stringify.quote xs) ++ "]".

Definition formatWeeks (duration : Z) (freqParam : option string) : Outcome string :=
  match freqParam with
  | None | Some EmptyString =>
      Throws (Error ("Frequency " ++ dq ++ "W" ++ dq ++ " requires parameter"))
  | Some freqParam =>
      let dayIndex := indexOf freqParam WEEKDAY_SHORT in
      if dayIndex <? 0 then
        Throws (Error ("Invalid value: " ++ freqParam ++ ". Supported values: "
                       ++ stringifyStrings WEEKDAY_SHORT))
      else
        let startDate :=
          formatWith isoDate (day (dayIndex - 6) (addWeeks duration epoch)) in
        let endDate :=
          formatWith isoDate (day dayIndex (addWeeks duration epoch)) in
        Returns (startDate ++ "/" ++ endDate)
  end.

Definition formatQuarter (duration : Z) : string :=
  formatWith (fun t => YYYY t ++ "Q" ++ Q t)
             (endOfQuarter (addQuarters duration epoch)).

(** A formatter of the table: [(duration, freqParam?) => string]. *)
Definition Formatter : Type := Z -> option string -> Outcome string.

Definition unary (f : Z -> string) : Formatter := fun duration _ => Returns (f duration).

Definition PERIOD_TYPE_FORMATTERS : list (string * Formatter) :=
  [ ("L", unary formatMs);
    ("ms", unary formatMs);
    ("S", unary formatSec);
    ("s", unary formatSec);
    ("T", unary formatMin);
    ("min", unary formatMin);
    ("H", unary formatHours);
    ("h", unary formatHours);
    ("D", unary formatDay);
    ("M", unary formatMonth);
    ("W", formatWeeks);
    ("Q", unary formatQuarter);
    ("Y", unary formatYear);
    ("A", unary formatYear) ].

(** The table is an object literal, so an index expression on it also
    finds what every object inherits: the properties of
    [Object.prototype]. *)
Definition OBJECT_PROTOTYPE : list string :=
  [ "constructor"; "__defineGetter__"; "__defineSetter__"; "hasOwnProperty";
    "__lookupGetter__"; "__lookupSetter__"; "isPrototypeOf";
    "propertyIsEnumerable"; "toString"; "valueOf"; "__proto__";
    "toLocaleString" ].

Inductive Member : Type :=
| Own (f : Formatter)
| Inherited (name : string).

Fixpoint ownFormatter (name : string) (table : list (string * Formatter))
  : option Formatter :=
  match table with
  | [] => None
  | (k, f) :: rest => if String.eqb k name then Some f else ownFormatter name rest
  end.

(** [PERIOD_TYPE_FORMATTERS[name]]; [None] stands for [undefined]. *)
Definition lookupFormatter (name : string) : option Member :=
  match ownFormatter name PERIOD_TYPE_FORMATTERS with
  | Some f => Some (Own f)
  | None =>
      if existsb (String.eqb name) OBJECT_PROTOTYPE then Some (Inherited name)
      else None
  end.

(** The call [member(duration, freqParam)] of an inherited property, in
    module code, where a plain call has no [this]: [toString] answers for
    [undefined]; [constructor] wraps the number and [isPrototypeOf]
    answers [false], neither a string; [__proto__] is no function, and
    the others need a [this] they can convert to an object. *)
Definition callInherited (name : string) : Outcome string :=
  if String.eqb name "toString" then Returns "[object Undefined]"
  else if String.eqb name "constructor" || String.eqb name "isPrototypeOf"
       then OffContract
  else Throws TypeError.

Definition call (m : Member) (duration : Z) (freqParam : option string)
  : Outcome string :=
  match m with
  | Own f => f duration freqParam
  | Inherited name => callInherited name
  end.

End PeriodTable.

(* ================================================================== *)
(** * Timestamps, times, dates, durations *)
(* ================================================================== *)

(** [typeof v === "bigint"]. *)
Definition isBigInt (v : Numeric) : bool :=
  match v with NumBigInt _ => true | NumNumber _ => false end.

(** The bigint division [a / b]: the quotient, fraction dropped. *)
Definition bigintDiv (a : Numeric) (b : Z) : Z :=
  match a with
  | NumBigInt z => Z.quot z b
  | NumNumber _ => 0
  end.

Definition convertTimestampToSeconds (timestamp : Numeric) (unit : Z) : float :=
  let unitAdjustment : option Z :=
    if unit =? TimeUnit.MILLISECOND then Some 1000
    else if unit =? TimeUnit.MICROSECOND then Some (1000 * 1000)
    else if unit =? TimeUnit.NANOSECOND then Some (1000 * 1000 * 1000)
    else None in
  match unitAdjustment with
  | None => Number_ timestamp
  | Some unitAdjustment =>
      if isBigInt timestamp && negb (JsNumber.isSafeInteger (Number_ timestamp))
      then JsNumber.ofZ (bigintDiv timestamp unitAdjustment)
      else (Number_ timestamp / JsNumber.ofZ unitAdjustment)%float
  end.

(** [field?.type?.unit ?? fallback]. *)
Definition unitOr (field : option Field) (fallback : Z) : Z :=
  match field with
  | Some f => match unit_ (type f) with Some u => u | None => fallback end
  | None => fallback
  end.

Definition formatTime (timestamp : Numeric) (field : option Field) : string :=
  let timeInSeconds :=
    convertTimestampToSeconds timestamp (unitOr field TimeUnit.SECOND) in
  formatWith
    (if JsNumber.isIntegral timeInSeconds then clock
     else fun t => clock t ++ "." ++ SSS t)
    (ofNumber (timeInSeconds * 1000)%float).

Section DatesAndDurations.

Context {E : Externals}.

Definition formatDate (date : JsValue) : Eff string :=
  match date with
  | VDate t => ret (formatWith isoDate t)
  | VNumber x =>
      if JsNumber.isFinite x then ret (formatWith isoDate (ofNumber x))
      else
        _ <- logWarning ("Unsupported date type: " ++ toString date) ;;
        ret (toString date)
  | _ =>
      _ <- logWarning ("Unsupported date type: " ++ toString date) ;;
      ret (toString date)
  end.

(** [moment.utc(date)] for [date: number | Date]. *)
Definition momentUtc (date : JsValue) : Outcome Moment :=
  match date with
  | VDate t => Returns t
  | VNumber x => Returns (ofNumber x)
  | _ => OffContract
  end.

(** [field?.type?.timezone]. *)
Definition timezoneOf (field : option Field) : option string :=
  match field with
  | Some f => timezone (type f)
  | None => None
  end.

Definition formatDatetime (date : JsValue) (field : option Field) : Eff string :=
  datetime <- lift (momentUtc date) ;;
  match timezoneOf field with
  | Some (String c z) => ret (zonedFormat datetime (String c z))
  | Some EmptyString | None =>
      ret (formatWith (fun t => isoDate t ++ " " ++ clock t) datetime)
  end.

Definition formatDuration (duration : Numeric) (field : option Field) : string :=
  humanize (convertTimestampToSeconds duration (unitOr field TimeUnit.NANOSECOND)).

End DatesAndDurations.

(* ================================================================== *)
(** * Decimals *)
(* ================================================================== *)

(** The unsigned value of a buffer of 32-bit words, least significant
    word first. *)
Fixpoint wordsValue (words : list Z) : Z :=
  match words with
  | [] => 0
  | w :: ws => w mod 2 ^ 32 + 2 ^ 32 * wordsValue ws
  end.

(** The integer [new util.BN(value)] stands for: a buffer of 16 bytes is
    a two's complement decimal, any other an unsigned number. *)
Definition bnValue (words : list Z) : Z :=
  let v := wordsValue words in
  if (Z.of_nat (List.length words) =? 4) && (2 ^ 127 <=? v) then v - 2 ^ 128 else v.

(** The digit loop of Arrow's printer for unsigned numbers: each round
    divides the number by ten and puts the remainder in front of the
    digits; the rounds go on while one of the four most significant
    32-bit words of the quotient is not zero, that is, while the quotient
    reaches [bound]. *)
Fixpoint digitLoop (fuel : nat) (v bound : Z) (digits : string) : string :=
  let digits := JsString.ofZ (v mod 10) ++ digits in
  match fuel with
  | O => digits
  | S fuel' =>
      if v / 10 <? bound then digits else digitLoop fuel' (v / 10) bound digits
  end.

(** [util.bigNumToString(new util.BN(value))].  A buffer of up to four
    words is printed in full.  The loop looks at four words only, so of a
    longer buffer it prints the low digits alone: it stops as soon as the
    128 bits at the top are zero. *)
Definition bigNumToString (words : list Z) : string :=
  let size := Z.of_nat (List.length words) in
  if size <=? 4 then JsString.ofZ (bnValue words)
  else digitLoop (32 * List.length words) (wordsValue words)
                 (2 ^ (32 * (size - 4))) EmptyString.

(** [field?.type?.scale || 0]. *)
Definition scaleOf (field : option Field) : Z :=
  match field with
  | Some f => match scale (type f) with Some s => s | None => 0 end
  | None => 0
  end.

Definition formatDecimal (value : list Z) (field : option Field) : string :=
  let scale := scaleOf field in
  let numString := padStart0 (bigNumToString value) scale in
  if scale =? 0 then numString
  else
    let '(sign, numString) :=
      if startsWith numString "-" then ("-", slice numString 1 None)
      else ("", numString) in
    let wholePart :=
      match slice numString 0 (Some (- scale)) with
      | EmptyString => "0"
      | whole => whole
      end in
    let decimalPart := trimEnd (slice numString (- scale) None) "0" in
    sign ++ wholePart
         ++ (match decimalPart with
             | EmptyString => ""
             | _ => "." ++ decimalPart
             end).

(* ================================================================== *)
(** * Periods *)
(* ================================================================== *)

Section Periods.

Context {E : Externals}.

(** The integer a safe-integer double stands for. *)
Definition integerOf (x : float) : Z :=
  match JsNumber.toInteger x with Some z => z | None => 0 end.

Definition formatPeriodFromFreq (duration : Numeric) (freq : string) : Eff string :=
  let parts := split "-" freq in
  let freqName := nth 0 parts EmptyString in
  let freqParam := nth_error parts 1 in
  match lookupFormatter freqName with
  | None =>
      _ <- logWarning ("Unsupported period frequency: " ++ freq) ;;
      ret (String_ duration)
  | Some momentConverter =>
      let durationNumber := Number_ duration in
      if negb (JsNumber.isSafeInteger durationNumber) then
        _ <- logWarning ("Unsupported value: " ++ String_ duration
                         ++ ". Supported values: ["
                         ++ JsString.ofZ JsNumber.MIN_SAFE_INTEGER ++ "-"
                         ++ JsString.ofZ JsNumber.MAX_SAFE_INTEGER ++ "]") ;;
        ret (String_ duration)
      else lift (call momentConverter (integerOf durationNumber) freqParam)
  end.

(** [const { key } = parsed]: the property of a parsed JSON value;
    destructuring [null] throws. *)
Definition destructure (parsed : JsValue) (key : string) : Outcome JsValue :=
  match parsed with
  | VNull | VUndefined => Throws TypeError
  | VObject props => Returns (getProp key props)
  | _ => Returns VUndefined
  end.

Definition formatPeriod (duration : Numeric) (field : option Field) : Eff string :=
  match field with
  | None =>
      _ <- logWarning "Field information is missing" ;;
      ret (String_ duration)
  | Some field =>
      match get "ARROW:extension:name" (metadata field),
            get "ARROW:extension:metadata" (metadata field) with
      | Some extensionName, Some extensionMetadata =>
          if negb (String.eqb extensionName "pandas.period") then
            _ <- logWarning ("Unsupported extension name for period type: "
                             ++ extensionName) ;;
            ret (String_ duration)
          else
            parsedExtensionMetadata <- lift (JSON.parse extensionMetadata) ;;
            freq <- lift (destructure parsedExtensionMetadata "freq") ;;
            match freq with
            | VString freq => formatPeriodFromFreq duration freq
            | _ => throw TypeError   (* [freq.split] on a value that is no string *)
            end
      | _, _ =>
          _ <- logWarning "Arrow extension metadata is missing" ;;
          ret (String_ duration)
      end
  end.

End Periods.

(* ================================================================== *)
(** * Objects *)
(* ================================================================== *)

(** [field?.type instanceof Struct]. *)
Definition isStruct (field : option Field) : bool :=
  match field with
  | Some f => match typeId (type f) with Struct => true | _ => false end
  | None => false
  end.

(** The replacer for a Struct field: null and undefined values are
    ignored, a bigint becomes a number. *)
Definition structReplacer (value : JsValue) : JsValue :=
  if negb (notNullOrUndefined value) then VUndefined
  else match value with
       | VBigInt z => VNumber (JsNumber.ofZ z)
       | _ => value
       end.

(** The replacer for any other field: a bigint becomes a number. *)
Definition bigintReplacer (value : JsValue) : JsValue :=
  match value with
  | VBigInt z => VNumber (JsNumber.ofZ z)
  | _ => value
  end.

(** The declared result is a string; [JSON.stringify] answers
    [undefined] when the replacer drops the whole value. *)
Definition formatObject (object : JsValue) (field : option Field) : Eff string :=
  text <- lift (Stringify.stringify object
                  (if isStruct field then structReplacer else bigintReplacer)) ;;
  match text with
  | Some s => ret s
  | None => offContract
  end.

(* ================================================================== *)
(** * Floats, intervals and the dispatcher *)
(* ================================================================== *)

Section Dispatcher.

Context {E : Externals}.

Definition formatFloat (num : float) : string :=
  if negb (JsNumber.isFinite num) then JsNumber.toString num
  else Numbro.format num "0,0.0000".

(** [field && field.metadata.get("ARROW:extension:name")]. *)
Definition extensionNameOf (field : option Field) : option string :=
  match field with
  | Some f => get "ARROW:extension:name" (metadata f)
  | None => None
  end.

(** [(field.type as Struct)?.children?.[i]]. *)
Definition child (field : Field) (i : nat) : option Field :=
  nth_error (children (type field)) i.

(** [format(row.toJSON()[key], type, field)] for a struct row with the
    properties [props]; a property that is missing reads [undefined],
    which the dispatcher renders as the not-available marker. *)
Definition formatProp (format : JsValue -> option Type_ -> option Field -> Eff string)
  (key : string) (props : list (string * JsValue))
  (type : option Type_) (field : option Field) : Eff string :=
  (fix find (ps : list (string * JsValue)) : Eff string :=
     match ps with
     | [] => ret "<NA>"
     | (k, v) :: ps' => if String.eqb k key then format v type field else find ps'
     end) props.

(** [formatInterval], with the dispatcher it calls back for the bounds
    passed in.  The row is cast to a struct row, whose [toJSON()] holds
    the bounds, and [subtype] is used as the two tags of a type
    descriptor, which are strings: a cell or a subtype of another shape
    leaves the typed program. *)
Definition formatIntervalWith
  (format : JsValue -> option Type_ -> option Field -> Eff string)
  (x : JsValue) (field : option Field) : Eff string :=
  match field, extensionNameOf field with
  | Some field, Some "pandas.interval" =>
      extensionMetadata <-
        lift (JSON.parse match get "ARROW:extension:metadata" (metadata field) with
                         | Some text => text
                         | None => "undefined"
                         end) ;;
      subtype <- lift (destructure extensionMetadata "subtype") ;;
      closed <- lift (destructure extensionMetadata "closed") ;;
      match x, subtype with
      | VStructRow interval, VString subtype =>
          let isClosed (side : string) :=
            match closed with
            | VString c => String.eqb c "both" || String.eqb c side
            | _ => false
            end in
          let leftBracket := if isClosed "left" then "[" else "(" in
          let rightBracket := if isClosed "right" then "]" else ")" in
          let boundType :=
            Some {| pandas_type := subtype; numpy_type := subtype; meta := None |} in
          leftInterval <- formatProp format "left" interval boundType (child field 0) ;;
          rightInterval <- formatProp format "right" interval boundType (child field 1) ;;
          ret (leftBracket ++ leftInterval ++ ", " ++ rightInterval ++ rightBracket)
      | _, _ => offContract
      end
  | _, _ => ret (toString x)
  end.

Definition isDateLike (x : JsValue) : bool :=
  match x with
  | VDate _ => true
  | VNumber n => JsNumber.isFinite n
  | _ => false
  end.

Definition isFiniteNumber (x : JsValue) : bool :=
  match x with
  | VNumber n => JsNumber.isFinite n
  | _ => false
  end.

(** [typeName === name] and [typeName?.startsWith(p)] for a name that
    may be [undefined]. *)
Definition typeIs (typeName : option string) (name : string) : bool :=
  match typeName with
  | Some t => String.eqb t name
  | None => false
  end.

Definition typeStartsWith (typeName : option string) (p : string) : bool :=
  match typeName with
  | Some t => startsWith t p
  | None => false
  end.

Definition fieldTypeIs (field : option Field) (id : TypeId) : bool :=
  match field with
  | Some f =>
      match typeId (type f), id with
      | Struct, Struct | Timestamp, Timestamp | Float, Float
      | OtherType, OtherType => true
      | _, _ => false
      end
  | None => false
  end.

(** The casts [x as number] and [x as Uint32Array], and the bigint of
    [Number(x)].  A cast checks nothing when the program runs. *)
Definition asNumber (x : JsValue) : option float :=
  match x with VNumber n => Some n | _ => None end.

Definition asBigInt (x : JsValue) : option Z :=
  match x with VBigInt z => Some z | _ => None end.

Definition asUint32Array (x : JsValue) : option (list Z) :=
  match x with VUint32Array words => Some words | _ => None end.

Definition isBigIntValue (x : JsValue) : bool :=
  match x with VBigInt _ => true | _ => false end.

(** A value passed as [number | bigint] to [formatDuration]: the code
    asks of it [typeof x === "bigint"] and [Number(x)] alone, so that a
    value that is no bigint stands for its number. *)
Definition asDuration (x : JsValue) : Numeric :=
  match x with
  | VBigInt z => NumBigInt z
  | _ => NumNumber (toNumber x)
  end.

(** The buffer of [new util.BN(x)].  A Uint32Array is taken as it is.
    Arrow copies any other value into a fresh buffer; a list (an array or
    a vector) is copied with [Uint32Array.from], element by element, each
    turned into a number: a bigint among the elements raises a TypeError.
    What the copy holds in any other case is not modelled. *)
Definition bigNumBuffer (x : JsValue) : Outcome (list Z) :=
  match x with
  | VUint32Array words => Returns words
  | VArray items | VVector items =>
      if existsb isBigIntValue items then Throws TypeError else OffContract
  | _ => OffContract
  end.

(** Takes the cell data and type metadata from arrow and nicely formats it. *)
Fixpoint format (x : JsValue) (type : option Type_) (field : option Field)
  {struct x} : Eff string :=
  let typeName := option_map getTypeName type in
  let extensionName := extensionNameOf field in
  if isNullOrUndefined x then ret "<NA>"
  else
    let isDate := isDateLike x in
    if isDate && typeIs typeName "date" then formatDate x
    else if isBigIntValue x && typeIs typeName "time" then
      match asBigInt x with
      | Some z => ret (formatTime (NumNumber (JsNumber.ofZ z)) field)
      | None => offContract
      end
    else if isDate && (typeStartsWith typeName "datetime"
                       || fieldTypeIs field Timestamp)
    then formatDatetime x field
    else if typeStartsWith typeName "period"
            || typeIs extensionName "pandas.period"
    then match asNumeric x with
         | Some duration => formatPeriod duration field
         | None => offContract
         end
    else if typeStartsWith typeName "interval"
    then formatIntervalWith format x field
    else if typeStartsWith typeName "timedelta"
    then ret (formatDuration (asDuration x) field)
    else if typeIs typeName "decimal"
    then value <- lift (bigNumBuffer x) ;; ret (formatDecimal value field)
    else if (typeIs typeName "float64" || fieldTypeIs field Float)
            && isFiniteNumber x
    then match asNumber x with
         | Some num => ret (formatFloat num)
         | None => offContract
         end
    else if typeIs typeName "object" || typeStartsWith typeName "list"
    then formatObject x field
    else ret (toString x).

Definition formatInterval : JsValue -> option Field -> Eff string :=
  formatIntervalWith format.

End Dispatcher.

(* ================================================================== *)
(** * A runtime to evaluate concrete cells with *)
(* ================================================================== *)

(** The properties below hold for every [Externals].  To instantiate
    them at concrete cells one runtime is fixed here: the classifier
    reads the numpy tag of an [object] column and the pandas tag of any
    other, as the tests of arrowTypeUtils exercise it; each renderer
    answers with the name of the library call and the text of its
    argument; a string that is a number literal of JSON is read as that
    number and any other string as no number; local time is UTC. *)
Definition sampleExternals : Externals := {|
  getTypeName := fun t =>
    if String.eqb (pandas_type t) "object" then numpy_type t else pandas_type t;
  humanize := fun x => "humanize(" ++ JsNumber.toString x ++ ")";
  zonedFormat := fun m zone =>
    "tz(" ++ formatWith (fun t => isoDate t ++ " " ++ clock t) m ++ ", " ++ zone ++ ")";
  dateToString := fun t => "Date(" ++ formatWith JsString.ofZ t ++ ")";
  arrowToString := fun _ => "[arrow value]";
  stringToNumber := fun s =>
    match JSON.number s with
    | Some (x, EmptyString) => x
    | _ => nan
    end;
  localTZA := fun _ _ => 0
|}.

(** The same runtime in a zone five and a half hours east of Greenwich
    all year, and in a zone that keeps Greenwich time until the 100th
    hour after the epoch and is one hour ahead of it from then on. *)
Definition easternExternals : Externals := {|
  getTypeName := getTypeName (Externals := sampleExternals);
  humanize := humanize (Externals := sampleExternals);
  zonedFormat := zonedFormat (Externals := sampleExternals);
  dateToString := dateToString (Externals := sampleExternals);
  arrowToString := arrowToString (Externals := sampleExternals);
  stringToNumber := stringToNumber (Externals := sampleExternals);
  localTZA := fun _ _ => 19800000
|}.

Definition summerExternals : Externals := {|
  getTypeName := getTypeName (Externals := sampleExternals);
  humanize := humanize (Externals := sampleExternals);
  zonedFormat := zonedFormat (Externals := sampleExternals);
  dateToString := dateToString (Externals := sampleExternals);
  arrowToString := arrowToString (Externals := sampleExternals);
  stringToNumber := stringToNumber (Externals := sampleExternals);
  localTZA := fun t isUTC =>
    if isUTC then (if t <? 360000000 then 0 else 3600000)
    else (if t <? 363600000 then 0 else 3600000)
|}.

(** Descriptors and fields used in the examples. *)
Definition typeNamed (name : string) : Type_ :=
  {| pandas_type := name; numpy_type := name; meta := None |}.

Definition plainField : Field := mkField (mkArrowType OtherType None None None []) [].

Definition floatField : Field := mkField (mkArrowType Float None None None []) [].

Definition structField : Field := mkField (mkArrowType Struct None None None []) [].

Definition unitField (unit : Z) : Field :=
  mkField (mkArrowType OtherType (Some unit) None None []) [].

Definition decimalField (scale : Z) : Field :=
  mkField (mkArrowType OtherType None None (Some scale) []) [].

(** The 128-bit two's complement buffer of an integer. *)
Definition decimalBuffer (n : Z) : list Z :=
  let v := n mod 2 ^ 128 in
  [v mod 2 ^ 32; v / 2 ^ 32 mod 2 ^ 32; v / 2 ^ 64 mod 2 ^ 32; v / 2 ^ 96 mod 2 ^ 32].

(** The field of an interval column: a struct of two bounds, tagged with
    the pandas.interval extension and its JSON metadata. *)
Definition intervalMetadata (subtype closed : string) : string :=
  "{" ++ dq ++ "subtype" ++ dq ++ ": " ++ dq ++ subtype ++ dq ++ ", "
      ++ dq ++ "closed" ++ dq ++ ": " ++ dq ++ closed ++ dq ++ "}".

Definition intervalField (subtype closed : string) : Field :=
  mkField (mkArrowType Struct None None None [plainField; plainField])
          [("ARROW:extension:name", "pandas.interval");
           ("ARROW:extension:metadata", intervalMetadata subtype closed)].

(** The ISO text of a day number. *)
Definition isoOfDay (n : Z) : string :=
  let '(y, m, d) := civil_from_days n in
  zeroFill y 4 ++ "-" ++ zeroFill m 2 ++ "-" ++ zeroFill d 2.

(* ================================================================== *)
(** * The vocabulary of the properties *)
(* ================================================================== *)

Import Stringify.

(** The unit codes below the second. *)
Definition isTimeUnit (unit : Z) : bool :=
  (unit =? TimeUnit.MILLISECOND) || (unit =? TimeUnit.MICROSECOND)
  || (unit =? TimeUnit.NANOSECOND).

(** The divisor of each unit code: 10^3, 10^6 and 10^9 for the three
    sub-second units, 1 for every other code. *)
Definition unitDivisor (unit : Z) : Z :=
  if unit =? TimeUnit.MILLISECOND then 10 ^ 3
  else if unit =? TimeUnit.MICROSECOND then 10 ^ 6
  else if unit =? TimeUnit.NANOSECOND then 10 ^ 9
  else 1.

(** The decimal expansion of [n / 10^scale] as the specification builds
    it: the digits of [|n|], padded with zeros to at least [scale + 1];
    the whole part is all but the last [scale] digits, the fraction the
    last [scale] digits without trailing zeros; the separator is left out
    when the fraction is empty or the scale is 0. *)
Definition decimalExpansion (n scale : Z) : string :=
  let sign := if n <? 0 then "-" else "" in
  let digits := padStart0 (JsString.ofZ (Z.abs n)) (scale + 1) in
  let whole :=
    match slice digits 0 (Some (len digits - scale)) with
    | EmptyString => "0"
    | w => w
    end in
  let fraction := trimEnd (slice digits (len digits - scale) None) "0" in
  sign ++ whole
       ++ (if scale =? 0 then ""
           else match fraction with
                | EmptyString => ""
                | _ => "." ++ fraction
                end).

(** The brackets of an interval: square on a closed side, round on an
    open one. *)
Definition leftBracketOf (closed : string) : string :=
  if String.eqb closed "left" || String.eqb closed "both" then "[" else "(".

Definition rightBracketOf (closed : string) : string :=
  if String.eqb closed "right" || String.eqb closed "both" then "]" else ")".

(** The values a struct replacer drops: [null], [undefined], and an
    invalid date, whose [toJSON] is [null]. *)
Definition isNullish (v : JsValue) : bool :=
  match v with
  | VNull | VUndefined | VDate None => true
  | _ => false
  end.

(** A value without the properties, at any depth, whose value is
    nullish; the elements of arrays stay. *)
Fixpoint prune (v : JsValue) : JsValue :=
  let pruneProps :=
    fix pruneProps (props : list (string * JsValue)) : list (string * JsValue) :=
      match props with
      | [] => []
      | (k, w) :: rest =>
          if isNullish w then pruneProps rest else (k, prune w) :: pruneProps rest
      end in
  match v with
  | VArray items => VArray (map prune items)
  | VVector items => VVector (map prune items)
  | VObject props => VObject (pruneProps props)
  | VStructRow props => VStructRow (pruneProps props)
  | _ => v
  end.


(** The properties [prune] keeps. *)
Fixpoint pruneProps (props : list (string * JsValue)) : list (string * JsValue) :=
  match props with
  | [] => []
  | (k, w) :: rest =>
      if isNullish w then pruneProps rest else (k, prune w) :: pruneProps rest
  end.





(** The base name and the parameter of a frequency code. *)
Definition freqNameOf (freq : string) : string := nth 0 (split "-" freq) EmptyString.

(** A name that every object inherits from [Object.prototype]. *)
Definition isInherited (name : string) : bool :=
  existsb (String.eqb name) OBJECT_PROTOTYPE.


(** The field of a period column: the pandas.period extension and its
    metadata text. *)
Definition periodField (text : string) : Field :=
  mkField (mkArrowType OtherType None None None [])
          [("ARROW:extension:name", "pandas.period");
           ("ARROW:extension:metadata", text)].

(** The metadata text of a period column of frequency [freq]. *)
Definition freqMetadata (freq : string) : string :=
  "{" ++ dq ++ "freq" ++ dq ++ ": " ++ dq ++ freq ++ dq ++ "}".

(** A date of the proleptic Gregorian calendar: a month of 1..12 and a
    day of that month. *)
Definition validDate (y m d : Z) : bool :=
  (1 <=? m) && (m <=? 12) && (1 <=? d) && (d <=? daysInMonth y m).

(** A time of the day, to the second. *)
Definition validClock (h mi s : Z) : bool :=
  (0 <=? h) && (h <? 24) && (0 <=? mi) && (mi <? 60) && (0 <=? s) && (s <? 60).

(** The texts YYYY-MM-DD and HH:mm:ss of given numbers. *)
Definition isoText (y m d : Z) : string :=
  zeroFill y 4 ++ "-" ++ zeroFill m 2 ++ "-" ++ zeroFill d 2.

Definition clockText (h mi s : Z) : string :=
  zeroFill h 2 ++ ":" ++ zeroFill mi 2 ++ ":" ++ zeroFill s 2.

(** The integer a duration stands for when [Number(duration)] is a safe
    integer. *)
Definition safeIntegerOf (duration : Numeric) : option Z :=
  match JsNumber.toInteger (Number_ duration) with
  | Some n => if Z.abs n <=? JsNumber.MAX_SAFE_INTEGER then Some n else None
  | None => None
  end.

(** A character that stands for itself inside a JSON string literal:
    no control character, no double quote, no backslash. *)
Definition isPlainChar (c : ascii) : bool :=
  let n := nat_of_ascii c in
  (Nat.leb 32 n && negb (Nat.eqb n 34) && negb (Nat.eqb n 92))%bool.

Fixpoint isPlainText (s : string) : bool :=
  match s with
  | EmptyString => true
  | String c s' => isPlainChar c && isPlainText s'
  end.

(** The frequency that parsed extension metadata names: the string
    under its key [freq]. *)
Definition freqOf (parsed : JsValue) : option string :=
  match parsed with
  | VObject props =>
      match getProp "freq" props with
      | VString freq => Some freq
      | _ => None
      end
  | _ => None
  end.

(** The moment of a date-like cell: the time value of a Date, and a
    number taken as milliseconds since the epoch. *)
Definition timeValueOf (x : JsValue) : Moment :=
  match x with
  | VDate t => t
  | VNumber n => ofNumber n
  | _ => None
  end.

(** The tests of the dispatcher on a type name, those for dates and
    datetimes apart: [true] when none of them holds. *)
Definition namesNoRule (typeName : option string) : bool :=
  negb (typeIs typeName "time")
  && negb (typeStartsWith typeName "period")
  && negb (typeStartsWith typeName "interval")
  && negb (typeStartsWith typeName "timedelta")
  && negb (typeIs typeName "decimal")
  && negb (typeIs typeName "float64")
  && negb (typeIs typeName "object")
  && negb (typeStartsWith typeName "list").

(** A decimal digit, and a string of decimal digits. *)
Definition isDigit (c : ascii) : bool :=
  let n := nat_of_ascii c in (Nat.leb 48 n && Nat.leb n 57)%bool.

Fixpoint isDigits (s : string) : bool :=
  match s with
  | EmptyString => true
  | String c s' => isDigit c && isDigits s'
  end.

(** A group of exactly three digits. *)
Definition isGroup (g : string) : bool := isDigits g && (len g =? 3).

(** A number written with thousands separators and [places] fractional
    digits: an optional minus sign; one to three digits; any number of
    groups of a comma and exactly three digits; a point; exactly
    [places] digits. *)
Definition isGroupedDecimal (places : Z) (text : string) : bool :=
  match split "." text with
  | [whole; fraction] =>
      isDigits fraction && (len fraction =? places)
      && match split "," (if startsWith whole "-" then slice whole 1 None else whole) with
         | first :: rest =>
             isDigits first && (1 <=? len first) && (len first <=? 3)
             && forallb isGroup rest
         | [] => false
         end
  | _ => false
  end.



(** A string between double quotes, and a list of strings that need no
    escape. *)
Definition quoted (s : string) : string := dq ++ s ++ dq.

Definition allPlain (xs : list string) : bool := forallb isPlainText xs.

(** The JSON text of a non-empty list of strings after its opening
    bracket, followed by [rest]. *)
Fixpoint itemsText (x : string) (xs : list string) (rest : string) : string :=
  String JSON.quoteChar
    (x ++ String JSON.quoteChar
            match xs with
            | [] => String "]" rest
            | y :: ys => String "," (itemsText y ys rest)
            end).

(* ================================================================== *)
(** * Properties *)
(* ================================================================== *)

(** ** Evaluating the tests on a known type name *)

(** Replaces each test of a literal type name by its value. *)
Ltac evalTypeTests :=
  repeat match goal with
    | |- context [typeIs (Some ?a) ?b] =>
        let v := eval vm_compute in (typeIs (Some a) b) in
        lazymatch v with
        | true => change (typeIs (Some a) b) with true
        | false => change (typeIs (Some a) b) with false
        end
    | |- context [typeStartsWith (Some ?a) ?b] =>
        let v := eval vm_compute in (typeStartsWith (Some a) b) in
        lazymatch v with
        | true => change (typeStartsWith (Some a) b) with true
        | false => change (typeStartsWith (Some a) b) with false
        end
    | |- context [typeIs None ?b] => change (typeIs None b) with false
    | |- context [typeStartsWith None ?b] => change (typeStartsWith None b) with false
    end.

(** ** The laws of sequencing *)

Lemma bind_ret_l {A B} (a : A) (k : A -> Eff B) : bind (ret a) k = k a.
Proof. unfold bind, ret. destruct (k a) as [w o]. reflexivity. Qed.

Lemma bind_ret_r {A} (m : Eff A) : bind m ret = m.
Proof.
  destruct m as [w [a | e |]]; unfold bind, ret; cbn [fst snd];
    rewrite ?app_nil_r; reflexivity.
Qed.

Lemma bind_assoc {A B C} (m : Eff A) (k : A -> Eff B) (h : B -> Eff C) :
  bind (bind m k) h = bind m (fun a => bind (k a) h).
Proof.
  destruct m as [w [a | e |]]; unfold bind; try reflexivity.
  destruct (k a) as [w1 [b | e |]]; try reflexivity.
  destruct (h b) as [w2 o]. rewrite app_assoc. reflexivity.
Qed.

Lemma lift_returns {A} (a : A) : lift (Returns a) = ret a.
Proof. reflexivity. Qed.

Lemma bind_throw {A B} (e : JsError) (k : A -> Eff B) :
  bind (lift (Throws e)) k = throw e.
Proof. reflexivity. Qed.

Lemma bind_log {B} (message : string) (k : unit -> Eff B) :
  bind (logWarning message) k = (message :: fst (k tt), snd (k tt)).
Proof. unfold bind, logWarning. destruct (k tt) as [w o]. reflexivity. Qed.

(** ** Strings: lengths, slices, padding *)

Lemma len_nonneg (s : string) : 0 <= len s.
Proof. unfold len. lia. Qed.

Lemma len_cons (c : ascii) (s : string) : len (String c s) = 1 + len s.
Proof. unfold len. cbn [String.length]. lia. Qed.

Lemma len_append (a b : string) : len (a ++ b) = len a + len b.
Proof.
  induction a as [| c a IH]; [reflexivity |].
  cbn [append]. rewrite !len_cons, IH. lia.
Qed.

Lemma len_replicate (n : nat) (c : ascii) : len (replicate n c) = Z.of_nat n.
Proof.
  induction n as [| n IH]; [reflexivity |].
  cbn [replicate]. rewrite len_cons, IH. lia.
Qed.

Lemma substring_0_0 (s : string) : substring 0 0 s = EmptyString.
Proof. destruct s; reflexivity. Qed.

Lemma substring_all (s : string) : substring 0 (String.length s) s = s.
Proof. induction s as [| c s IH]; [reflexivity |]. cbn. rewrite IH. reflexivity. Qed.

Lemma relIndex_neg (l k : Z) : 0 < k -> relIndex l (- k) = Z.max (l - k) 0.
Proof.
  intros Hk. unfold relIndex. destruct (Z.ltb_spec (- k) 0); [| lia].
  replace (l + - k) with (l - k) by lia. reflexivity.
Qed.

Lemma relIndex_pos (l i : Z) : 0 <= i -> relIndex l i = Z.min i l.
Proof. intros Hi. unfold relIndex. destruct (Z.ltb_spec i 0); [lia | reflexivity]. Qed.

(** Negative indices of [slice] count from the end. *)
Lemma slice_from_end (s : string) (k : Z) :
  0 < k <= len s ->
  slice s 0 (Some (- k)) = slice s 0 (Some (len s - k))
  /\ slice s (- k) None = slice s (len s - k) None.
Proof.
  intros Hk. unfold slice.
  rewrite (relIndex_neg _ k), (relIndex_pos _ (len s - k)) by lia.
  rewrite (Z.max_l (len s - k) 0), (Z.min_l (len s - k) (len s)) by lia.
  split; reflexivity.
Qed.

(** A string no longer than [k]: nothing comes before its last [k]
    characters. *)
Lemma slice_short (s : string) (k : Z) :
  0 < k -> len s <= k ->
  slice s 0 (Some (- k)) = EmptyString /\ slice s (- k) None = s.
Proof.
  intros Hk Hs. pose proof (len_nonneg s) as Hlen. unfold slice.
  rewrite (relIndex_neg _ k), (relIndex_pos _ 0) by lia.
  rewrite (Z.max_r (len s - k) 0), (Z.min_l 0 (len s)) by lia.
  rewrite !Z.sub_0_r, (Z.max_l (len s) 0) by lia. split.
  - apply substring_0_0.
  - unfold len. rewrite Nat2Z.id. apply substring_all.
Qed.

(** A character in front of a string: the split before the string. *)
Lemma slice_cons (c : ascii) (s : string) :
  let t := String c s in
  slice t 0 (Some (len t - len s)) = String c EmptyString
  /\ slice t (len t - len s) None = s.
Proof.
  intros t. pose proof (len_nonneg s) as Hlen.
  assert (Ht : len t = 1 + len s) by apply len_cons.
  unfold slice. rewrite Ht.
  replace (1 + len s - len s) with 1 by lia.
  rewrite !relIndex_pos by lia.
  rewrite (Z.min_l 0), (Z.min_l 1) by lia.
  split.
  - change (substring 0 1 (String c s) = String c EmptyString).
    cbn [substring]. rewrite substring_0_0. reflexivity.
  - replace (1 + len s - 1) with (len s) by lia. rewrite Z.max_l by lia.
    unfold len. rewrite Nat2Z.id.
    change (substring 0 (String.length s) s = s). apply substring_all.
Qed.

Lemma padStart0_long (s : string) (k : Z) : k <= len s -> padStart0 s k = s.
Proof.
  intros H. unfold padStart0. destruct (Z.leb_spec k (len s)); [reflexivity | lia].
Qed.

Lemma padStart0_len (s : string) (k : Z) : len s <= k -> len (padStart0 s k) = k.
Proof.
  intros H. pose proof (len_nonneg s). unfold padStart0.
  destruct (Z.leb_spec k (len s)); [lia |].
  rewrite len_append, len_replicate. lia.
Qed.

Lemma padStart0_succ (s : string) (k : Z) :
  len s <= k -> padStart0 s (k + 1) = String "0" (padStart0 s k).
Proof.
  intros H. pose proof (len_nonneg s). unfold padStart0.
  destruct (Z.leb_spec (k + 1) (len s)); [lia |].
  replace (Z.to_nat (k + 1 - len s)) with (S (Z.to_nat (k - len s))) by lia.
  cbn [replicate append].
  destruct (Z.leb_spec k (len s)).
  - replace (k - len s) with 0 by lia. reflexivity.
  - reflexivity.
Qed.

(** Padding to [k] and taking "0" for an empty whole part splits the
    digits as padding to [k + 1] does. *)
Lemma split_padded (digits : string) (k : Z) :
  0 < k ->
  let p := padStart0 digits k in
  let p' := padStart0 digits (k + 1) in
  match slice p 0 (Some (- k)) with
  | EmptyString => "0"
  | w => w
  end
  = match slice p' 0 (Some (len p' - k)) with
    | EmptyString => "0"
    | w => w
    end
  /\ slice p (- k) None = slice p' (len p' - k) None.
Proof.
  intros Hk p p'. subst p p'.
  destruct (Z.le_gt_cases (k + 1) (len digits)) as [Hlong | Hshort].
  - rewrite !padStart0_long by lia.
    destruct (slice_from_end digits k ltac:(lia)) as [-> ->]. split; reflexivity.
  - rewrite padStart0_succ by lia.
    pose proof (padStart0_len digits k ltac:(lia)) as Hlen.
    set (p := padStart0 digits k) in *.
    destruct (slice_short p k Hk ltac:(lia)) as [-> ->].
    destruct (slice_cons "0" p) as [Hw Hf]. cbn zeta in Hw, Hf.
    rewrite Hlen in Hw, Hf. rewrite Hw, Hf. split; reflexivity.
Qed.

Lemma append_associative (a b c : string) : (a ++ b) ++ c = a ++ (b ++ c).
Proof. induction a as [| x a IH]; cbn [append]; [reflexivity | rewrite IH; reflexivity]. Qed.

Lemma append_empty_r (s : string) : s ++ "" = s.
Proof. induction s as [| c s IH]; [reflexivity |]. cbn. rewrite IH. reflexivity. Qed.

Lemma ofZ_negative (n : Z) : n < 0 -> JsString.ofZ n = String "-" (JsString.ofZ (- n)).
Proof. destruct n as [| p | p]; try lia. intros _. reflexivity. Qed.

(** The text of a natural number starts with a digit, not with the sign. *)
Lemma ofZ_nonnegative (n : Z) :
  0 <= n -> exists c rest, JsString.ofZ n = String c rest /\ c <> "-"%char.
Proof.
  destruct n as [| p | p]; try lia; intros _.
  - exists "0"%char, EmptyString. split; [reflexivity | discriminate].
  - unfold JsString.ofZ. cbn [Z.to_int NilZero.string_of_int].
    destruct (Pos.to_uint p); cbn; eexists; eexists; (split; [reflexivity | discriminate]).
Qed.

Lemma startsWith_cons (c : ascii) (rest : string) :
  startsWith (String c rest) "-" = Ascii.eqb c "-".
Proof.
  unfold startsWith. cbn [prefix].
  destruct (ascii_dec "-" c) as [<- | Hne].
  - destruct rest; reflexivity.
  - symmetry. apply Ascii.eqb_neq. congruence.
Qed.

Lemma padStart0_head (s : string) (k : Z) (c : ascii) (rest : string) :
  s = String c rest -> c <> "-"%char ->
  startsWith (padStart0 s k) "-" = false.
Proof.
  intros -> Hc. unfold padStart0.
  destruct (k <=? len (String c rest)).
  - rewrite startsWith_cons. apply Ascii.eqb_neq. exact Hc.
  - destruct (Z.to_nat (k - len (String c rest))) as [| n]; cbn [replicate append].
    + rewrite startsWith_cons. apply Ascii.eqb_neq. exact Hc.
    + reflexivity.
Qed.

Lemma slice_tail (c : ascii) (s : string) : slice (String c s) 1 None = s.
Proof.
  pose proof (len_nonneg s). unfold slice. rewrite relIndex_pos by lia.
  rewrite len_cons, Z.min_l by lia.
  replace (1 + len s - 1) with (len s) by lia. rewrite Z.max_l by lia.
  unfold len. rewrite Nat2Z.id.
  change (substring 0 (String.length s) s = s). apply substring_all.
Qed.

Lemma slice_whole (s : string) : slice s 0 (Some (len s)) = s.
Proof.
  pose proof (len_nonneg s). unfold slice. rewrite !relIndex_pos by lia.
  rewrite (Z.min_l 0), Z.min_id by lia. rewrite Z.sub_0_r, Z.max_l by lia.
  unfold len. rewrite Nat2Z.id. apply substring_all.
Qed.

(** ** The dispatcher on null and undefined *)

Section NullRule.

Context {E : Externals}.

(** C8: for every type descriptor and every field metadata, [format]
    applied to [null] or to [undefined] returns the not-available marker
    ["<NA>"], logging nothing: the rule comes before every other
    dispatch rule. *)
Theorem format_null_or_undefined (type : option Type_) (field : option Field) :
  format VNull type field = ([], Returns "<NA>")
  /\ format VUndefined type field = ([], Returns "<NA>").
Proof. split; reflexivity. Qed.

End NullRule.

(** ** Converting a bigint to a number

    [Number(b)] rounds the bigint [b] to the nearest double.  The
    rounding is followed through the shifts of the mantissa: a bigint
    below 2^53 in magnitude is held exactly, a larger one becomes a
    double of at least 2^53 in magnitude or an infinity. *)

Lemma digits2_size (p : positive) : digits2_pos p = Pos.size p.
Proof. induction p as [p IH | p IH |]; cbn; rewrite ?IH; reflexivity. Qed.

Lemma digits2_bounds (p : positive) :
  2 ^ (Z.pos (digits2_pos p) - 1) <= Z.pos p < 2 ^ Z.pos (digits2_pos p).
Proof.
  rewrite digits2_size. split.
  - pose proof (Pos.size_le p) as H.
    assert (H' : 2 ^ Z.pos (Pos.size p) <= 2 * Z.pos p).
    { change 2 with (Z.pos 2) at 1. rewrite <- Pos2Z.inj_pow. lia. }
    replace (Z.pos (Pos.size p)) with (Z.pos (Pos.size p) - 1 + 1) in H' by lia.
    rewrite Z.pow_add_r in H' by lia. lia.
  - pose proof (Pos.size_gt p) as H.
    change 2 with (Z.pos 2). rewrite <- Pos2Z.inj_pow. lia.
Qed.

(** The number of binary digits is determined by the bounds. *)
Lemma digits2_unique (p : positive) (d : Z) :
  2 ^ (d - 1) <= Z.pos p < 2 ^ d -> Z.pos (digits2_pos p) = d.
Proof.
  intros [Hlo Hhi]. pose proof (digits2_bounds p) as [Hlo' Hhi'].
  assert (Hd : 0 < d).
  { destruct (Z.ltb_spec 0 d) as [H | H]; [exact H |].
    destruct d as [| d | d]; cbn in Hhi; lia. }
  destruct (Z.lt_trichotomy (Z.pos (digits2_pos p)) d) as [Hlt | [Heq | Hgt]];
    [| exact Heq |].
  - assert (2 ^ Z.pos (digits2_pos p) <= 2 ^ (d - 1)) by (apply Z.pow_le_mono_r; lia).
    lia.
  - assert (2 ^ d <= 2 ^ (Z.pos (digits2_pos p) - 1)) by (apply Z.pow_le_mono_r; lia).
    lia.
Qed.

Lemma iter_xO (k p : positive) :
  Z.pos (Pos.iter xO p k) = Z.pos p * 2 ^ Z.pos k.
Proof.
  induction k as [| k IH] using Pos.peano_ind.
  - cbn. lia.
  - rewrite Pos.iter_succ, Pos2Z.inj_succ, Z.pow_succ_r by lia.
    rewrite Pos2Z.inj_xO, IH. lia.
Qed.

(** A mantissa of 53 digits with an exponent in range is already
    rounded. *)
Lemma binary_round_aux_exact (s : bool) (m : positive) (e : Z) :
  Z.pos (digits2_pos m) = 53 -> -1074 <= e <= 971 ->
  binary_round_aux 53 1024 s (Z.pos m) e loc_Exact = S754_finite s m e.
Proof.
  intros Hd He. unfold binary_round_aux, shr_fexp, Zdigits2.
  rewrite Hd.
  assert (Hshift : fexp 53 1024 (53 + e) - e = 0) by (unfold fexp, emin; lia).
  rewrite Hshift. cbn [shr shr_record_of_loc shr_m loc_of_shr_record round_nearest_even Zdigits2].
  rewrite Hd, Hshift. cbn [shr shr_record_of_loc shr_m].
  destruct (Z.leb_spec e (1024 - 53)) as [_ | H]; [reflexivity | lia].
Qed.

Lemma binary_round_small (s : bool) (p : positive) :
  Z.pos p < 2 ^ 53 ->
  exists m e, binary_round 53 1024 s p 0 = S754_finite s m e
              /\ -52 <= e <= 0
              /\ Z.pos m = Z.pos p * 2 ^ (- e)
              /\ Z.pos (digits2_pos m) = 53.
Proof.
  intros Hp. pose proof (digits2_bounds p) as [Hlo Hhi].
  assert (Hd : Z.pos (digits2_pos p) <= 53).
  { destruct (Z.leb_spec (Z.pos (digits2_pos p)) 53) as [H | H]; [exact H |].
    assert (2 ^ 53 <= 2 ^ (Z.pos (digits2_pos p) - 1)) by (apply Z.pow_le_mono_r; lia).
    lia. }
  unfold binary_round, shl_align.
  assert (Hf : fexp 53 1024 (Z.pos (digits2_pos p) + 0) = Z.pos (digits2_pos p) - 53)
    by (unfold fexp, emin; lia).
  rewrite Hf.
  destruct (Z.pos (digits2_pos p) - 53 - 0) as [| k | k] eqn:Hk; [| lia |].
  - exists p, 0. split; [| split; [lia | split; [cbn; lia | lia]]].
    apply binary_round_aux_exact; lia.
  - assert (Hdigits : Z.pos (digits2_pos (Pos.iter xO p k)) = 53).
    { apply digits2_unique. rewrite iter_xO.
      replace (Z.pos k) with (53 - Z.pos (digits2_pos p)) by lia.
      assert (H52 : 2 ^ (53 - 1) =
                    2 ^ (Z.pos (digits2_pos p) - 1) * 2 ^ (53 - Z.pos (digits2_pos p))).
      { rewrite <- Z.pow_add_r by lia. f_equal. lia. }
      assert (H53 : 2 ^ 53 =
                    2 ^ Z.pos (digits2_pos p) * 2 ^ (53 - Z.pos (digits2_pos p))).
      { rewrite <- Z.pow_add_r by lia. f_equal. lia. }
      assert (0 < 2 ^ (53 - Z.pos (digits2_pos p))) by (apply Z.pow_pos_nonneg; lia).
      rewrite H52, H53. split; [apply Z.mul_le_mono_nonneg_r | apply Z.mul_lt_mono_pos_r]; lia. }
    exists (Pos.iter xO p k), (Z.pos (digits2_pos p) - 53).
    split; [| split; [lia | split; [| exact Hdigits]]].
    + apply binary_round_aux_exact; [exact Hdigits | lia].
    + rewrite iter_xO. f_equal. f_equal. lia.
Qed.

Lemma shr_1_half (mrs : shr_record) :
  0 <= shr_m mrs -> shr_m (shr_1 mrs) = shr_m mrs / 2.
Proof.
  destruct mrs as [m r t]. cbn [shr_m]. intros Hm.
  destruct m as [| [q | q |] | q]; cbn [shr_1 shr_m]; try lia.
  - reflexivity.
  - rewrite Pos2Z.inj_xI. apply (Z.div_unique _ 2 _ 1); lia.
  - rewrite Pos2Z.inj_xO. apply (Z.div_unique _ 2 _ 0); lia.
  - reflexivity.
Qed.

Lemma shr_iter (n : positive) (mrs : shr_record) :
  0 <= shr_m mrs -> shr_m (iter_pos shr_1 n mrs) = shr_m mrs / 2 ^ Z.pos n.
Proof.
  revert mrs. induction n as [n IH | n IH |]; intros mrs Hm; cbn [iter_pos].
  - assert (Hpow : 0 < 2 ^ Z.pos n) by (apply Z.pow_pos_nonneg; lia).
    assert (H1 : 0 <= shr_m (shr_1 mrs))
      by (rewrite shr_1_half by exact Hm; apply Z.div_pos; lia).
    assert (H2 : 0 <= shr_m (iter_pos shr_1 n (shr_1 mrs)))
      by (rewrite IH by exact H1; apply Z.div_pos; [exact H1 | exact Hpow]).
    rewrite IH by exact H2. rewrite IH by exact H1. rewrite shr_1_half by exact Hm.
    rewrite !Z.div_div by lia.
    f_equal. replace (Z.pos n~1) with (1 + Z.pos n + Z.pos n) by lia.
    rewrite !Z.pow_add_r by lia. lia.
  - assert (Hpow : 0 < 2 ^ Z.pos n) by (apply Z.pow_pos_nonneg; lia).
    assert (H1 : 0 <= shr_m (iter_pos shr_1 n mrs))
      by (rewrite IH by exact Hm; apply Z.div_pos; [exact Hm | exact Hpow]).
    rewrite IH by exact H1. rewrite IH by exact Hm.
    rewrite Z.div_div by lia.
    f_equal. replace (Z.pos n~0) with (Z.pos n + Z.pos n) by lia.
    rewrite Z.pow_add_r by lia. reflexivity.
  - rewrite shr_1_half by exact Hm. reflexivity.
Qed.

(** Rounding to nearest moves the mantissa by at most one. *)
Lemma round_nearest_even_cases (m : Z) (l : location) :
  round_nearest_even m l = m \/ round_nearest_even m l = m + 1.
Proof.
  destruct l as [| []]; cbn [round_nearest_even];
    try destruct (Z.even m); auto.
Qed.

(** A mantissa between 2^52 and 2^53 inclusive, with a positive
    exponent, rounds to a finite double of at least 2^53 or to an
    infinity. *)
Lemma shr_fexp_normal (s : bool) (q : positive) (e : Z) :
  2 ^ 52 <= Z.pos q <= 2 ^ 53 -> 1 <= e ->
  let '(mrs, e') := shr_fexp 53 1024 (Z.pos q) e loc_Exact in
  exists m, shr_m mrs = Z.pos m /\ Z.pos (digits2_pos m) = 53 /\ e <= e'.
Proof.
  intros [Hlo Hhi] He. unfold shr_fexp, Zdigits2. cbn [shr_record_of_loc].
  destruct (Z.eq_dec (Z.pos q) (2 ^ 53)) as [Heq | Hne].
  - assert (Hd : Z.pos (digits2_pos q) = 54) by (apply digits2_unique; cbn; lia).
    rewrite Hd.
    assert (Hshift : fexp 53 1024 (54 + e) - e = 1) by (unfold fexp, emin; lia).
    rewrite Hshift. cbn [shr iter_pos].
    exists (4503599627370496%positive). split; [| split; [reflexivity | lia]].
    rewrite shr_1_half by (cbn; lia). cbn [shr_m]. rewrite Heq. reflexivity.
  - assert (Hd : Z.pos (digits2_pos q) = 53) by (apply digits2_unique; cbn; lia).
    rewrite Hd.
    assert (Hshift : fexp 53 1024 (53 + e) - e = 0) by (unfold fexp, emin; lia).
    rewrite Hshift. cbn [shr]. exists q. split; [reflexivity | split; [exact Hd | lia]].
Qed.

Lemma binary_round_large (s : bool) (p : positive) :
  2 ^ 53 <= Z.pos p ->
  binary_round 53 1024 s p 0 = S754_infinity s
  \/ exists m e, binary_round 53 1024 s p 0 = S754_finite s m e
                 /\ 1 <= e <= 971
                 /\ Z.pos (digits2_pos m) = 53.
Proof.
  intros Hp. pose proof (digits2_bounds p) as [Hlo Hhi].
  set (d := Z.pos (digits2_pos p)) in *.
  assert (Hd : 54 <= d).
  { destruct (Z.leb_spec 54 d) as [H | H]; [exact H |].
    assert (2 ^ d <= 2 ^ 53) by (apply Z.pow_le_mono_r; lia). lia. }
  unfold binary_round, shl_align. fold d.
  assert (Hf : fexp 53 1024 (d + 0) = d - 53) by (unfold fexp, emin; lia).
  rewrite Hf.
  destruct (d - 53 - 0) as [| n | n] eqn:Hn; [lia | | lia].
  assert (Hfirst : shr_fexp 53 1024 (Z.pos p) 0 loc_Exact
                   = (iter_pos shr_1 n (Build_shr_record (Z.pos p) false false),
                      0 + Z.pos n)).
  { unfold shr_fexp, Zdigits2. fold d. rewrite Hf, Hn. reflexivity. }
  unfold binary_round_aux. rewrite Hfirst.
  set (mrs := iter_pos shr_1 n _).
  assert (Hm : shr_m mrs = Z.pos p / 2 ^ Z.pos n)
    by (unfold mrs; rewrite shr_iter by (cbn; lia); reflexivity).
  assert (Hpow : 0 < 2 ^ Z.pos n) by (apply Z.pow_pos_nonneg; lia).
  assert (H52 : 2 ^ (d - 1) = 2 ^ Z.pos n * 2 ^ 52)
    by (rewrite <- Z.pow_add_r by lia; f_equal; lia).
  assert (H53 : 2 ^ d = 2 ^ Z.pos n * 2 ^ 53)
    by (rewrite <- Z.pow_add_r by lia; f_equal; lia).
  assert (Hbounds : 2 ^ 52 <= shr_m mrs < 2 ^ 53).
  { rewrite Hm. split.
    - apply Z.div_le_lower_bound; lia.
    - apply Z.div_lt_upper_bound; lia. }
  destruct (round_nearest_even (shr_m mrs) (loc_of_shr_record mrs)) as [| q | q] eqn:Hq;
    [ destruct (round_nearest_even_cases (shr_m mrs) (loc_of_shr_record mrs)); lia
    | 
    | destruct (round_nearest_even_cases (shr_m mrs) (loc_of_shr_record mrs)); lia ].
  assert (Hq' : 2 ^ 52 <= Z.pos q <= 2 ^ 53)
    by (destruct (round_nearest_even_cases (shr_m mrs) (loc_of_shr_record mrs)); lia).
  pose proof (shr_fexp_normal s q (0 + Z.pos n) Hq' ltac:(lia)) as Hnormal.
  destruct (shr_fexp 53 1024 (Z.pos q) (0 + Z.pos n) loc_Exact) as [mrs'' e''].
  destruct Hnormal as (m & Hm'' & Hdigits & He).
  rewrite Hm''.
  destruct (Z.leb_spec e'' (1024 - 53)) as [Hle | Hgt].
  - right. exists m, e''. split; [reflexivity | split; [lia | exact Hdigits]].
  - left. reflexivity.
Qed.

(** Every bigint converts to a valid double. *)
Lemma binary_normalize_valid (z : Z) :
  SpecFloat.valid_binary 53 1024 (binary_normalize 53 1024 z 0 false) = true.
Proof.
  assert (Hround : forall s p, SpecFloat.valid_binary 53 1024 (binary_round 53 1024 s p 0) = true).
  { intros s p. destruct (Z.ltb_spec (Z.pos p) (2 ^ 53)) as [Hlt | Hge].
    - destruct (binary_round_small s p Hlt) as (m & e & -> & He & _ & Hd).
      cbn [valid_binary]. unfold bounded, canonical_mantissa. rewrite Hd.
      apply andb_true_iff. split; [apply Z.eqb_eq; unfold fexp, emin | apply Z.leb_le]; lia.
    - destruct (binary_round_large s p Hge) as [-> | (m & e & -> & He & Hd)];
        [reflexivity |].
      cbn [valid_binary]. unfold bounded, canonical_mantissa. rewrite Hd.
      apply andb_true_iff. split; [apply Z.eqb_eq; unfold fexp, emin | apply Z.leb_le]; lia. }
  destruct z; [reflexivity | apply Hround | apply Hround].
Qed.

(** The integer a converted bigint holds is the bigint itself below
    2^53. *)
Lemma toInteger_ofZ_small (z : Z) :
  Z.abs z < 2 ^ 53 -> JsNumber.toInteger (JsNumber.ofZ z) = Some z.
Proof.
  intros Hz. unfold JsNumber.toInteger, JsNumber.ofZ.
  rewrite Prim2SF_SF2Prim by apply binary_normalize_valid.
  assert (Hround : forall s p, Z.pos p < 2 ^ 53 ->
            JsNumber.integerOf (binary_round 53 1024 s p 0)
            = Some ((if s then -1 else 1) * Z.pos p)).
  { intros s p Hp.
    destruct (binary_round_small s p Hp) as (m & e & -> & He & Hm & _).
    cbn [JsNumber.integerOf].
    destruct (Z.leb_spec 0 e) as [H0 | H0].
    - replace e with 0 in * by lia. cbn in Hm. do 2 f_equal. lia.
    - rewrite Hm, Z.mod_mul, Z.eqb_refl, Z.div_mul
        by (apply Z.pow_nonzero; lia).
      reflexivity. }
  destruct z as [| p | p]; cbn [binary_normalize];
    [reflexivity | apply (Hround false p Hz) | apply (Hround true p Hz)].
Qed.

(** From 2^53 on, a converted bigint is an infinity or holds an integer
    of at least 2^53 in magnitude. *)
Lemma toInteger_ofZ_large (z : Z) :
  2 ^ 53 <= Z.abs z ->
  match JsNumber.toInteger (JsNumber.ofZ z) with
  | Some v => 2 ^ 53 <= Z.abs v
  | None => True
  end.
Proof.
  intros Hz. unfold JsNumber.toInteger, JsNumber.ofZ.
  rewrite Prim2SF_SF2Prim by apply binary_normalize_valid.
  assert (Hround : forall s p, 2 ^ 53 <= Z.pos p ->
            match JsNumber.integerOf (binary_round 53 1024 s p 0) with
            | Some v => 2 ^ 53 <= Z.abs v
            | None => True
            end).
  { intros s p Hp.
    destruct (binary_round_large s p Hp) as [-> | (m & e & -> & He & Hd)];
      [exact I |].
    cbn [JsNumber.integerOf].
    destruct (Z.leb_spec 0 e) as [_ | H0]; [| lia].
    pose proof (digits2_bounds m) as [Hlo _]. rewrite Hd in Hlo.
    assert (H1 : 2 ^ 1 <= 2 ^ e) by (apply Z.pow_le_mono_r; lia).
    assert (H2 : 2 ^ 52 * 2 ^ 1 <= Z.pos m * 2 ^ e)
      by (apply Z.mul_le_mono_nonneg; cbn; lia).
    change (2 ^ 52 * 2 ^ 1) with (2 ^ 53) in H2.
    destruct s; lia. }
  destruct z as [| p | p]; cbn [binary_normalize];
    [cbn in Hz; lia | apply (Hround false p Hz) | apply (Hround true p Hz)].
Qed.

(** [Number.isSafeInteger(Number(b))] holds of a bigint [b] exactly when
    [b] lies between the two safe bounds. *)
Lemma isSafeInteger_ofZ (z : Z) :
  JsNumber.isSafeInteger (JsNumber.ofZ z)
  = (Z.abs z <=? JsNumber.MAX_SAFE_INTEGER).
Proof.
  unfold JsNumber.isSafeInteger.
  destruct (Z.leb_spec (Z.abs z) JsNumber.MAX_SAFE_INTEGER) as [Hsafe | Hunsafe].
  - rewrite toInteger_ofZ_small by (unfold JsNumber.MAX_SAFE_INTEGER in Hsafe; lia).
    apply Z.leb_le. exact Hsafe.
  - unfold JsNumber.MAX_SAFE_INTEGER in *.
    assert (Hz : 2 ^ 53 <= Z.abs z) by lia.
    pose proof (toInteger_ofZ_large z Hz) as Hlarge.
    destruct (JsNumber.toInteger (JsNumber.ofZ z)) as [v |]; [| reflexivity].
    apply Z.leb_gt. lia.
Qed.

(** ** Timestamp unit conversion *)

Lemma convertTimestampToSeconds_number (x : float) (unit : Z) :
  convertTimestampToSeconds (NumNumber x) unit
  = if isTimeUnit unit then (x / JsNumber.ofZ (unitDivisor unit))%float else x.
Proof.
  unfold convertTimestampToSeconds, isTimeUnit, unitDivisor.
  destruct (unit =? TimeUnit.MILLISECOND); [reflexivity|].
  destruct (unit =? TimeUnit.MICROSECOND); [reflexivity|].
  destruct (unit =? TimeUnit.NANOSECOND); reflexivity.
Qed.

Lemma convertTimestampToSeconds_bigint (z : Z) (unit : Z) :
  convertTimestampToSeconds (NumBigInt z) unit
  = if isTimeUnit unit then
      if JsNumber.isSafeInteger (JsNumber.ofZ z)
      then (JsNumber.ofZ z / JsNumber.ofZ (unitDivisor unit))%float
      else JsNumber.ofZ (Z.quot z (unitDivisor unit))
    else JsNumber.ofZ z.
Proof.
  unfold convertTimestampToSeconds, isTimeUnit, unitDivisor.
  destruct (unit =? TimeUnit.MILLISECOND);
    [cbn; destruct (JsNumber.isSafeInteger _); reflexivity|].
  destruct (unit =? TimeUnit.MICROSECOND);
    [cbn; destruct (JsNumber.isSafeInteger _); reflexivity|].
  destruct (unit =? TimeUnit.NANOSECOND);
    [cbn; destruct (JsNumber.isSafeInteger _); reflexivity|].
  reflexivity.
Qed.

(** C3: [convertTimestampToSeconds] is a total function to a number (no
    call raises).  A number is divided by 10^3, 10^6 or 10^9 for the
    units MILLISECOND, MICROSECOND and NANOSECOND and returned as it is
    for SECOND and for every other unit code; a bigint is converted to a
    number first when that number is a safe integer, and is otherwise
    divided as a bigint, the fraction dropped, and the quotient alone
    converted.  [toSeconds(1000, MILLISECOND) = 1] and
    [toSeconds(1000000000, NANOSECOND) = 1]; the bigint 2^60 + 12345 in
    nanoseconds is past the safe integers, which end at 2^53 - 1, and
    comes to 1152921504 seconds, its fraction dropped. *)
Theorem convertTimestampToSeconds_spec :
  (forall x, convertTimestampToSeconds (NumNumber x) TimeUnit.SECOND = x)
  /\ (forall x, convertTimestampToSeconds (NumNumber x) TimeUnit.MILLISECOND
                = (x / 1000)%float)
  /\ (forall x, convertTimestampToSeconds (NumNumber x) TimeUnit.MICROSECOND
                = (x / 1000000)%float)
  /\ (forall x, convertTimestampToSeconds (NumNumber x) TimeUnit.NANOSECOND
                = (x / 1000000000)%float)
  /\ (forall timestamp unit,
         isTimeUnit unit = false ->
         convertTimestampToSeconds timestamp unit = Number_ timestamp)
  /\ (forall z unit,
         isTimeUnit unit = true ->
         convertTimestampToSeconds (NumBigInt z) unit
         = if JsNumber.isSafeInteger (JsNumber.ofZ z)
           then (JsNumber.ofZ z / JsNumber.ofZ (unitDivisor unit))%float
           else JsNumber.ofZ (Z.quot z (unitDivisor unit)))
  /\ convertTimestampToSeconds (NumNumber 1000) TimeUnit.MILLISECOND = 1%float
  /\ convertTimestampToSeconds (NumNumber 1000000000) TimeUnit.NANOSECOND = 1%float
  /\ convertTimestampToSeconds (NumBigInt 1000) TimeUnit.MILLISECOND = 1%float
  /\ convertTimestampToSeconds (NumBigInt (2 ^ 60 + 12345)) TimeUnit.NANOSECOND
     = 1152921504%float
  /\ JsNumber.isSafeInteger (JsNumber.ofZ JsNumber.MAX_SAFE_INTEGER) = true
  /\ JsNumber.isSafeInteger (JsNumber.ofZ (JsNumber.MAX_SAFE_INTEGER + 1)) = false.
Proof.
  repeat split; try reflexivity.
  - intros timestamp unit H. destruct timestamp as [x | z].
    + rewrite convertTimestampToSeconds_number, H. reflexivity.
    + rewrite convertTimestampToSeconds_bigint, H. reflexivity.
  - intros z unit H. rewrite convertTimestampToSeconds_bigint, H. reflexivity.
Qed.

(** The unit code 7 is no time unit; 2^53 is the first bigint past the
    safe integers. *)
Lemma convertTimestampToSeconds_spec_witness :
  convertTimestampToSeconds (NumBigInt 5) 7 = 5%float
  /\ convertTimestampToSeconds (NumBigInt (2 ^ 53)) TimeUnit.MILLISECOND
     = 9007199254740%float.
Proof.
  destruct convertTimestampToSeconds_spec as (_ & _ & _ & _ & Hother & Hbig & _).
  split.
  - exact (Hother (NumBigInt 5) 7 eq_refl).
  - exact (Hbig (2 ^ 53) TimeUnit.MILLISECOND eq_refl).
Defined.

(** ** The threshold of the bigint branch *)

(** X3: the branch that [convertTimestampToSeconds] takes on a bigint is
    decided by the bigint alone.  For the units MILLISECOND, MICROSECOND
    and NANOSECOND a bigint between -(2^53 - 1) and 2^53 - 1 is converted
    to a number, exactly, and divided in floating point; every other
    bigint is divided as a bigint, the fraction dropped, and the
    quotient converted.  For every other unit code the bigint is
    converted and returned. *)
Theorem convertTimestampToSeconds_bigint_threshold (z unit : Z) :
  convertTimestampToSeconds (NumBigInt z) unit
  = (if isTimeUnit unit then
       if Z.abs z <=? JsNumber.MAX_SAFE_INTEGER
       then (JsNumber.ofZ z / JsNumber.ofZ (unitDivisor unit))%float
       else JsNumber.ofZ (Z.quot z (unitDivisor unit))
     else JsNumber.ofZ z)
  /\ ((Z.abs z <=? JsNumber.MAX_SAFE_INTEGER) = true ->
      JsNumber.toInteger (JsNumber.ofZ z) = Some z).
Proof.
  split.
  - rewrite convertTimestampToSeconds_bigint, isSafeInteger_ofZ. reflexivity.
  - intros Hsafe. apply Z.leb_le in Hsafe.
    apply toInteger_ofZ_small. unfold JsNumber.MAX_SAFE_INTEGER in Hsafe. lia.
Qed.

(** The largest safe bigint, in milliseconds: converted exactly, then
    divided in floating point. *)
Lemma convertTimestampToSeconds_bigint_threshold_witness :
  convertTimestampToSeconds (NumBigInt (2 ^ 53 - 1)) TimeUnit.MILLISECOND
  = (9007199254740991 / 1000)%float
  /\ JsNumber.toInteger (JsNumber.ofZ (2 ^ 53 - 1)) = Some (2 ^ 53 - 1).
Proof.
  pose proof (convertTimestampToSeconds_bigint_threshold
                (2 ^ 53 - 1) TimeUnit.MILLISECOND) as [Hvalue Hexact].
  split.
  - exact Hvalue.
  - exact (Hexact eq_refl).
Defined.

(** ** The time rule *)

Section TimeRule.

Context {E : Externals}.

(** C9: a bigint cell whose type name is ["time"] is converted to a
    number before the time formatter is called: the dispatcher returns
    [formatTime(Number(b), field)].  [convertTimestampToSeconds] therefore
    receives a number and divides it in floating point for every unit
    code, whatever the size of [b]: its bigint branch is not reached from
    the time rule. *)
Theorem format_time_converts_bigint
  (b : Z) (type : Type_) (field : option Field) :
  getTypeName type = "time" ->
  format (VBigInt b) (Some type) field
  = ([], Returns (formatTime (NumNumber (JsNumber.ofZ b)) field))
  /\ formatTime (NumNumber (JsNumber.ofZ b)) field
     = (let timeInSeconds :=
          if isTimeUnit (unitOr field TimeUnit.SECOND)
          then (JsNumber.ofZ b
                / JsNumber.ofZ (unitDivisor (unitOr field TimeUnit.SECOND)))%float
          else JsNumber.ofZ b in
        formatWith
          (if JsNumber.isIntegral timeInSeconds then clock
           else fun t => clock t ++ "." ++ SSS t)
          (ofNumber (timeInSeconds * 1000)%float)).
Proof.
  intros Hname. split.
  - cbn. rewrite Hname. reflexivity.
  - unfold formatTime. rewrite convertTimestampToSeconds_number. reflexivity.
Qed.

End TimeRule.

(** At 2^53 + 1 nanoseconds the time rule shows the fraction that the
    bigint division would have dropped. *)
Lemma format_time_converts_bigint_witness :
  format (E := sampleExternals) (VBigInt (2 ^ 53 + 1)) (Some (typeNamed "time"))
         (Some (unitField TimeUnit.NANOSECOND))
  = ([], Returns "05:59:59.254")
  /\ formatTime (NumBigInt (2 ^ 53 + 1)) (Some (unitField TimeUnit.NANOSECOND))
     = "05:59:59".
Proof.
  split.
  - exact (proj1 (format_time_converts_bigint (E := sampleExternals) (2 ^ 53 + 1)
                    (typeNamed "time") (Some (unitField TimeUnit.NANOSECOND))
                    eq_refl)).
  - vm_compute. reflexivity.
Defined.

(** ** Decimals *)

(** C2, at an input where the code departs from it: the unscaled
    integer -5 at scale 2 is -0.05; the padding is applied while the sign
    is still part of the text, so the digits come out one place short. *)
Theorem formatDecimal_negative_short :
  formatDecimal (decimalBuffer (-5)) (Some (decimalField 2)) = "-0.5"
  /\ formatDecimal (decimalBuffer (-5)) (Some (decimalField 3)) = "0.0-5"
  /\ bnValue (decimalBuffer (-5)) = -5.
Proof. repeat split; vm_compute; reflexivity. Qed.

(** ** Where decimal formatting is right *)

(** X1: for a buffer of at most four 32-bit words (a Decimal128 or a
    narrower number), a scale that is not negative, and an unscaled
    integer that is either not negative or has at least as many digits as
    the scale, [formatDecimal] returns the decimal expansion of
    [n / 10^scale] that the specification describes. *)
Theorem formatDecimal_expansion (value : list Z) (field : option Field) :
  let n := bnValue value in
  let s := scaleOf field in
  (List.length value <= 4)%nat ->
  0 <= s ->
  0 <= n \/ s <= len (JsString.ofZ (Z.abs n)) ->
  formatDecimal value field = decimalExpansion n s.
Proof.
  intros n s Hsize Hs Hn. unfold formatDecimal, decimalExpansion, bigNumToString.
  cbv zeta.
  replace (Z.of_nat (List.length value) <=? 4) with true
    by (symmetry; apply Z.leb_le; lia).
  fold n. fold s.
  destruct (Z.eqb_spec s 0) as [Hzero | Hpos].
  - (* scale 0: the text of the integer itself *)
    rewrite Hzero. cbn [Z.add].
    destruct (ofZ_nonnegative (Z.abs n) ltac:(lia)) as (c & rest & Habs & Hc).
    assert (Hlen : 1 <= len (JsString.ofZ (Z.abs n))).
    { rewrite Habs, len_cons. pose proof (len_nonneg rest). lia. }
    rewrite (padStart0_long _ 0) by (pose proof (len_nonneg (JsString.ofZ n)); lia).
    rewrite (padStart0_long _ 1) by lia.
    rewrite Z.sub_0_r, slice_whole, Habs.
    destruct (Z.ltb_spec n 0) as [Hneg | Hnonneg].
    + rewrite (ofZ_negative n Hneg). replace (- n) with (Z.abs n) by lia.
      rewrite Habs. cbn [append]. rewrite append_empty_r. reflexivity.
    + replace n with (Z.abs n) at 1 by lia. rewrite Habs. cbn [append].
      rewrite append_empty_r. reflexivity.
  - assert (Hk : 0 < s) by lia.
    destruct (Z.ltb_spec n 0) as [Hneg | Hnonneg].
    + (* a negative number with at least [s] digits *)
      destruct Hn as [? | Hdigits]; [lia |].
      rewrite (ofZ_negative n Hneg). replace (- n) with (Z.abs n) in * by lia.
      set (d := JsString.ofZ (Z.abs n)) in *.
      rewrite (padStart0_long (String "-" d)) by (rewrite len_cons; lia).
      rewrite startsWith_cons. cbn [Ascii.eqb Bool.eqb andb].
      rewrite slice_tail.
      destruct (split_padded d s Hk) as [Hwhole Hfrac].
      cbn zeta in Hwhole, Hfrac. rewrite (padStart0_long d s) in Hwhole, Hfrac by lia.
      rewrite Hwhole, Hfrac. reflexivity.
    + (* a natural number *)
      replace (Z.abs n) with n by lia.
      destruct (ofZ_nonnegative n Hnonneg) as (c & rest & Hd & Hc).
      rewrite (padStart0_head _ s c rest Hd Hc).
      destruct (split_padded (JsString.ofZ n) s Hk) as [Hwhole Hfrac].
      cbn zeta in Hwhole, Hfrac. rewrite Hwhole, Hfrac. reflexivity.
Qed.

(** The examples of the specification: 123450 at scale 3 and -5 at
    scale 0. *)
Lemma formatDecimal_expansion_witness :
  formatDecimal (decimalBuffer 123450) (Some (decimalField 3)) = "123.45"
  /\ formatDecimal (decimalBuffer (-5)) (Some (decimalField 0)) = "-5".
Proof.
  split.
  - pose proof (formatDecimal_expansion (decimalBuffer 123450)
                  (Some (decimalField 3))) as H.
    cbv zeta in H.
    assert (Hscale : 0 <= scaleOf (Some (decimalField 3)))
      by (vm_compute; discriminate).
    assert (Hsign : 0 <= bnValue (decimalBuffer 123450))
      by (vm_compute; discriminate).
    rewrite (H (Nat.le_refl 4) Hscale (or_introl Hsign)). vm_compute. reflexivity.
  - pose proof (formatDecimal_expansion (decimalBuffer (-5))
                  (Some (decimalField 0))) as H.
    cbv zeta in H.
    assert (Hscale : 0 <= scaleOf (Some (decimalField 0)))
      by (vm_compute; discriminate).
    assert (Hdigits : scaleOf (Some (decimalField 0))
                      <= len (JsString.ofZ (Z.abs (bnValue (decimalBuffer (-5))))))
      by (vm_compute; discriminate).
    rewrite (H (Nat.le_refl 4) Hscale (or_intror Hdigits)). vm_compute. reflexivity.
Defined.

(** ** Weekly periods *)

Lemma dayOf_days (n : Z) : dayOf (n * MS_PER_DAY) = n.
Proof. unfold dayOf. apply Z.div_mul. discriminate. Qed.


Lemma timeClip_days (n : Z) :
  Z.abs n <= 100000000 -> timeClip (n * MS_PER_DAY) = Some (n * MS_PER_DAY).
Proof.
  intros H. unfold timeClip, MAX_TIME, MS_PER_DAY.
  destruct (Z.leb_spec (Z.abs (n * 86400000)) 8640000000000000) as [_ | Hgt];
    [reflexivity | lia].
Qed.





(** ** Weeks beyond the range of dates *)

(** Past the last day a Date can hold, 10^8 days from the epoch, both
    ends of the week are invalid moments, and their text is fixed. *)
Lemma formatWeeks_out_of_range {E : Externals} :
  formatWeeks (2 ^ 40) (Some "SUN") = Returns "Invalid date/Invalid date"
  /\ formatPeriodFromFreq (NumBigInt (2 ^ 40)) "W-SUN"
     = ([], Returns "Invalid date/Invalid date").
Proof. split; vm_compute; reflexivity. Qed.

(** ** Period frequencies *)

(** C5, at an input where the code departs from it: the frequency code
    ["toString"] names no formatter of the table, yet the index expression
    finds the method every object inherits; no warning is logged and the
    result of calling that method is returned instead of the text of the
    duration, ["0"]. *)
Theorem formatPeriodFromFreq_inherited_name {E : Externals} :
  formatPeriodFromFreq (NumNumber 0) "toString" = ([], Returns "[object Undefined]")
  /\ ownFormatter "toString" PERIOD_TYPE_FORMATTERS = None
  /\ String_ (NumNumber 0) = "0"
  /\ formatPeriodFromFreq (NumNumber 0) "valueOf" = ([], Throws TypeError).
Proof. repeat split; vm_compute; reflexivity. Qed.

(** ** Where the period fallback holds *)

(** X2: a frequency code whose base name is neither a key of the table nor a
    name that every object inherits, and any frequency code with a
    duration outside the safe integers, makes [formatPeriodFromFreq] log
    one warning and return the raw stringification of the duration.  The
    code "Z" is such a code. *)
Theorem formatPeriodFromFreq_falls_back {E : Externals}
  (duration : Numeric) (freq : string) :
  (ownFormatter (freqNameOf freq) PERIOD_TYPE_FORMATTERS = None
   /\ isInherited (freqNameOf freq) = false)
  \/ JsNumber.isSafeInteger (Number_ duration) = false ->
  (exists warning,
      formatPeriodFromFreq duration freq = ([warning], Returns (String_ duration)))
  /\ formatPeriodFromFreq (NumBigInt 7) "Z"
     = (["Unsupported period frequency: Z"], Returns "7").
Proof.
  intros H. split; [| vm_compute; reflexivity].
  unfold formatPeriodFromFreq. fold (freqNameOf freq).
  destruct H as [[Hown Hinh] | Hunsafe].
  - unfold lookupFormatter. fold (isInherited (freqNameOf freq)).
    rewrite Hown, Hinh, bind_log. eexists. reflexivity.
  - destruct (lookupFormatter (freqNameOf freq)).
    + rewrite Hunsafe. cbn [negb]. rewrite bind_log. eexists. reflexivity.
    + rewrite bind_log. eexists. reflexivity.
Qed.

(** The business-day code "B", which pandas has and the table has not,
    and a weekly code at 2^53 weeks. *)
Lemma formatPeriodFromFreq_falls_back_witness :
  (exists warning,
      formatPeriodFromFreq (E := sampleExternals) (NumNumber 3) "B"
      = ([warning], Returns "3"))
  /\ (exists warning,
         formatPeriodFromFreq (E := sampleExternals) (NumBigInt (2 ^ 53)) "W-SUN"
         = ([warning], Returns "9007199254740992")).
Proof.
  split.
  - exact (proj1 (formatPeriodFromFreq_falls_back (NumNumber 3) "B"
                    (or_introl (conj eq_refl eq_refl)))).
  - exact (proj1 (formatPeriodFromFreq_falls_back (NumBigInt (2 ^ 53)) "W-SUN"
                    (or_intror eq_refl))).
Defined.

(** ** Intervals *)

Section IntervalRule.

Context {E : Externals}.

Lemma format_undefined (type : option Type_) (field : option Field) :
  format VUndefined type field = ret "<NA>".
Proof. reflexivity. Qed.

(** Formatting a property of a struct row is formatting the value found
    under its key. *)
Lemma formatProp_getProp (key : string) (props : list (string * JsValue))
  (type : option Type_) (field : option Field) :
  formatProp format key props type field = format (getProp key props) type field.
Proof.
  induction props as [| [k v] ps IH]; cbn [formatProp getProp].
  - reflexivity.
  - destruct (String.eqb k key); [reflexivity | exact IH].
Qed.

Lemma bracket_left (closed : string) :
  (if String.eqb closed "both" || String.eqb closed "left" then "[" else "(")
  = leftBracketOf closed.
Proof. unfold leftBracketOf. rewrite orb_comm. reflexivity. Qed.

Lemma bracket_right (closed : string) :
  (if String.eqb closed "both" || String.eqb closed "right" then "]" else ")")
  = rightBracketOf closed.
Proof. unfold rightBracketOf. rewrite orb_comm. reflexivity. Qed.

Lemma formatInterval_parsed
  (interval : list (string * JsValue)) (fieldType : ArrowType)
  (md : list (string * string)) (text subtype closed : string)
  (parsed : list (string * JsValue)) :
  get "ARROW:extension:name" md = Some "pandas.interval" ->
  get "ARROW:extension:metadata" md = Some text ->
  JSON.parse text = Returns (VObject parsed) ->
  getProp "subtype" parsed = VString subtype ->
  getProp "closed" parsed = VString closed ->
  let field := mkField fieldType md in
  let boundType := Some (typeNamed subtype) in
  formatInterval (VStructRow interval) (Some field)
  = (leftInterval <- format (getProp "left" interval) boundType (child field 0) ;;
     rightInterval <- format (getProp "right" interval) boundType (child field 1) ;;
     ret (leftBracketOf closed ++ leftInterval ++ ", "
          ++ rightInterval ++ rightBracketOf closed)).
Proof.
  intros Hname Htext Hparse Hsub Hclosed field boundType.
  unfold formatInterval, formatIntervalWith, extensionNameOf.
  cbn [metadata field]. rewrite Hname, Htext, Hparse.
  rewrite lift_returns, bind_ret_l. cbn [destructure].
  rewrite Hsub, Hclosed, !lift_returns, !bind_ret_l.
  rewrite !formatProp_getProp, bracket_left, bracket_right.
  reflexivity.
Qed.

(** A type name that starts with "interval" does not start with
    "period". *)
Lemma interval_not_period (name : string) :
  startsWith name "interval" = true -> startsWith name "period" = false.
Proof.
  unfold startsWith. destruct name as [| c s]; [discriminate |].
  cbn [String.prefix].
  destruct (ascii_dec "i" c) as [<- | ?]; [| discriminate].
  intros _. destruct (ascii_dec "p" "i"); [discriminate | reflexivity].
Qed.

(** A finite number of type int64 in a field with no special storage and
    no extension is rendered by raw stringification. *)
Lemma format_int64_plain (x : float) :
  getTypeName (typeNamed "int64") = "int64" ->
  JsNumber.isFinite x = true ->
  format (VNumber x) (Some (typeNamed "int64")) (Some plainField)
  = ret (JsNumber.toString x).
Proof.
  intros Hint Hfin.
  cbn [format isNullOrUndefined isDateLike isBigIntValue andb option_map
       isFiniteNumber asNumeric asNumber].
  rewrite Hint, Hfin. reflexivity.
Qed.

(** C4: for an interval cell (a struct row) whose field carries the
    pandas.interval extension with metadata that parses to
    [{subtype, closed}], interval formatting runs the dispatcher on the
    left and on the right bound, each with [subtype] as both tags of its
    type descriptor and with the matching child field, and returns
    [<lb><left>, <right><rb>]: [lb] is "[" when [closed] is "left" or
    "both" and "(" otherwise, [rb] is "]" when [closed] is "right" or
    "both" and ")" otherwise.  The dispatcher reaches interval formatting
    for such a cell whenever the type name starts with "interval".  With
    integer bounds 1 and 5, [closed = "both"] gives "[1, 5]" and
    [closed = "neither"] gives "(1, 5)". *)
Theorem formatInterval_brackets_and_bounds
  (interval : list (string * JsValue)) (fieldType : ArrowType)
  (md : list (string * string)) (text subtype closed : string)
  (parsed : list (string * JsValue)) :
  get "ARROW:extension:name" md = Some "pandas.interval" ->
  get "ARROW:extension:metadata" md = Some text ->
  JSON.parse text = Returns (VObject parsed) ->
  getProp "subtype" parsed = VString subtype ->
  getProp "closed" parsed = VString closed ->
  let field := mkField fieldType md in
  let boundType := Some (typeNamed subtype) in
  formatInterval (VStructRow interval) (Some field)
  = (leftInterval <- format (getProp "left" interval) boundType (child field 0) ;;
     rightInterval <- format (getProp "right" interval) boundType (child field 1) ;;
     ret (leftBracketOf closed ++ leftInterval ++ ", "
          ++ rightInterval ++ rightBracketOf closed))
  /\ (forall type,
         startsWith (getTypeName type) "interval" = true ->
         format (VStructRow interval) (Some type) (Some field)
         = formatInterval (VStructRow interval) (Some field))
  /\ (getTypeName (typeNamed "int64") = "int64" ->
      formatInterval (VStructRow [("left", VNumber 1); ("right", VNumber 5)])
                     (Some (intervalField "int64" "both"))
      = ([], Returns "[1, 5]")
      /\ formatInterval (VStructRow [("left", VNumber 1); ("right", VNumber 5)])
                        (Some (intervalField "int64" "neither"))
         = ([], Returns "(1, 5)")).
Proof.
  intros Hname Htext Hparse Hsub Hclosed field boundType.
  split; [| split].
  - exact (formatInterval_parsed interval fieldType md text subtype closed parsed
             Hname Htext Hparse Hsub Hclosed).
  - intros type Hprefix.
    cbn [format isNullOrUndefined isDateLike isBigIntValue andb option_map
         typeStartsWith].
    unfold typeIs at 1. unfold extensionNameOf. cbn [metadata field].
    rewrite Hname, Hprefix, (interval_not_period _ Hprefix). reflexivity.
  - intros Hint.
    split.
    + unfold intervalField.
      rewrite (formatInterval_parsed _ _ _ (intervalMetadata "int64" "both")
                 "int64" "both"
                 [("subtype", VString "int64"); ("closed", VString "both")]);
        try reflexivity.
      cbn [getProp String.eqb Ascii.eqb Bool.eqb child children type nth_error].
      rewrite !format_int64_plain by (assumption || reflexivity).
      rewrite !bind_ret_l. reflexivity.
    + unfold intervalField.
      rewrite (formatInterval_parsed _ _ _ (intervalMetadata "int64" "neither")
                 "int64" "neither"
                 [("subtype", VString "int64"); ("closed", VString "neither")]);
        try reflexivity.
      cbn [getProp String.eqb Ascii.eqb Bool.eqb child children type nth_error].
      rewrite !format_int64_plain by (assumption || reflexivity).
      rewrite !bind_ret_l. reflexivity.
Qed.

End IntervalRule.

(** An interval of int64 bounds, closed on the right, under the sample
    runtime. *)
Lemma formatInterval_brackets_and_bounds_witness :
  formatInterval (E := sampleExternals)
    (VStructRow [("left", VNumber 0); ("right", VBigInt 10)])
    (Some (intervalField "int64" "right"))
  = ([], Returns "(0, 10]").
Proof.
  exact (proj1 (formatInterval_brackets_and_bounds (E := sampleExternals)
                  [("left", VNumber 0); ("right", VBigInt 10)]
                  (mkArrowType Struct None None None [plainField; plainField])
                  [("ARROW:extension:name", "pandas.interval");
                   ("ARROW:extension:metadata", intervalMetadata "int64" "right")]
                  (intervalMetadata "int64" "right") "int64" "right"
                  [("subtype", VString "int64"); ("closed", VString "right")]
                  eq_refl eq_refl eq_refl eq_refl eq_refl)).
Defined.

(** ** Digits and thousands separators *)

Lemma isDigits_append (a b : string) :
  isDigits (a ++ b) = isDigits a && isDigits b.
Proof.
  induction a as [| c a IH]; [reflexivity |].
  cbn [append isDigits]. rewrite IH, andb_assoc. reflexivity.
Qed.

Lemma isDigits_uint (d : Decimal.uint) : isDigits (NilEmpty.string_of_uint d) = true.
Proof. induction d; cbn [NilEmpty.string_of_uint isDigits]; try rewrite IHd; reflexivity. Qed.

Lemma ofZ_digits (n : Z) :
  0 <= n -> isDigits (JsString.ofZ n) = true /\ 1 <= len (JsString.ofZ n).
Proof.
  intros Hn. destruct (ofZ_nonnegative n Hn) as (c & rest & Heq & _).
  split.
  - destruct n as [| p | p]; try lia; [reflexivity |].
    unfold JsString.ofZ. cbn [Z.to_int NilZero.string_of_int].
    unfold NilZero.string_of_uint.
    destruct (Pos.to_uint p) eqn:Hp; try reflexivity;
      rewrite <- Hp; apply isDigits_uint.
  - rewrite Heq, len_cons. pose proof (len_nonneg rest). lia.
Qed.

(** Groups of three. *)
Lemma threes_ind (P : string -> Prop) :
  P EmptyString ->
  (forall a, P (String a EmptyString)) ->
  (forall a b, P (String a (String b EmptyString))) ->
  (forall a b c rest, P rest -> P (String a (String b (String c rest)))) ->
  forall s, P s.
Proof.
  intros H0 H1 H2 H3.
  fix IH 1. intros [| a [| b [| c rest]]]; [exact H0 | apply H1 | apply H2 |].
  apply H3. apply IH.
Qed.

Lemma threes_groups (s : string) :
  isDigits s = true -> forallb isGroup (Numbro.threes s) = true.
Proof.
  induction s as [| a | a b | a b c rest IH] using threes_ind; try reflexivity.
  cbn [isDigits Numbro.threes forallb]. intros H.
  apply andb_prop in H as [Ha H]. apply andb_prop in H as [Hb H].
  apply andb_prop in H as [Hc H].
  rewrite (IH H). unfold isGroup. cbn [isDigits]. rewrite Ha, Hb, Hc. reflexivity.
Qed.

Lemma groups_shape (digits : string) :
  isDigits digits = true -> 1 <= len digits ->
  exists first rest,
    Numbro.groups digits = first :: rest
    /\ isDigits first = true /\ 1 <= len first <= 3
    /\ forallb isGroup rest = true.
Proof.
  intros Hd Hlen. unfold Numbro.groups.
  destruct digits as [| a rest]; [cbn in Hlen; lia |].
  cbn [isDigits] in Hd. apply andb_prop in Hd as [Ha Hd].
  destruct (String.length (String a rest) mod 3)%nat as [| [| r]] eqn:Hmod.
  - (* a multiple of three: at least three digits *)
    destruct rest as [| b [| c rest]];
      [cbn in Hmod; discriminate | cbn in Hmod; discriminate |].
    cbn [isDigits] in Hd. apply andb_prop in Hd as [Hb Hd].
    apply andb_prop in Hd as [Hc Hd].
    cbn [Numbro.threes]. do 2 eexists. split; [reflexivity |].
    cbn [isDigits]. rewrite Ha, Hb, Hc. repeat split; try reflexivity; try (cbn; lia).
    apply threes_groups. exact Hd.
  - do 2 eexists. split; [reflexivity |].
    cbn [isDigits]. rewrite Ha. repeat split; try reflexivity; try (cbn; lia).
    apply threes_groups. exact Hd.
  - destruct r as [| r].
    + destruct rest as [| b rest]; [cbn in Hmod; discriminate |].
      cbn [isDigits] in Hd. apply andb_prop in Hd as [Hb Hd].
      do 2 eexists. split; [reflexivity |].
      cbn [isDigits]. rewrite Ha, Hb. repeat split; try reflexivity; try (cbn; lia).
      apply threes_groups. exact Hd.
    + exfalso.
      pose proof (Nat.mod_upper_bound (String.length (String a rest)) 3 ltac:(discriminate)).
      lia.
Qed.

(** Splitting at a character that the pieces do not hold. *)
Lemma split_cons_other (c d : ascii) (s : string) :
  Ascii.eqb d c = false ->
  split c (String d s)
  = match split c s with
    | [] => [String d EmptyString]
    | p :: ps => String d p :: ps
    end.
Proof. intros H. cbn [split]. rewrite H. reflexivity. Qed.

Lemma split_piece (c : ascii) (a b : string) :
  Numbro.contains c a = false ->
  split c (a ++ String c b) = a :: split c b.
Proof.
  induction a as [| d a IH]; cbn [Numbro.contains append]; intros H.
  - cbn [split]. rewrite Ascii.eqb_refl. reflexivity.
  - apply orb_false_elim in H as [Hd Ha].
    rewrite split_cons_other by exact Hd. rewrite (IH Ha). reflexivity.
Qed.

Lemma split_whole (c : ascii) (a : string) :
  Numbro.contains c a = false -> split c a = [a].
Proof.
  induction a as [| d a IH]; cbn [Numbro.contains]; intros H; [reflexivity |].
  apply orb_false_elim in H as [Hd Ha].
  rewrite split_cons_other by exact Hd. rewrite (IH Ha). reflexivity.
Qed.

Lemma contains_append (c : ascii) (a b : string) :
  Numbro.contains c (a ++ b) = Numbro.contains c a || Numbro.contains c b.
Proof.
  induction a as [| d a IH]; [reflexivity |].
  cbn [append Numbro.contains]. rewrite IH, orb_assoc. reflexivity.
Qed.

(** A string of digits holds no comma, no point and no sign. *)
Lemma digits_contain (c : ascii) (s : string) :
  isDigit c = false -> isDigits s = true -> Numbro.contains c s = false.
Proof.
  intros Hc. induction s as [| d s IH]; [reflexivity |].
  cbn [isDigits Numbro.contains]. intros H. apply andb_prop in H as [Hd Hs].
  rewrite (IH Hs), orb_false_r.
  destruct (Ascii.eqb_spec d c) as [-> | _]; [congruence | reflexivity].
Qed.

Lemma isGroup_digits (g : string) : isGroup g = true -> isDigits g = true.
Proof. unfold isGroup. intros H. apply andb_prop in H as [H _]. exact H. Qed.

Lemma split_join (first : string) (rest : list string) :
  isDigits first = true -> forallb isGroup rest = true ->
  split "," (join "," (first :: rest)) = first :: rest.
Proof.
  revert first. induction rest as [| g rest IH]; intros first Hf Hr.
  - cbn [join]. apply split_whole. apply digits_contain; [reflexivity | exact Hf].
  - cbn [forallb] in Hr. apply andb_prop in Hr as [Hg Hr].
    change (join "," (first :: g :: rest))
      with (first ++ String "," (join "," (g :: rest))).
    rewrite split_piece by (apply digits_contain; [reflexivity | exact Hf]).
    rewrite (IH g (isGroup_digits g Hg) Hr). reflexivity.
Qed.

Lemma join_contains_point (first : string) (rest : list string) :
  isDigits first = true -> forallb isGroup rest = true ->
  Numbro.contains "." (join "," (first :: rest)) = false.
Proof.
  revert first. induction rest as [| g rest IH]; intros first Hf Hr.
  - cbn [join]. apply digits_contain; [reflexivity | exact Hf].
  - cbn [forallb] in Hr. apply andb_prop in Hr as [Hg Hr].
    change (join "," (first :: g :: rest))
      with (first ++ String "," (join "," (g :: rest))).
    rewrite contains_append. cbn [Numbro.contains].
    rewrite (digits_contain "." first eq_refl Hf), (IH g (isGroup_digits g Hg) Hr).
    reflexivity.
Qed.

(** The recogniser accepts a sign, groups of digits, a point and the
    fraction. *)
Lemma isGroupedDecimal_parts (places : Z) (negative : bool)
  (first : string) (rest : list string) (fraction : string) :
  isDigits first = true -> 1 <= len first <= 3 ->
  forallb isGroup rest = true ->
  isDigits fraction = true -> len fraction = places ->
  isGroupedDecimal places
    ((if negative then "-" else "") ++ join "," (first :: rest) ++ "." ++ fraction)
  = true.
Proof.
  intros Hf Hlen Hr Hfrac Hplaces. unfold isGroupedDecimal.
  set (sign := if negative then "-" else "").
  assert (Hsplit : split "." (sign ++ join "," (first :: rest) ++ "." ++ fraction)
                   = [sign ++ join "," (first :: rest); fraction]).
  { rewrite <- append_associative.
    change ("." ++ fraction) with (String "." fraction).
    rewrite split_piece.
    - rewrite (split_whole "." fraction)
        by (apply digits_contain; [reflexivity | exact Hfrac]).
      reflexivity.
    - rewrite contains_append, (join_contains_point first rest Hf Hr).
      destruct negative; reflexivity. }
  rewrite Hsplit, Hfrac, Hplaces, Z.eqb_refl. cbn [andb].
  assert (Hwhole : (if startsWith (sign ++ join "," (first :: rest)) "-"
                    then slice (sign ++ join "," (first :: rest)) 1 None
                    else sign ++ join "," (first :: rest))
                   = join "," (first :: rest)).
  { subst sign. destruct negative.
    - cbn [append]. rewrite startsWith_cons. cbn [Ascii.eqb Bool.eqb andb].
      apply slice_tail.
    - cbn [append].
      destruct first as [| c first']; [cbn in Hlen; lia |].
      assert (Hc : Ascii.eqb c "-" = false).
      { cbn [isDigits] in Hf. apply andb_prop in Hf as [Hc _].
        destruct (Ascii.eqb_spec c "-") as [-> | _]; [discriminate Hc | reflexivity]. }
      destruct rest as [| g rest']; cbn [join append];
        rewrite startsWith_cons, Hc; reflexivity. }
  rewrite Hwhole, (split_join first rest Hf Hr), Hf, Hr.
  destruct (Z.leb_spec 1 (len first)); [| lia].
  destruct (Z.leb_spec (len first) 3); [| lia].
  reflexivity.
Qed.

(** The digits of the shortest decimal are a natural number. *)
Lemma nearest_in (m e n0 k : Z) (cs : list (Z * Z)) (best : Z * Z) :
  In (JsNumber.nearest m e n0 k best cs) (best :: cs).
Proof.
  revert best. induction cs as [| c cs IH]; intros best; cbn [JsNumber.nearest].
  - left. reflexivity.
  - cbv zeta.
    match goal with
    | |- In (JsNumber.nearest _ _ _ _ ?b _) _ => specialize (IH b); revert IH
    end.
    destruct (_ <? _); [| destruct (_ && _)]; cbn [In]; tauto.
Qed.

Lemma candidates_digits (m e n0 k : Z) (c : Z * Z) :
  In c (JsNumber.candidates m e n0 k) -> 0 <= snd c.
Proof.
  unfold JsNumber.candidates. intros H. apply in_flat_map in H as (n & _ & H).
  apply filter_In in H as [_ H]. unfold JsNumber.candidate_ok in H.
  apply andb_prop in H as [H _]. apply andb_prop in H as [H _].
  apply Z.leb_le in H. pose proof (Z.pow_nonneg 10 (k - 1) ltac:(lia)). lia.
Qed.

Lemma floor_scaled_nonneg (m e p : Z) : 0 <= m -> 0 <= JsNumber.floor_scaled m e p.
Proof.
  intros Hm. unfold JsNumber.floor_scaled.
  pose proof (Z.pow_nonneg 2 (Z.max e 0) ltac:(lia)).
  pose proof (Z.pow_nonneg 10 (Z.max (- p) 0) ltac:(lia)).
  pose proof (Z.pow_pos_nonneg 2 (Z.max (- e) 0) ltac:(lia) ltac:(lia)).
  pose proof (Z.pow_pos_nonneg 10 (Z.max p 0) ltac:(lia) ltac:(lia)).
  apply Z.div_pos.
  - apply Z.mul_nonneg_nonneg; [apply Z.mul_nonneg_nonneg |]; assumption.
  - apply Z.mul_pos_pos; assumption.
Qed.

Lemma shortest_digits (fuel : nat) (m e n0 k : Z) :
  0 <= m -> 0 <= snd (JsNumber.shortest fuel m e n0 k).
Proof.
  intros Hm. revert k. induction fuel as [| fuel IH]; intros k; cbn [JsNumber.shortest].
  - cbn [snd]. apply floor_scaled_nonneg. exact Hm.
  - destruct (JsNumber.candidates m e n0 k) as [| c cs] eqn:Hcs; [apply IH |].
    pose proof (nearest_in m e n0 k cs c) as Hin. rewrite <- Hcs in Hin.
    apply candidates_digits in Hin.
    destruct (JsNumber.nearest m e n0 k c cs) as [n s]. exact Hin.
Qed.

Lemma digitsOf_digits (x : float) (sg : bool) (n k s : Z) :
  Numbro.digitsOf x = Some (sg, n, k, s) -> 0 <= s.
Proof.
  unfold Numbro.digitsOf. destruct (Prim2SF x) as [| | | sg' m e]; try discriminate.
  pose proof (shortest_digits 17 (Z.pos m) e
                (JsNumber.decimal_exponent (Z.pos m) e) 1 ltac:(lia)) as H.
  destruct (JsNumber.shortest _ _ _ _ _) as [[n' k'] s']. cbn [snd] in H.
  intros [= _ _ _ <-]. exact H.
Qed.

Lemma truncated_nonneg (s p : Z) : 0 <= s -> 0 <= Numbro.truncated s p.
Proof.
  intros Hs. unfold Numbro.truncated. destruct (Z.leb_spec 0 p).
  - apply Z.mul_nonneg_nonneg; [exact Hs | apply Z.pow_nonneg; lia].
  - apply Z.div_pos; [exact Hs | apply Z.pow_pos_nonneg; lia].
Qed.

Lemma halfUp_nonneg (s p : Z) : 0 <= s -> 0 <= Numbro.halfUp s p.
Proof.
  intros Hs. unfold Numbro.halfUp. destruct (Z.leb_spec 0 p).
  - apply Z.mul_nonneg_nonneg; [exact Hs | apply Z.pow_nonneg; lia].
  - pose proof (Z.pow_pos_nonneg 10 (- p) ltac:(lia) ltac:(lia)).
    apply Z.div_pos; lia.
Qed.

Lemma toFixed_nonneg (value : float) (precision : Z) :
  0 <= Numbro.toFixed value precision.
Proof.
  unfold Numbro.toFixed.
  destruct (Numbro.digitsOf value) as [[[[sg n] k] s] |] eqn:Hd; [| lia].
  apply digitsOf_digits in Hd.
  destruct (Numbro.usesExponent n); [apply truncated_nonneg; exact Hd |].
  destruct (Numbro.digitsOf _) as [[[[sg' n'] k'] s'] |] eqn:Hd'; [| lia].
  apply digitsOf_digits in Hd'. apply halfUp_nonneg. exact Hd'.
Qed.

(** The digits after the point. *)
Lemma ofZ_digit (d : Z) :
  0 <= d < 10 -> isDigits (JsString.ofZ d) = true /\ len (JsString.ofZ d) = 1.
Proof.
  intros Hd.
  assert (H : d = 0 \/ d = 1 \/ d = 2 \/ d = 3 \/ d = 4
              \/ d = 5 \/ d = 6 \/ d = 7 \/ d = 8 \/ d = 9) by lia.
  repeat (destruct H as [-> | H]; [split; reflexivity |]).
  subst d. split; reflexivity.
Qed.

Lemma lastDigits_digits (n : nat) (f : Z) :
  isDigits (Numbro.lastDigits n f) = true
  /\ len (Numbro.lastDigits n f) = Z.of_nat n.
Proof.
  revert f. induction n as [| n IH]; intros f; [split; reflexivity |].
  cbn [Numbro.lastDigits].
  destruct (IH (f / 10)) as [Hdigits Hlen].
  destruct (ofZ_digit (f mod 10)) as [Hd Hone];
    [apply Z.mod_pos_bound; lia |].
  rewrite isDigits_append, len_append, Hdigits, Hd, Hlen, Hone. split; [reflexivity | lia].
Qed.

(** The text numbro makes of a number under the pattern of
    [formatFloat]. *)
Lemma numbro_grouped (value : float) :
  isGroupedDecimal 4 (Numbro.format value "0,0.0000") = true.
Proof.
  unfold Numbro.format.
  change (Numbro.mantissaOf "0,0.0000") with 4.
  change (Numbro.thousandSeparatedOf "0,0.0000") with true.
  cbv zeta iota.
  pose proof (toFixed_nonneg value 4) as Hunits.
  set (units := Numbro.toFixed value 4) in *.
  change (10 ^ 4) with 10000.
  assert (Hwhole : 0 <= units / 10000) by (apply Z.div_pos; lia).
  destruct (ofZ_digits _ Hwhole) as [Hdigits Hlen].
  destruct (groups_shape _ Hdigits Hlen) as (first & rest & -> & Hfirst & Hsize & Hrest).
  destruct (lastDigits_digits (Z.to_nat 4) units) as [Hfrac Hfour].
  apply isGroupedDecimal_parts; assumption.
Qed.

(** ** The float rule *)

Section FloatRule.

Context {E : Externals}.

(** C7, as amended: the float rule is the ninth of the dispatcher and
    applies to the cells that no earlier rule takes.  (1) For a non-null
    cell whose type name is "float64", not tagged with the pandas.period
    extension and not a date-like value in timestamp storage, a finite
    number is rendered by numbro with the pattern "0,0.0000" and every
    other value by raw stringification.  (2) For a number in float
    storage whose type name selects none of the date, datetime, period,
    interval, timedelta and decimal rules, a finite one is rendered by
    numbro in the same way and a non-finite one by raw stringification,
    unless the type name is "object" or starts with "list", which sends
    it to JSON formatting.  (3) What numbro renders under that pattern is
    grouped with thousands separators and has exactly four fractional
    digits: an optional minus sign, one to three digits, groups of a
    comma and three digits, a point and four digits.  (4) 1234.5 gives
    "1,234.5000". *)
Theorem format_float_rule :
  (forall (x : JsValue) (type : Type_) (field : option Field),
      getTypeName type = "float64" ->
      isNullOrUndefined x = false ->
      typeIs (extensionNameOf field) "pandas.period" = false ->
      isDateLike x && fieldTypeIs field Timestamp = false ->
      format x (Some type) field
      = match asNumber x with
        | Some num =>
            if JsNumber.isFinite num then ret (Numbro.format num "0,0.0000")
            else ret (JsNumber.toString num)
        | None => ret (toString x)
        end)
  /\ (forall (x : float) (type : option Type_) (field : option Field),
         fieldTypeIs field Float = true ->
         let typeName := option_map getTypeName type in
         typeIs typeName "date" = false ->
         typeStartsWith typeName "datetime" = false ->
         typeStartsWith typeName "period" = false ->
         typeIs (extensionNameOf field) "pandas.period" = false ->
         typeStartsWith typeName "interval" = false ->
         typeStartsWith typeName "timedelta" = false ->
         typeIs typeName "decimal" = false ->
         format (VNumber x) type field
         = if JsNumber.isFinite x then ret (Numbro.format x "0,0.0000")
           else if typeIs typeName "object" || typeStartsWith typeName "list"
                then formatObject (VNumber x) field
                else ret (JsNumber.toString x))
  /\ (forall num : float,
         JsNumber.isFinite num = true ->
         formatFloat num = Numbro.format num "0,0.0000"
         /\ isGroupedDecimal 4 (formatFloat num) = true)
  /\ formatFloat 1234.5 = "1,234.5000".
Proof.
  split; [| split; [| split; [| vm_compute; reflexivity]]];
    [| | intros num Hfinite; unfold formatFloat; rewrite Hfinite;
         split; [reflexivity | apply numbro_grouped]].
  - intros x type field Hname Hnull Hext Hstamp.
    destruct x; try discriminate Hnull;
      cbn [format isNullOrUndefined isDateLike isBigIntValue andb option_map
           isFiniteNumber asNumeric asNumber asBigInt asUint32Array] in *;
      rewrite Hname, ?Hext; evalTypeTests; cbn [andb orb];
      try reflexivity.
    + (* a number *)
      destruct (JsNumber.isFinite x) eqn:Hfin; cbn [andb orb] in *.
      * rewrite Hstamp. unfold formatFloat. rewrite Hfin. reflexivity.
      * reflexivity.
    + (* a date *)
      rewrite Hstamp. reflexivity.
  - intros x ty field Hfloat typeName Hdate Hdatetime Hperiod Hext Hinterval
           Htimedelta Hdecimal.
    assert (Hstamp : fieldTypeIs field Timestamp = false).
    { revert Hfloat. unfold fieldTypeIs. destruct field as [f |]; [| discriminate].
      destruct (typeId (type f)); intros; (discriminate || reflexivity). }
    cbn [format isNullOrUndefined isDateLike isBigIntValue andb option_map
         isFiniteNumber asNumeric asNumber].
    fold typeName.
    rewrite Hdate, Hdatetime, Hperiod, Hext, Hinterval, Htimedelta, Hdecimal,
      Hstamp, Hfloat.
    rewrite !andb_false_r. cbn [orb andb].
    rewrite orb_true_r. cbn [andb].
    unfold formatFloat.
    destruct (JsNumber.isFinite x); reflexivity.
Qed.

End FloatRule.

(** Cells the float rule renders: the example of the specification, a
    negative number of seven digits, a number that rounds in its fifth
    decimal, and an infinite number in float storage. *)
Lemma format_float_rule_witness :
  format (E := sampleExternals) (VNumber 1234.5) (Some (typeNamed "float64"))
         (Some floatField)
  = ([], Returns "1,234.5000")
  /\ format (E := sampleExternals) (VNumber (-1234567.25)) (Some (typeNamed "float64"))
            None
     = ([], Returns "-1,234,567.2500")
  /\ format (E := sampleExternals) (VNumber 0.00006103515625)
            (Some (typeNamed "float64")) None
     = ([], Returns "0.0001")
  /\ format (E := sampleExternals) (VNumber infinity) None (Some floatField)
     = ([], Returns "Infinity").
Proof.
  destruct (format_float_rule (E := sampleExternals)) as (Hname & Hstorage & _).
  split; [| split; [| split]].
  - rewrite (Hname (VNumber 1234.5) (typeNamed "float64") (Some floatField)
                   eq_refl eq_refl eq_refl eq_refl).
    vm_compute. reflexivity.
  - rewrite (Hname (VNumber (-1234567.25)) (typeNamed "float64") None
                   eq_refl eq_refl eq_refl eq_refl).
    vm_compute. reflexivity.
  - rewrite (Hname (VNumber 0.00006103515625) (typeNamed "float64") None
                   eq_refl eq_refl eq_refl eq_refl).
    vm_compute. reflexivity.
  - exact (Hstorage infinity None (Some floatField)
                    eq_refl eq_refl eq_refl eq_refl eq_refl eq_refl eq_refl eq_refl).
Defined.

(** C7 as stated fails where an earlier or a later rule decides: NaN in
    float storage under the type name "object" is not a finite number, so
    the float rule passes it on, and the object rule renders it as JSON:
    the result is "null", not the raw stringification "NaN". *)
Lemma format_float_storage_counterexample :
  format (E := sampleExternals) (VNumber nan) (Some (typeNamed "object"))
         (Some floatField)
  = ([], Returns "null")
  /\ JsNumber.toString nan = "NaN"
  /\ (forall E : Externals,
         getTypeName (typeNamed "object") = "object" ->
         format (VNumber nan) (Some (typeNamed "object")) (Some floatField)
         = ([], Returns "null")).
Proof.
  split; [vm_compute; reflexivity |].
  split; [vm_compute; reflexivity |].
  intros E Hname.
  cbn [format isNullOrUndefined isDateLike isBigIntValue andb option_map
       isFiniteNumber asNumeric asNumber].
  rewrite Hname. vm_compute. reflexivity.
Qed.

(** ** Objects *)

(** Induction on values, with the hypothesis for every element and every
    property value of a compound. *)
Lemma JsValue_nested_ind (P : JsValue -> Prop) :
  P VUndefined -> P VNull ->
  (forall b, P (VBool b)) -> (forall x, P (VNumber x)) ->
  (forall z, P (VBigInt z)) -> (forall s, P (VString s)) ->
  (forall t, P (VDate t)) -> (forall words, P (VUint32Array words)) ->
  (forall items, Forall P items -> P (VArray items)) ->
  (forall props, Forall (fun kv => P (snd kv)) props -> P (VObject props)) ->
  (forall props, Forall (fun kv => P (snd kv)) props -> P (VStructRow props)) ->
  (forall items, Forall P items -> P (VVector items)) ->
  forall v, P v.
Proof.
  intros Hu Hn Hb Hx Hz Hs Ht Hw Ha Ho Hr Hv.
  fix IH 1. intros v. destruct v as [| | b | x | z | s | t | words | items | props | props | items].
  - exact Hu.
  - exact Hn.
  - apply Hb.
  - apply Hx.
  - apply Hz.
  - apply Hs.
  - apply Ht.
  - apply Hw.
  - apply Ha. induction items as [| i rest IHrest]; constructor;
      [apply IH | exact IHrest].
  - apply Ho. induction props as [| [k w] rest IHrest]; constructor;
      [apply IH | exact IHrest].
  - apply Hr. induction props as [| [k w] rest IHrest]; constructor;
      [apply IH | exact IHrest].
  - apply Hv. induction items as [| i rest IHrest]; constructor;
      [apply IH | exact IHrest].
Qed.







Lemma arrayItems_some (items : list Serialized) :
  Forall (fun s => s <> Raised) items -> arrayItems items <> None.
Proof.
  induction 1 as [| s rest Hs _ IH]; [discriminate |].
  destruct s; cbn [arrayItems]; try contradiction;
    destruct (arrayItems rest); (discriminate || contradiction).
Qed.

Lemma objectMembers_some (props : list (string * Serialized)) :
  Forall (fun kv => snd kv <> Raised) props -> objectMembers props <> None.
Proof.
  induction 1 as [| [k s] rest Hs _ IH]; [discriminate |].
  cbn [snd] in Hs. destruct s; cbn [objectMembers]; try contradiction;
    destruct (objectMembers rest); (discriminate || contradiction).
Qed.

(** A replacer that never hands back a bigint makes serialization total:
    no [TypeError]. *)
Lemma serialize_never_raises (replacer : JsValue -> JsValue) :
  (forall w, leaf (replacer w) <> Raised) ->
  forall v, serialize replacer v <> Raised.
Proof.
  intros Hleaf.
  induction v as [| | b | x | z | s | t | words | items IH | props IH
                 | props IH | items IH] using JsValue_nested_ind;
    cbn [serialize]; try apply Hleaf.
  - destruct t; apply Hleaf.
  - unfold object.
    destruct (objectMembers _) eqn:Hm; [discriminate |].
    exfalso. revert Hm. apply objectMembers_some.
    apply Forall_map. apply Forall_forall. intros [k w] _. apply Hleaf.
  - unfold array.
    destruct (arrayItems _) eqn:Hm; [discriminate |].
    exfalso. revert Hm. apply arrayItems_some. apply Forall_map. exact IH.
  - unfold object.
    destruct (objectMembers _) eqn:Hm; [discriminate |].
    exfalso. revert Hm. apply objectMembers_some. apply Forall_map.
    apply (Forall_impl _ (P := fun kv => serialize replacer (snd kv) <> Raised));
      [intros [k w] H; exact H | exact IH].
  - unfold object.
    destruct (objectMembers _) eqn:Hm; [discriminate |].
    exfalso. revert Hm. apply objectMembers_some. apply Forall_map.
    apply (Forall_impl _ (P := fun kv => serialize replacer (snd kv) <> Raised));
      [intros [k w] H; exact H | exact IH].
  - unfold array.
    destruct (arrayItems _) eqn:Hm; [discriminate |].
    exfalso. revert Hm. apply arrayItems_some. apply Forall_map. exact IH.
Qed.

Lemma structReplacer_leaf (w : JsValue) : leaf (structReplacer w) <> Raised.
Proof. destruct w as [| | [|] | | | | | | | | |]; discriminate. Qed.

Lemma bigintReplacer_leaf (w : JsValue) : leaf (bigintReplacer w) <> Raised.
Proof. destruct w as [| | [|] | | | | | | | | |]; discriminate. Qed.



Lemma stringify_total (v : JsValue) :
  (exists text, stringify v structReplacer = Returns text)
  /\ (exists text, stringify v bigintReplacer = Returns text).
Proof.
  unfold stringify. split.
  - pose proof (serialize_never_raises structReplacer structReplacer_leaf v) as H.
    destruct (serialize structReplacer v); [eexists; reflexivity .. | contradiction].
  - pose proof (serialize_never_raises bigintReplacer bigintReplacer_leaf v) as H.
    destruct (serialize bigintReplacer v); [eexists; reflexivity .. | contradiction].
Qed.




(** ** Which calls raise *)




Lemma formatObject_never_raises (v : JsValue) (field : option Field)
  (warnings : list string) (e : JsError) :
  formatObject v field <> (warnings, Throws e).
Proof.
  unfold formatObject.
  destruct (stringify_total v) as [[t1 H1] [t2 H2]].
  destruct (isStruct field); rewrite ?H1, ?H2; rewrite lift_returns, bind_ret_l;
    [destruct t1 | destruct t2]; discriminate.
Qed.



Section Raising.

Context {E : Externals}.



(** The dispatcher without its period and interval rules. *)
Lemma format_elsewhere
  (x : JsValue) (type : option Type_) (field : option Field) :
  let typeName := option_map getTypeName type in
  typeStartsWith typeName "period" = false ->
  typeIs (extensionNameOf field) "pandas.period" = false ->
  typeStartsWith typeName "interval" = false ->
  format x type field
  = if isNullOrUndefined x then ret "<NA>"
    else if isDateLike x && typeIs typeName "date" then formatDate x
    else if isBigIntValue x && typeIs typeName "time" then
      match asBigInt x with
      | Some z => ret (formatTime (NumNumber (JsNumber.ofZ z)) field)
      | None => offContract
      end
    else if isDateLike x && (typeStartsWith typeName "datetime"
                             || fieldTypeIs field Timestamp)
    then formatDatetime x field
    else if typeStartsWith typeName "timedelta"
    then ret (formatDuration (asDuration x) field)
    else if typeIs typeName "decimal"
    then value <- lift (bigNumBuffer x) ;; ret (formatDecimal value field)
    else if (typeIs typeName "float64" || fieldTypeIs field Float)
            && isFiniteNumber x
    then match asNumber x with
         | Some num => ret (formatFloat num)
         | None => offContract
         end
    else if typeIs typeName "object" || typeStartsWith typeName "list"
    then formatObject x field
    else ret (toString x).
Proof.
  intros typeName Hperiod Hext Hinterval.
  destruct x; cbn [format]; fold typeName;
    rewrite ?Hperiod, ?Hext, ?Hinterval; reflexivity.
Qed.






End Raising.



Section RaisingClaim.

Context {E : Externals}.


End RaisingClaim.



(** ** The civil calendar

    [days_from_civil] counts the days from 1970-01-01 to a date, and
    [civil_from_days] reads the date back.  1970-01-01 is day 0. *)

Lemma validDate_spec (y m d : Z) :
  validDate y m d = true -> 1 <= m <= 12 /\ 1 <= d <= daysInMonth y m.
Proof.
  unfold validDate. rewrite !andb_true_iff, !Z.leb_le. lia.
Qed.

Lemma validClock_spec (h mi s : Z) :
  validClock h mi s = true -> 0 <= h < 24 /\ 0 <= mi < 60 /\ 0 <= s < 60.
Proof.
  unfold validClock. rewrite !andb_true_iff, !Z.leb_le, !Z.ltb_lt. lia.
Qed.

Lemma isLeap_spec (y : Z) :
  isLeap y = true <-> y mod 4 = 0 /\ (y mod 100 <> 0 \/ y mod 400 = 0).
Proof.
  unfold isLeap.
  rewrite orb_true_iff, andb_true_iff, negb_true_iff, !Z.eqb_eq, Z.eqb_neq.
  split.
  - intros [[H4 H100] | H400]; [split; [exact H4 | left; exact H100] |].
    split; [| right; exact H400].
    Z.div_mod_to_equations. lia.
  - intros [H4 [H100 | H400]]; [left; split; assumption | right; exact H400].
Qed.

Lemma daysInMonth_bounds (y m : Z) : 28 <= daysInMonth y m <= 31.
Proof.
  unfold daysInMonth.
  destruct (m =? 2); [destruct (isLeap y); lia |].
  destruct ((m =? 4) || (m =? 6) || (m =? 9) || (m =? 11)); lia.
Qed.

(** The year of the era is recovered from the day of the era.  The
    years of an era start in March; day 365 of such a year is the 29th of
    February of the calendar year that follows. *)
Lemma yoe_recovered (yoe doy : Z) :
  0 <= yoe <= 399 -> 0 <= doy <= 365 ->
  (doy = 365 -> (yoe + 1) mod 4 = 0 /\ ((yoe + 1) mod 100 <> 0 \/ yoe = 399)) ->
  let doe := yoe * 365 + yoe / 4 - yoe / 100 + doy in
  0 <= doe < 146097
  /\ (doe - doe / 1460 + doe / 36524 - doe / 146096) / 365 = yoe.
Proof.
  intros Hy Hd Hleap doe. subst doe.
  Z.div_mod_to_equations. lia.
Qed.

(** The month and the day are recovered from the day of the year that
    starts in March. *)
Lemma month_recovered (m d : Z) :
  1 <= m <= 12 -> 1 <= d <= 31 ->
  (m = 4 \/ m = 6 \/ m = 9 \/ m = 11 -> d <= 30) -> (m = 2 -> d <= 29) ->
  let mp0 := if 2 <? m then m - 3 else m + 9 in
  let doy := (153 * mp0 + 2) / 5 + d - 1 in
  let mp := (5 * doy + 2) / 153 in
  0 <= doy <= 365
  /\ (doy = 365 -> m = 2 /\ d = 29)
  /\ mp = mp0
  /\ doy - (153 * mp + 2) / 5 + 1 = d.
Proof.
  intros Hm Hd H30 H29. cbv zeta.
  assert (Hcases : m = 1 \/ m = 2 \/ m = 3 \/ m = 4 \/ m = 5 \/ m = 6 \/ m = 7
                   \/ m = 8 \/ m = 9 \/ m = 10 \/ m = 11 \/ m = 12) by lia.
  repeat (destruct Hcases as [-> | Hcases]); try subst m;
    match goal with
    | |- context [if ?b then ?a else ?c] =>
        let v := eval vm_compute in (if b then a else c) in
        change (if b then a else c) with v
    end;
    Z.div_mod_to_equations; lia.
Qed.

(** Reading back the day number of a date gives the date. *)
Lemma civil_round_trip (y m d : Z) :
  1 <= m <= 12 -> 1 <= d <= daysInMonth y m ->
  civil_from_days (days_from_civil y m d) = (y, m, d).
Proof.
  intros Hm Hd.
  assert (Hlen : d <= 31 /\ (m = 4 \/ m = 6 \/ m = 9 \/ m = 11 -> d <= 30)
                 /\ (m = 2 -> d <= 29) /\ (m = 2 -> d = 29 -> isLeap y = true)).
  { revert Hd. unfold daysInMonth.
    destruct (Z.eqb_spec m 2) as [-> | H2].
    - destruct (isLeap y); intros; repeat split; intros; try lia; reflexivity.
    - destruct (Z.eqb_spec m 4), (Z.eqb_spec m 6), (Z.eqb_spec m 9), (Z.eqb_spec m 11);
        cbn [orb]; intros; repeat split; intros; lia. }
  destruct Hlen as (H31 & H30 & H29 & Hleap).
  pose proof (month_recovered m d Hm ltac:(lia) H30 H29) as Hmonth. cbv zeta in Hmonth.
  unfold days_from_civil, civil_from_days.
  set (y0 := if m <=? 2 then y - 1 else y).
  set (mp0 := if 2 <? m then m - 3 else m + 9) in *.
  set (doy := (153 * mp0 + 2) / 5 + d - 1) in *.
  destruct Hmonth as (Hdoy & Hlast & Hmp & Hday).
  set (era := y0 / 400).
  set (yoe := y0 - era * 400).
  assert (Hyoe : 0 <= yoe <= 399)
    by (unfold yoe, era; Z.div_mod_to_equations; lia).
  assert (Hfeb : doy = 365 ->
            (yoe + 1) mod 4 = 0 /\ ((yoe + 1) mod 100 <> 0 \/ yoe = 399)).
  { intros H365. destruct (Hlast H365) as [-> ->].
    apply isLeap_spec in Hleap; [| reflexivity | reflexivity].
    unfold yoe, era, y0. cbn [Z.leb Z.compare Pos.compare Pos.compare_cont].
    Z.div_mod_to_equations. lia. }
  pose proof (yoe_recovered yoe doy Hyoe Hdoy Hfeb) as Hrec. cbv zeta in Hrec.
  set (doe := yoe * 365 + yoe / 4 - yoe / 100 + doy) in *.
  destruct Hrec as [Hdoe Hyear].
  replace (era * 146097 + doe - 719468 + 719468) with (doe + era * 146097) by lia.
  rewrite Z.div_add, (Z.div_small doe) by lia. cbn [Z.add].
  replace (doe + era * 146097 - era * 146097) with doe by lia.
  rewrite Hyear.
  replace (doe - (365 * yoe + yoe / 4 - yoe / 100)) with doy by (unfold doe; lia).
  rewrite Hmp in Hday. rewrite Hmp, Hday.
  unfold mp0, yoe, y0.
  destruct (Z.ltb_spec 2 m), (Z.leb_spec m 2); try lia;
    [ destruct (Z.ltb_spec (m - 3) 10) | destruct (Z.ltb_spec (m + 9) 10) ]; try lia.
  - destruct (Z.leb_spec (m - 3 + 3) 2); try lia. f_equal. f_equal; lia.
  - destruct (Z.leb_spec (m + 9 - 9) 2); try lia. f_equal. f_equal; lia.
Qed.

(** The day after a date has the next day number: within a month, from
    the last day of a month to the first of the next, and from the 31st
    of December to the 1st of January. *)
Lemma days_from_civil_next (y m d : Z) :
  validDate y m d = true ->
  days_from_civil y m d + 1
  = if d <? daysInMonth y m then days_from_civil y m (d + 1)
    else if m <? 12 then days_from_civil y (m + 1) 1
    else days_from_civil (y + 1) 1 1.
Proof.
  intros Hvalid. apply validDate_spec in Hvalid as [Hm Hd].
  destruct (Z.ltb_spec d (daysInMonth y m)) as [Hlt | Hge].
  { unfold days_from_civil. lia. }
  assert (Hlast : d = daysInMonth y m) by lia. subst d. clear Hd Hge.
  assert (Hcases : m = 1 \/ m = 2 \/ m = 3 \/ m = 4 \/ m = 5 \/ m = 6 \/ m = 7
                   \/ m = 8 \/ m = 9 \/ m = 10 \/ m = 11 \/ m = 12) by lia.
  repeat (destruct Hcases as [-> | Hcases]); try subst m;
    unfold days_from_civil, daysInMonth;
    cbn [Z.eqb Pos.eqb Z.leb Z.ltb Z.add Pos.add Pos.succ Z.compare Pos.compare
         Pos.compare_cont orb];
    try (Z.div_mod_to_equations; lia).
  (* February: the length of the month is that of a leap year or not *)
  replace (y + 1 - 1) with y by lia.
  destruct (isLeap y) eqn:Hleap.
  - apply isLeap_spec in Hleap. Z.div_mod_to_equations. lia.
  - assert (Hnot : ~ (y mod 4 = 0 /\ (y mod 100 <> 0 \/ y mod 400 = 0))).
    { intros H. apply isLeap_spec in H. congruence. }
    Z.div_mod_to_equations. lia.
Qed.

Lemma days_from_civil_bound (y m d : Z) :
  Z.abs y <= 200000 -> 1 <= m <= 12 -> 1 <= d <= 31 ->
  Z.abs (days_from_civil y m d) <= 99999000.
Proof.
  intros Hy Hm Hd. unfold days_from_civil.
  set (y0 := if m <=? 2 then y - 1 else y).
  assert (Hy0 : y - 1 <= y0 <= y) by (unfold y0; destruct (m <=? 2); lia).
  set (mp0 := if 2 <? m then m - 3 else m + 9).
  assert (Hmp : 0 <= mp0 <= 11)
    by (unfold mp0; destruct (Z.ltb_spec 2 m); lia).
  clearbody y0 mp0. Z.div_mod_to_equations. lia.
Qed.

(** The day number of a date within 200000 years of the epoch is within
    the range of dates. *)
Lemma validDate_in_range (y m d : Z) :
  validDate y m d = true -> Z.abs y <= 200000 ->
  Z.abs (days_from_civil y m d) <= 99999000.
Proof.
  intros Hvalid Hy. apply validDate_spec in Hvalid as [Hm Hd].
  pose proof (daysInMonth_bounds y m).
  apply days_from_civil_bound; lia.
Qed.

Lemma isoOfDay_civil (y m d : Z) :
  validDate y m d = true -> isoOfDay (days_from_civil y m d) = isoText y m d.
Proof.
  intros Hvalid. apply validDate_spec in Hvalid as [Hm Hd].
  unfold isoOfDay. rewrite civil_round_trip by assumption. reflexivity.
Qed.

(** A time value splits into its day and the millisecond of the day. *)
Lemma dayOf_split (day r : Z) :
  0 <= r < MS_PER_DAY -> dayOf (day * MS_PER_DAY + r) = day.
Proof.
  intros Hr. unfold dayOf.
  rewrite Z.add_comm, Z.div_add by discriminate.
  rewrite Z.div_small by exact Hr. reflexivity.
Qed.

Lemma msOfDay_split (day r : Z) :
  0 <= r < MS_PER_DAY -> msOfDay (day * MS_PER_DAY + r) = r.
Proof.
  intros Hr. unfold msOfDay.
  rewrite Z.add_comm, Z_mod_plus_full. apply Z.mod_small. exact Hr.
Qed.

Lemma isoDate_split (day r : Z) :
  0 <= r < MS_PER_DAY -> isoDate (day * MS_PER_DAY + r) = isoOfDay day.
Proof.
  intros Hr. unfold isoDate, isoOfDay, YYYY, MM, DD, year, month, date.
  rewrite dayOf_split by exact Hr.
  destruct (civil_from_days day) as [[y m] d]. reflexivity.
Qed.

Lemma timeClip_split (day r : Z) :
  Z.abs day <= 99999000 -> 0 <= r < MS_PER_DAY ->
  timeClip (day * MS_PER_DAY + r) = Some (day * MS_PER_DAY + r).
Proof.
  intros Hday Hr. unfold timeClip, MAX_TIME, MS_PER_DAY in *.
  destruct (Z.leb_spec (Z.abs (day * 86400000 + r)) 8640000000000000) as [_ | Hgt];
    [reflexivity | lia].
Qed.

(** The clock of a millisecond of the day. *)
Lemma clock_split (day h mi s ms : Z) :
  0 <= h < 24 -> 0 <= mi < 60 -> 0 <= s < 60 -> 0 <= ms < 1000 ->
  let t := day * MS_PER_DAY + (3600000 * h + 60000 * mi + 1000 * s + ms) in
  HH t = zeroFill h 2 /\ mm t = zeroFill mi 2 /\ ss t = zeroFill s 2
  /\ SSS t = zeroFill ms 3.
Proof.
  intros Hh Hmi Hs Hms t. unfold HH, mm, ss, SSS, t.
  rewrite msOfDay_split by (unfold MS_PER_DAY; lia).
  repeat split; f_equal; Z.div_mod_to_equations; lia.
Qed.

(** The text of the moment at a millisecond of a day, under each of the
    patterns of the formatters. *)
Lemma formatWith_instant (day h mi s ms : Z) :
  Z.abs day <= 99999000 ->
  0 <= h < 24 -> 0 <= mi < 60 -> 0 <= s < 60 -> 0 <= ms < 1000 ->
  let m := timeClip (day * MS_PER_DAY
                     + (3600000 * h + 60000 * mi + 1000 * s + ms)) in
  formatWith (fun t => isoDate t ++ " " ++ clock t ++ "." ++ SSS t) m
  = isoOfDay day ++ " " ++ clockText h mi s ++ "." ++ zeroFill ms 3
  /\ formatWith (fun t => isoDate t ++ " " ++ clock t) m
     = isoOfDay day ++ " " ++ clockText h mi s
  /\ formatWith (fun t => isoDate t ++ " " ++ HH t ++ ":" ++ mm t) m
     = isoOfDay day ++ " " ++ zeroFill h 2 ++ ":" ++ zeroFill mi 2
  /\ formatWith isoDate m = isoOfDay day.
Proof.
  intros Hday Hh Hmi Hs Hms m.
  assert (Hr : 0 <= 3600000 * h + 60000 * mi + 1000 * s + ms < MS_PER_DAY)
    by (unfold MS_PER_DAY; lia).
  unfold m. rewrite timeClip_split by assumption. cbn [formatWith].
  unfold clock, clockText.
  destruct (clock_split day h mi s ms Hh Hmi Hs Hms) as (-> & -> & -> & ->).
  rewrite isoDate_split by exact Hr.
  repeat split; reflexivity.
Qed.

(** ** Periods counted in milliseconds, seconds, minutes, hours and days

    The formatters of elapsed time add their duration to the time value
    of local midnight of 1970-01-01 and read the result on the local wall
    clock.  In a zone whose offset from UTC never changes the two
    conversions cancel, and the text is that of the date and time the
    duration counts to; across a change of the clock it is not.  The
    properties are stated for such a zone and for the dates within 200000
    years of the epoch, which all lie within the range of a Date. *)

Section FixedZone.

Context {E : Externals}.

Variable offset : Z.

Hypothesis fixed_zone : forall t isUTC, localTZA t isUTC = offset.

Hypothesis offset_below_a_day : Z.abs offset <= 86400000.

(** In a zone of fixed offset, elapsed time added to local midnight and
    read on the local wall clock is that time on the local calendar. *)
Lemma localTime_fixed_zone (n : Z) :
  Z.abs n <= MAX_TIME - MS_PER_DAY ->
  localTime (addMs n localEpoch) = timeClip n.
Proof.
  intros Hn. unfold localEpoch, addMs. rewrite fixed_zone.
  unfold timeClip, MAX_TIME, MS_PER_DAY in *.
  destruct (Z.leb_spec (Z.abs (0 - offset)) 8640000000000000) as [_ | ?]; [| lia].
  destruct (Z.leb_spec (Z.abs (0 - offset + n)) 8640000000000000) as [_ | ?]; [| lia].
  destruct (Z.leb_spec (Z.abs n) 8640000000000000) as [_ | ?]; [| lia].
  cbn [localTime]. rewrite fixed_zone. f_equal. lia.
Qed.

Lemma instant_in_range (day r : Z) :
  Z.abs day <= 99999000 -> 0 <= r < MS_PER_DAY ->
  Z.abs (day * MS_PER_DAY + r) <= MAX_TIME - MS_PER_DAY.
Proof. unfold MAX_TIME, MS_PER_DAY. lia. Qed.

(** X4: in a zone of fixed offset, [formatMs] at the number of
    milliseconds from the epoch to the time [h:mi:s.ms] of the date
    [y-m-d] returns "YYYY-MM-DD HH:mm:ss.SSS" for that date and time, each
    part zero-filled; a negative duration reaches the dates before
    1970. *)
Theorem formatMs_civil (y m d h mi s ms : Z) :
  validDate y m d = true -> Z.abs y <= 200000 ->
  validClock h mi s = true -> 0 <= ms < 1000 ->
  formatMs (days_from_civil y m d * 86400000
            + 3600000 * h + 60000 * mi + 1000 * s + ms)
  = isoText y m d ++ " " ++ clockText h mi s ++ "." ++ zeroFill ms 3.
Proof.
  intros Hdate Hy Hclock Hms.
  apply validClock_spec in Hclock as (Hh & Hmi & Hs).
  pose proof (validDate_in_range y m d Hdate Hy) as Hday.
  unfold formatMs.
  replace (days_from_civil y m d * 86400000
           + 3600000 * h + 60000 * mi + 1000 * s + ms)
    with (days_from_civil y m d * MS_PER_DAY
          + (3600000 * h + 60000 * mi + 1000 * s + ms))
    by (unfold MS_PER_DAY; lia).
  rewrite localTime_fixed_zone
    by (apply instant_in_range; [exact Hday | unfold MS_PER_DAY; lia]).
  rewrite (proj1 (formatWith_instant _ h mi s ms Hday Hh Hmi Hs Hms)).
  rewrite isoOfDay_civil by exact Hdate. reflexivity.
Qed.

(** X5: in a zone of fixed offset, [formatSec] at the number of seconds
    from the epoch to the time [h:mi:s] of the date [y-m-d] returns
    "YYYY-MM-DD HH:mm:ss" for that date and time. *)
Theorem formatSec_civil (y m d h mi s : Z) :
  validDate y m d = true -> Z.abs y <= 200000 -> validClock h mi s = true ->
  formatSec (days_from_civil y m d * 86400 + 3600 * h + 60 * mi + s)
  = isoText y m d ++ " " ++ clockText h mi s.
Proof.
  intros Hdate Hy Hclock.
  apply validClock_spec in Hclock as (Hh & Hmi & Hs).
  pose proof (validDate_in_range y m d Hdate Hy) as Hday.
  unfold formatSec, addSeconds.
  replace ((days_from_civil y m d * 86400 + 3600 * h + 60 * mi + s) * 1000)
    with (days_from_civil y m d * MS_PER_DAY
          + (3600000 * h + 60000 * mi + 1000 * s + 0))
    by (unfold MS_PER_DAY; lia).
  rewrite localTime_fixed_zone
    by (apply instant_in_range; [exact Hday | unfold MS_PER_DAY; lia]).
  rewrite (proj1 (proj2 (formatWith_instant _ h mi s 0 Hday Hh Hmi Hs ltac:(lia)))).
  rewrite isoOfDay_civil by exact Hdate. reflexivity.
Qed.

(** X6: in a zone of fixed offset, [formatMin] at the number of minutes
    from the epoch to the time [h:mi] of the date [y-m-d] returns
    "YYYY-MM-DD HH:mm" for that date and time. *)
Theorem formatMin_civil (y m d h mi : Z) :
  validDate y m d = true -> Z.abs y <= 200000 -> 0 <= h < 24 -> 0 <= mi < 60 ->
  formatMin (days_from_civil y m d * 1440 + 60 * h + mi)
  = isoText y m d ++ " " ++ zeroFill h 2 ++ ":" ++ zeroFill mi 2.
Proof.
  intros Hdate Hy Hh Hmi.
  pose proof (validDate_in_range y m d Hdate Hy) as Hday.
  unfold formatMin, addMinutes.
  replace ((days_from_civil y m d * 1440 + 60 * h + mi) * 60000)
    with (days_from_civil y m d * MS_PER_DAY
          + (3600000 * h + 60000 * mi + 1000 * 0 + 0))
    by (unfold MS_PER_DAY; lia).
  rewrite localTime_fixed_zone
    by (apply instant_in_range; [exact Hday | unfold MS_PER_DAY; lia]).
  rewrite (proj1 (proj2 (proj2
             (formatWith_instant _ h mi 0 0 Hday Hh Hmi ltac:(lia) ltac:(lia))))).
  rewrite isoOfDay_civil by exact Hdate. reflexivity.
Qed.

(** X7: in a zone of fixed offset, [formatHours] at the number of hours
    from the epoch to the hour [h] of the date [y-m-d] returns
    "YYYY-MM-DD HH:00" for that date and hour: the pattern has a minute
    field, which is always 00. *)
Theorem formatHours_civil (y m d h : Z) :
  validDate y m d = true -> Z.abs y <= 200000 -> 0 <= h < 24 ->
  formatHours (days_from_civil y m d * 24 + h)
  = isoText y m d ++ " " ++ zeroFill h 2 ++ ":00".
Proof.
  intros Hdate Hy Hh.
  pose proof (validDate_in_range y m d Hdate Hy) as Hday.
  unfold formatHours, addHours.
  replace ((days_from_civil y m d * 24 + h) * 3600000)
    with (days_from_civil y m d * MS_PER_DAY
          + (3600000 * h + 60000 * 0 + 1000 * 0 + 0))
    by (unfold MS_PER_DAY; lia).
  rewrite localTime_fixed_zone
    by (apply instant_in_range; [exact Hday | unfold MS_PER_DAY; lia]).
  rewrite (proj1 (proj2 (proj2
             (formatWith_instant _ h 0 0 0 Hday Hh ltac:(lia) ltac:(lia) ltac:(lia))))).
  rewrite isoOfDay_civil by exact Hdate. reflexivity.
Qed.

End FixedZone.

(** The last millisecond of the leap day of 2024, and the millisecond
    before the epoch, in the zone of the sample runtime and in a zone
    five and a half hours east of Greenwich. *)
Lemma formatMs_civil_witness :
  formatMs (E := sampleExternals) 1709251199999 = "2024-02-29 23:59:59.999"
  /\ formatMs (E := sampleExternals) (-1) = "1969-12-31 23:59:59.999"
  /\ formatMs (E := easternExternals) (-1) = "1969-12-31 23:59:59.999".
Proof.
  split; [| split].
  - exact (formatMs_civil (E := sampleExternals) 0 (fun _ _ => eq_refl)
             ltac:(cbn; lia) 2024 2 29 23 59 59 999
             eq_refl ltac:(cbn; lia) eq_refl ltac:(lia)).
  - exact (formatMs_civil (E := sampleExternals) 0 (fun _ _ => eq_refl)
             ltac:(cbn; lia) 1969 12 31 23 59 59 999
             eq_refl ltac:(cbn; lia) eq_refl ltac:(lia)).
  - exact (formatMs_civil (E := easternExternals) 19800000 (fun _ _ => eq_refl)
             ltac:(cbn; lia) 1969 12 31 23 59 59 999
             eq_refl ltac:(cbn; lia) eq_refl ltac:(lia)).
Defined.

(** One billion seconds after the epoch. *)
Lemma formatSec_civil_witness :
  formatSec (E := sampleExternals) 1000000000 = "2001-09-09 01:46:40"
  /\ formatSec (E := easternExternals) 1000000000 = "2001-09-09 01:46:40".
Proof.
  split.
  - exact (formatSec_civil (E := sampleExternals) 0 (fun _ _ => eq_refl)
             ltac:(cbn; lia) 2001 9 9 1 46 40 eq_refl ltac:(cbn; lia) eq_refl).
  - exact (formatSec_civil (E := easternExternals) 19800000 (fun _ _ => eq_refl)
             ltac:(cbn; lia) 2001 9 9 1 46 40 eq_refl ltac:(cbn; lia) eq_refl).
Defined.

(** A quarter past eight on the first of March 2000. *)
Lemma formatMin_civil_witness :
  formatMin (E := sampleExternals) 15864975 = "2000-03-01 08:15".
Proof.
  exact (formatMin_civil (E := sampleExternals) 0 (fun _ _ => eq_refl)
           ltac:(cbn; lia) 2000 3 1 8 15
           eq_refl ltac:(cbn; lia) ltac:(lia) ltac:(lia)).
Defined.

(** The hour before the epoch. *)
Lemma formatHours_civil_witness :
  formatHours (E := sampleExternals) (-1) = "1969-12-31 23:00".
Proof.
  exact (formatHours_civil (E := sampleExternals) 0 (fun _ _ => eq_refl)
           ltac:(cbn; lia) 1969 12 31 23 eq_refl ltac:(cbn; lia) ltac:(lia)).
Defined.

(** Where the clock changes the hypothesis fails and so does the text:
    in a zone that moves its clock one hour forward at the 100th hour
    after the epoch, the 101st hour reads 06:00, not 05:00, on
    1970-01-05. *)
Lemma formatHours_across_clock_change :
  formatHours (E := summerExternals) 99 = "1970-01-05 03:00"
  /\ formatHours (E := summerExternals) 101 = "1970-01-05 06:00"
  /\ days_from_civil 1970 1 5 * 24 + 5 = 101.
Proof. repeat split; vm_compute; reflexivity. Qed.



(** ** Periods counted in months, quarters and years *)

(** The moment that months after the epoch come to: the first day of
    the month reached. *)
Lemma addMonths_epoch (y m : Z) :
  1 <= m <= 12 -> Z.abs y <= 200000 ->
  addMonths (12 * (y - 1970) + (m - 1)) epoch
  = Some (days_from_civil y m 1 * MS_PER_DAY)
  /\ civil_from_days (dayOf (days_from_civil y m 1 * MS_PER_DAY)) = (y, m, 1).
Proof.
  intros Hm Hy.
  pose proof (daysInMonth_bounds y m) as Hlen.
  assert (Hidx : (12 * (y - 1970) + (m - 1)) / 12 = y - 1970
                 /\ (12 * (y - 1970) + (m - 1)) mod 12 = m - 1)
    by (Z.div_mod_to_equations; lia).
  destruct Hidx as [Hq Hr].
  split.
  - unfold addMonths, epoch.
    change (civil_from_days (dayOf 0)) with (1970, 1, 1).
    change (msOfDay 0) with 0. cbv iota beta.
    replace (1 - 1 + (12 * (y - 1970) + (m - 1))) with (12 * (y - 1970) + (m - 1)) by lia.
    rewrite Hq, Hr.
    replace (1970 + (y - 1970)) with y by lia.
    replace (m - 1 + 1) with m by lia.
    rewrite Z.min_l by lia. rewrite Z.add_0_r.
    apply timeClip_days.
    pose proof (days_from_civil_bound y m 1 Hy Hm ltac:(lia)). lia.
  - rewrite dayOf_days. apply civil_round_trip; lia.
Qed.

(** X9: [formatMonth] at the number of months from January 1970 to the
    month [m] of the year [y] returns "YYYY-MM" for that month. *)
Theorem formatMonth_ordinal (y m : Z) :
  1 <= m <= 12 -> Z.abs y <= 200000 ->
  formatMonth (12 * (y - 1970) + (m - 1)) = zeroFill y 4 ++ "-" ++ zeroFill m 2.
Proof.
  intros Hm Hy. destruct (addMonths_epoch y m Hm Hy) as [Hadd Hcivil].
  unfold formatMonth. rewrite Hadd. cbn [formatWith].
  unfold YYYY, MM, year, month. rewrite Hcivil. reflexivity.
Qed.

(** December 1969 is month -1, and February 2024 is month 649. *)
Lemma formatMonth_ordinal_witness :
  formatMonth (-1) = "1969-12" /\ formatMonth 649 = "2024-02".
Proof.
  split.
  - exact (formatMonth_ordinal 1969 12 ltac:(lia) ltac:(cbn; lia)).
  - exact (formatMonth_ordinal 2024 2 ltac:(lia) ltac:(cbn; lia)).
Defined.

(** X10: [formatYear] at the number of years from 1970 to the year [y]
    returns the year, zero-filled to four digits. *)
Theorem formatYear_ordinal (y : Z) :
  Z.abs y <= 200000 -> formatYear (y - 1970) = zeroFill y 4.
Proof.
  intros Hy. destruct (addMonths_epoch y 1 ltac:(lia) Hy) as [Hadd Hcivil].
  unfold formatYear, addYears.
  replace (12 * (y - 1970)) with (12 * (y - 1970) + (1 - 1)) by lia.
  rewrite Hadd. cbn [formatWith].
  unfold YYYY, year. rewrite Hcivil. reflexivity.
Qed.

(** The years 2024 and 987. *)
Lemma formatYear_ordinal_witness :
  formatYear 54 = "2024" /\ formatYear (-983) = "0987".
Proof.
  split.
  - exact (formatYear_ordinal 2024 ltac:(cbn; lia)).
  - exact (formatYear_ordinal 987 ltac:(cbn; lia)).
Defined.

(** The day before the first of the month after [m] is the last day of
    [m], for the months that end a quarter. *)
Lemma quarter_last_day (y m : Z) :
  m = 3 \/ m = 6 \/ m = 9 \/ m = 12 ->
  days_from_civil (y + m / 12) (m mod 12 + 1) 1 - 1
  = days_from_civil y m (daysInMonth y m).
Proof.
  intros [-> | [-> | [-> | ->]]]; unfold days_from_civil, daysInMonth;
    match goal with
    | |- context [?a / 12] =>
        let v := eval vm_compute in (a / 12) in change (a / 12) with v
    end;
    match goal with
    | |- context [?a mod 12 + 1] =>
        let v := eval vm_compute in (a mod 12 + 1) in change (a mod 12 + 1) with v
    end;
    cbn [Z.eqb Pos.eqb Z.leb Z.ltb Z.compare Pos.compare Pos.compare_cont orb];
    rewrite ?Z.add_0_r;
    replace (y + 1 - 1) with y by lia;
    Z.div_mod_to_equations; lia.
Qed.

(** X11: [formatQuarter] at the number of quarters from the first
    quarter of 1970 to the quarter [q] of the year [y] returns the year,
    the letter Q and the number of the quarter. *)
Theorem formatQuarter_ordinal (y q : Z) :
  1 <= q <= 4 -> Z.abs y <= 200000 ->
  formatQuarter (4 * (y - 1970) + (q - 1)) = zeroFill y 4 ++ "Q" ++ JsString.ofZ q.
Proof.
  intros Hq Hy.
  assert (Hm : 1 <= 3 * q - 2 <= 12) by lia.
  destruct (addMonths_epoch y (3 * q - 2) Hm Hy) as [Hadd Hcivil].
  unfold formatQuarter, addQuarters.
  replace (3 * (4 * (y - 1970) + (q - 1)))
    with (12 * (y - 1970) + (3 * q - 2 - 1)) by lia.
  rewrite Hadd. unfold endOfQuarter. rewrite Hcivil.
  assert (Hnext : 3 * q - 2 - 1 - (3 * q - 2 - 1) mod 3 + 3 = 3 * q)
    by (Z.div_mod_to_equations; lia).
  rewrite Hnext.
  assert (Hend : 3 * q = 3 \/ 3 * q = 6 \/ 3 * q = 9 \/ 3 * q = 12) by lia.
  pose proof (daysInMonth_bounds y (3 * q)) as Hlen.
  replace (days_from_civil (y + 3 * q / 12) (3 * q mod 12 + 1) 1 * MS_PER_DAY - 1)
    with ((days_from_civil (y + 3 * q / 12) (3 * q mod 12 + 1) 1 - 1) * MS_PER_DAY
          + (MS_PER_DAY - 1)) by lia.
  rewrite (quarter_last_day y (3 * q) Hend).
  rewrite timeClip_split;
    [| apply days_from_civil_bound; lia | unfold MS_PER_DAY; lia].
  cbn [formatWith]. unfold YYYY, Q, year, month.
  rewrite dayOf_split by (unfold MS_PER_DAY; lia).
  rewrite civil_round_trip by lia.
  do 3 f_equal. Z.div_mod_to_equations. lia.
Qed.

(** The last quarter of 1969 and the third quarter of 2024. *)
Lemma formatQuarter_ordinal_witness :
  formatQuarter (-1) = "1969Q4" /\ formatQuarter 218 = "2024Q3".
Proof.
  split.
  - exact (formatQuarter_ordinal 1969 4 ltac:(lia) ltac:(cbn; lia)).
  - exact (formatQuarter_ordinal 2024 3 ltac:(lia) ltac:(cbn; lia)).
Defined.

(** ** The supported frequency codes *)

Lemma safeIntegerOf_bigint (z : Z) :
  Z.abs z <= JsNumber.MAX_SAFE_INTEGER -> safeIntegerOf (NumBigInt z) = Some z.
Proof.
  intros Hz. unfold safeIntegerOf. cbn [Number_].
  rewrite toInteger_ofZ_small by (unfold JsNumber.MAX_SAFE_INTEGER in Hz; lia).
  destruct (Z.leb_spec (Z.abs z) JsNumber.MAX_SAFE_INTEGER); [reflexivity | lia].
Qed.

Lemma safeIntegerOf_safe (duration : Numeric) (n : Z) :
  safeIntegerOf duration = Some n ->
  JsNumber.isSafeInteger (Number_ duration) = true
  /\ integerOf (Number_ duration) = n.
Proof.
  unfold safeIntegerOf, JsNumber.isSafeInteger, integerOf.
  destruct (JsNumber.toInteger (Number_ duration)) as [k |]; [| discriminate].
  destruct (Z.abs k <=? JsNumber.MAX_SAFE_INTEGER); [| discriminate].
  intros [= ->]. split; reflexivity.
Qed.

(** The entries of the table that take the duration alone: the index
    expression finds each under its name, with or without a parameter
    after the name. *)
Lemma unary_entries {E : Externals} (name : string) (f : Z -> string) :
  In (name, unary f) PERIOD_TYPE_FORMATTERS ->
  lookupFormatter name = Some (Own (unary f))
  /\ freqNameOf name = name
  /\ forall param, freqNameOf (name ++ "-" ++ param) = name.
Proof.
  unfold PERIOD_TYPE_FORMATTERS. cbn [In].
  intros H.
  repeat (destruct H as [H | H]; [injection H as <- Hf |]);
    try contradiction;
    try (split; [| split; [| intros param]];
         [ unfold lookupFormatter, PERIOD_TYPE_FORMATTERS;
           cbn [ownFormatter String.eqb Ascii.eqb Bool.eqb andb];
           rewrite Hf; reflexivity
         | reflexivity
         | unfold freqNameOf;
           cbn [append split Ascii.eqb Bool.eqb andb nth]; reflexivity ]).
Qed.

Lemma formatPeriodFromFreq_unary {E : Externals}
  (f : Z -> string) (duration : Numeric) (n : Z) (freq : string) :
  lookupFormatter (freqNameOf freq) = Some (Own (unary f)) ->
  safeIntegerOf duration = Some n ->
  formatPeriodFromFreq duration freq = ([], Returns (f n)).
Proof.
  intros Hlookup Hsafe. destruct (safeIntegerOf_safe _ _ Hsafe) as [His Hint].
  unfold formatPeriodFromFreq. fold (freqNameOf freq).
  rewrite Hlookup, His, Hint. reflexivity.
Qed.

(** X12: for each entry of PERIOD_TYPE_FORMATTERS that takes the
    duration alone (every code but "W"), with its formatter [f], and every
    duration whose number is a safe integer [n], [formatPeriodFromFreq]
    returns [f(n)] and logs nothing, for the bare code and for the code
    followed by "-" and any parameter: the parameter is not looked at.  A
    bigint between the safe bounds is such a duration, and [n] is the
    bigint itself. *)
Theorem formatPeriodFromFreq_supported {E : Externals}
  (name : string) (f : Z -> string) (duration : Numeric) (n : Z) :
  In (name, unary f) PERIOD_TYPE_FORMATTERS ->
  safeIntegerOf duration = Some n ->
  formatPeriodFromFreq duration name = ([], Returns (f n))
  /\ (forall param,
         formatPeriodFromFreq duration (name ++ "-" ++ param) = ([], Returns (f n)))
  /\ (forall z, Z.abs z <= JsNumber.MAX_SAFE_INTEGER ->
                safeIntegerOf (NumBigInt z) = Some z).
Proof.
  intros Hentry Hsafe.
  destruct (unary_entries name f Hentry) as (Hlookup & Hname & Hparam).
  split; [| split; [intros param | exact safeIntegerOf_bigint]];
    apply formatPeriodFromFreq_unary; try exact Hsafe.
  - rewrite Hname. exact Hlookup.
  - rewrite Hparam. exact Hlookup.
Qed.

(** The annual code of pandas with its closing month, and the old and
    the new name of the hourly code. *)
Lemma formatPeriodFromFreq_supported_witness :
  formatPeriodFromFreq (E := sampleExternals) (NumBigInt 54) "A-DEC"
  = ([], Returns "2024")
  /\ formatPeriodFromFreq (E := sampleExternals) (NumNumber 3) "H"
     = ([], Returns "1970-01-01 03:00")
  /\ formatPeriodFromFreq (E := sampleExternals) (NumNumber 3) "h"
     = ([], Returns "1970-01-01 03:00").
Proof.
  split; [| split].
  - exact (proj1 (proj2 (formatPeriodFromFreq_supported (E := sampleExternals)
                           "A" formatYear (NumBigInt 54) 54
                           ltac:(cbn; tauto) eq_refl)) "DEC").
  - exact (proj1 (formatPeriodFromFreq_supported (E := sampleExternals)
                    "H" (formatHours (E := sampleExternals)) (NumNumber 3) 3
                    ltac:(cbn; tauto) eq_refl)).
  - exact (proj1 (formatPeriodFromFreq_supported (E := sampleExternals)
                    "h" (formatHours (E := sampleExternals)) (NumNumber 3) 3
                    ltac:(cbn; tauto) eq_refl)).
Defined.

(** ** The extension metadata as pandas writes it

    The metadata of a period and of an interval column is the JSON text
    of an object with string members, a blank after each colon and each
    comma.  [JSON.parse] reads it back for every string that needs no
    escape. *)

Lemma stringBody_plain (s rest : string) :
  isPlainText s = true ->
  JSON.stringBody (s ++ String JSON.quoteChar rest) = Some (s, rest).
Proof.
  induction s as [| c s IH]; intros Hplain.
  - reflexivity.
  - cbn [isPlainText] in Hplain. apply andb_true_iff in Hplain as [Hc Hs].
    unfold isPlainChar in Hc.
    apply andb_true_iff in Hc as [Hc H92]. apply andb_true_iff in Hc as [H32 H34].
    apply negb_true_iff in H92, H34.
    cbn [append JSON.stringBody]. rewrite H34, H92.
    replace (Nat.ltb (nat_of_ascii c) 32) with false
      by (symmetry; apply Nat.ltb_ge; apply Nat.leb_le; exact H32).
    rewrite (IH Hs). reflexivity.
Qed.

Lemma skipWhitespace_quote (r : string) :
  JSON.skipWhitespace (String JSON.quoteChar r) = String JSON.quoteChar r.
Proof. reflexivity. Qed.

Lemma value_string (fuel : nat) (r body tail : string) :
  JSON.stringBody r = Some (body, tail) ->
  JSON.value (S fuel) (String JSON.quoteChar r) = Some (VString body, tail).
Proof.
  intros H. cbn [JSON.value]. rewrite skipWhitespace_quote.
  change JSON.quoteChar with (Ascii false true false false false true false false).
  cbv iota. fold JSON.quoteChar.
  rewrite Ascii.eqb_refl, H. reflexivity.
Qed.

Lemma value_blank (fuel : nat) (r : string) :
  JSON.value fuel (String " " r) = JSON.value fuel r.
Proof. destruct fuel; reflexivity. Qed.

Lemma value_object (fuel : nat) (r : string) :
  JSON.value (S fuel) (String "{" (String JSON.quoteChar r))
  = JSON.members fuel (String JSON.quoteChar r) [].
Proof. reflexivity. Qed.

Lemma members_blank (fuel : nat) (r : string) (acc : list (string * JsValue)) :
  JSON.members fuel (String " " r) acc = JSON.members fuel r acc.
Proof. destruct fuel; reflexivity. Qed.

(** A member that a comma follows, and the last member of an object. *)
Lemma members_next (fuel : nat) (r key r1 r2 r3 r4 : string) (v : JsValue)
  (acc : list (string * JsValue)) :
  JSON.stringBody r = Some (key, r1) ->
  JSON.skipWhitespace r1 = String ":" r2 ->
  JSON.value fuel r2 = Some (v, r3) ->
  JSON.skipWhitespace r3 = String "," r4 ->
  JSON.members (S fuel) (String JSON.quoteChar r) acc
  = JSON.members fuel r4 (setProp key v acc).
Proof.
  intros Hkey Hcolon Hvalue Hcomma. cbn [JSON.members].
  rewrite skipWhitespace_quote, Ascii.eqb_refl, Hkey, Hcolon, Hvalue, Hcomma.
  reflexivity.
Qed.

Lemma members_last (fuel : nat) (r key r1 r2 r3 r4 : string) (v : JsValue)
  (acc : list (string * JsValue)) :
  JSON.stringBody r = Some (key, r1) ->
  JSON.skipWhitespace r1 = String ":" r2 ->
  JSON.value fuel r2 = Some (v, r3) ->
  JSON.skipWhitespace r3 = String "}" r4 ->
  JSON.members (S fuel) (String JSON.quoteChar r) acc
  = Some (VObject (setProp key v acc), r4).
Proof.
  intros Hkey Hcolon Hvalue Hbrace. cbn [JSON.members].
  rewrite skipWhitespace_quote, Ascii.eqb_refl, Hkey, Hcolon, Hvalue, Hbrace.
  reflexivity.
Qed.

Lemma parse_freqMetadata (freq : string) :
  isPlainText freq = true ->
  JSON.parse (freqMetadata freq) = Returns (VObject [("freq", VString freq)]).
Proof.
  intros Hplain. unfold JSON.parse.
  assert (Hfuel : exists k,
             (2 * String.length (freqMetadata freq) + 2)%nat = S (S (S k))).
  { unfold freqMetadata, dq. cbn [append String.length]. eexists. cbn. reflexivity. }
  destruct Hfuel as [k ->].
  assert (Hvalue : JSON.value (S (S (S k))) (freqMetadata freq)
                   = Some (VObject [("freq", VString freq)], EmptyString)).
  { unfold freqMetadata, dq. cbn [append]. fold JSON.quoteChar.
    rewrite value_object.
    rewrite (members_last _ _ "freq"
               (String ":" (String " " (String JSON.quoteChar
                  (freq ++ String JSON.quoteChar "}"))))
               (String " " (String JSON.quoteChar (freq ++ String JSON.quoteChar "}")))
               "}" EmptyString (VString freq) []).
    - reflexivity.
    - reflexivity.
    - reflexivity.
    - rewrite value_blank. apply value_string. apply stringBody_plain. exact Hplain.
    - reflexivity. }
  rewrite Hvalue. reflexivity.
Qed.

Lemma parse_intervalMetadata (subtype closed : string) :
  isPlainText subtype = true -> isPlainText closed = true ->
  JSON.parse (intervalMetadata subtype closed)
  = Returns (VObject [("subtype", VString subtype); ("closed", VString closed)]).
Proof.
  intros Hsubtype Hclosed. unfold JSON.parse.
  assert (Hfuel : exists k,
             (2 * String.length (intervalMetadata subtype closed) + 2)%nat
             = S (S (S (S k)))).
  { unfold intervalMetadata, dq. cbn [append String.length]. eexists. cbn. reflexivity. }
  destruct Hfuel as [k ->].
  assert (Hvalue : JSON.value (S (S (S (S k)))) (intervalMetadata subtype closed)
                   = Some (VObject [("subtype", VString subtype);
                                    ("closed", VString closed)], EmptyString)).
  { unfold intervalMetadata, dq. cbn [append]. fold JSON.quoteChar.
    rewrite value_object.
    set (tail2 := closed ++ String JSON.quoteChar "}").
    set (rest2 := String " " (String JSON.quoteChar
                    (String "c" (String "l" (String "o" (String "s" (String "e"
                       (String "d" (String JSON.quoteChar (String ":" (String " "
                          (String JSON.quoteChar tail2)))))))))))).
    set (tail1 := subtype ++ String JSON.quoteChar (String "," rest2)).
    rewrite (members_next _ _ "subtype"
               (String ":" (String " " (String JSON.quoteChar tail1)))
               (String " " (String JSON.quoteChar tail1))
               (String "," rest2) rest2 (VString subtype) []).
    - unfold rest2. rewrite members_blank.
      rewrite (members_last _ _ "closed"
                 (String ":" (String " " (String JSON.quoteChar tail2)))
                 (String " " (String JSON.quoteChar tail2))
                 "}" EmptyString (VString closed)).
      + reflexivity.
      + reflexivity.
      + reflexivity.
      + rewrite value_blank. apply value_string. apply stringBody_plain.
        exact Hclosed.
      + reflexivity.
    - reflexivity.
    - reflexivity.
    - rewrite value_blank. apply value_string. apply stringBody_plain.
      exact Hsubtype.
    - reflexivity. }
  rewrite Hvalue. reflexivity.
Qed.

(** ** The period rule *)

(** With the pandas.period extension and metadata that parses,
    [formatPeriod] goes on with the frequency the metadata names, and
    raises a [TypeError] when it names none. *)
Lemma formatPeriod_metadata {E : Externals}
  (duration : Numeric) (f : Field) (text : string) (parsed : JsValue) :
  get "ARROW:extension:name" (metadata f) = Some "pandas.period" ->
  get "ARROW:extension:metadata" (metadata f) = Some text ->
  JSON.parse text = Returns parsed ->
  formatPeriod duration (Some f)
  = match freqOf parsed with
    | Some freq => formatPeriodFromFreq duration freq
    | None => ([], Throws TypeError)
    end.
Proof.
  intros Hname Hmd Hparse. unfold formatPeriod. rewrite Hname, Hmd.
  cbn [String.eqb Ascii.eqb Bool.eqb negb]. rewrite Hparse, lift_returns, bind_ret_l.
  unfold freqOf.
  destruct parsed; cbn [destructure]; try reflexivity.
  rewrite lift_returns, bind_ret_l.
  destruct (getProp "freq" props); reflexivity.
Qed.

(** X14: when the field carries the pandas.period extension and its
    metadata is JSON that names no frequency (the text of anything but an
    object, or of an object whose member [freq] is missing or is no
    string), [formatPeriod] logs nothing and raises a [TypeError]: no
    fallback text is returned. *)
Theorem formatPeriod_without_frequency {E : Externals}
  (duration : Numeric) (f : Field) (text : string) (parsed : JsValue) :
  get "ARROW:extension:name" (metadata f) = Some "pandas.period" ->
  get "ARROW:extension:metadata" (metadata f) = Some text ->
  JSON.parse text = Returns parsed ->
  freqOf parsed = None ->
  formatPeriod duration (Some f) = ([], Throws TypeError).
Proof.
  intros Hname Hmd Hparse Hfreq.
  rewrite (formatPeriod_metadata duration f text parsed Hname Hmd Hparse), Hfreq.
  reflexivity.
Qed.

(** An empty object, the text [null], and a frequency that is a
    number. *)
Lemma formatPeriod_without_frequency_witness :
  formatPeriod (E := sampleExternals) (NumBigInt 0) (Some (periodField "{}"))
  = ([], Throws TypeError)
  /\ formatPeriod (E := sampleExternals) (NumBigInt 0) (Some (periodField "null"))
     = ([], Throws TypeError)
  /\ formatPeriod (E := sampleExternals) (NumBigInt 0)
                  (Some (periodField ("{" ++ dq ++ "freq" ++ dq ++ ": 5}")))
     = ([], Throws TypeError).
Proof.
  split; [| split].
  - exact (formatPeriod_without_frequency (NumBigInt 0) (periodField "{}") "{}"
             (VObject []) eq_refl eq_refl eq_refl eq_refl).
  - exact (formatPeriod_without_frequency (NumBigInt 0) (periodField "null") "null"
             VNull eq_refl eq_refl eq_refl eq_refl).
  - exact (formatPeriod_without_frequency (NumBigInt 0)
             (periodField ("{" ++ dq ++ "freq" ++ dq ++ ": 5}"))
             ("{" ++ dq ++ "freq" ++ dq ++ ": 5}")
             (VObject [("freq", VNumber 5)]) eq_refl eq_refl eq_refl eq_refl).
Defined.

Section PeriodRule.

Context {E : Externals}.

(** The dispatcher takes a number or a bigint to the period rule when
    no rule for dates or times comes first. *)
Lemma format_period (x : JsValue) (duration : Numeric)
  (type : option Type_) (field : option Field) :
  let typeName := option_map getTypeName type in
  asNumeric x = Some duration ->
  typeStartsWith typeName "period" || typeIs (extensionNameOf field) "pandas.period"
  = true ->
  isDateLike x && (typeIs typeName "date" || typeStartsWith typeName "datetime"
                   || fieldTypeIs field Timestamp) = false ->
  isBigIntValue x && typeIs typeName "time" = false ->
  format x type field = formatPeriod duration field.
Proof.
  intros typeName Hnum Hrule Hdate Htime.
  destruct x; try discriminate Hnum;
    cbn [format isNullOrUndefined isDateLike isBigIntValue option_map andb
         asNumeric asBigInt] in *;
    fold typeName; injection Hnum as <-.
  - destruct (JsNumber.isFinite x); cbn [andb] in *.
    + apply orb_false_iff in Hdate as [Hdate Hstamp].
      apply orb_false_iff in Hdate as [Hd Hdt].
      rewrite Hd, Hdt, Hstamp, Hrule. reflexivity.
    + rewrite Hrule. reflexivity.
  - rewrite Htime, Hrule. reflexivity.
Qed.

(** X13: a cell that is a number or a bigint, in a field that carries
    the pandas.period extension with the metadata text pandas writes for
    a frequency [freq] (any string that needs no escape), is formatted by
    [formatPeriodFromFreq] with that frequency, whatever the type
    descriptor, unless a rule for dates or times comes first (a finite
    number under the type names "date" and "datetime..." or in Timestamp
    storage, a bigint under the type name "time").  When [freq] is a code
    of the table other than "W", with or without a parameter, and the
    number of the cell is a safe integer [n], the result is the text of
    the table's formatter at [n], and nothing is logged. *)
Theorem format_period_cell
  (x : JsValue) (duration : Numeric) (type : option Type_) (field : Field)
  (freq : string) :
  let typeName := option_map getTypeName type in
  asNumeric x = Some duration ->
  get "ARROW:extension:name" (metadata field) = Some "pandas.period" ->
  get "ARROW:extension:metadata" (metadata field) = Some (freqMetadata freq) ->
  isPlainText freq = true ->
  isDateLike x && (typeIs typeName "date" || typeStartsWith typeName "datetime"
                   || fieldTypeIs (Some field) Timestamp) = false ->
  isBigIntValue x && typeIs typeName "time" = false ->
  format x type (Some field) = formatPeriodFromFreq duration freq
  /\ (forall name f n param,
         In (name, unary f) PERIOD_TYPE_FORMATTERS ->
         safeIntegerOf duration = Some n ->
         freq = name \/ freq = name ++ "-" ++ param ->
         format x type (Some field) = ([], Returns (f n))).
Proof.
  intros typeName Hnum Hname Hmd Hplain Hdate Htime.
  assert (Hformat : format x type (Some field) = formatPeriodFromFreq duration freq).
  { rewrite (format_period x duration type (Some field) Hnum); try assumption.
    - rewrite (formatPeriod_metadata duration field (freqMetadata freq)
                 (VObject [("freq", VString freq)]) Hname Hmd
                 (parse_freqMetadata freq Hplain)).
      reflexivity.
    - unfold extensionNameOf. rewrite Hname. apply orb_true_r. }
  split; [exact Hformat |].
  intros name f n param Hentry Hsafe Hfreq. rewrite Hformat.
  destruct (unary_entries name f Hentry) as (Hlookup & Hbare & Hparam).
  apply formatPeriodFromFreq_unary; [| exact Hsafe].
  destruct Hfreq as [-> | ->]; [rewrite Hbare | rewrite Hparam]; exact Hlookup.
Qed.

End PeriodRule.

(** A monthly period cell, and a quarterly one whose year ends in
    December, under the sample runtime. *)
Lemma format_period_cell_witness :
  format (E := sampleExternals) (VBigInt 649) (Some (typeNamed "period[M]"))
         (Some (periodField (freqMetadata "M")))
  = ([], Returns "2024-02")
  /\ format (E := sampleExternals) (VBigInt 218) None
            (Some (periodField (freqMetadata "Q-DEC")))
     = ([], Returns "2024Q3").
Proof.
  split.
  - exact (proj2 (format_period_cell (E := sampleExternals) (VBigInt 649) (NumBigInt 649)
                    (Some (typeNamed "period[M]")) (periodField (freqMetadata "M")) "M"
                    eq_refl eq_refl eq_refl eq_refl eq_refl eq_refl)
                 "M" formatMonth 649 "" ltac:(cbn; tauto) eq_refl (or_introl eq_refl)).
  - exact (proj2 (format_period_cell (E := sampleExternals) (VBigInt 218) (NumBigInt 218)
                    None (periodField (freqMetadata "Q-DEC")) "Q-DEC"
                    eq_refl eq_refl eq_refl eq_refl eq_refl eq_refl)
                 "Q" formatQuarter 218 "DEC" ltac:(cbn; tauto) eq_refl
                 (or_intror eq_refl)).
Defined.

(** ** Intervals without their extension, and as pandas tags them *)

Section IntervalEdges.

Context {E : Externals}.

Lemma formatInterval_fallback (x : JsValue) (field : option Field) :
  typeIs (extensionNameOf field) "pandas.interval" = false ->
  formatInterval x field = ([], Returns (toString x)).
Proof.
  unfold formatInterval, formatIntervalWith, typeIs.
  destruct field as [f |]; [| reflexivity].
  destruct (extensionNameOf (Some f)) as [name |]; [| reflexivity].
  intros Hname.
  repeat (destruct name as [| [[] [] [] [] [] [] [] []] name];
          try reflexivity; try discriminate Hname).
Qed.

(** X15: [formatInterval] returns the raw stringification of the cell,
    logging nothing, when the field is missing or its extension name is
    missing or is not "pandas.interval"; when the extension name is
    "pandas.interval" and the field has no extension metadata, it raises
    the [SyntaxError] of [JSON.parse], which is handed [undefined]. *)
Theorem formatInterval_without_extension :
  (forall x field,
      typeIs (extensionNameOf field) "pandas.interval" = false ->
      formatInterval x field = ([], Returns (toString x)))
  /\ (forall x f,
         get "ARROW:extension:name" (metadata f) = Some "pandas.interval" ->
         get "ARROW:extension:metadata" (metadata f) = None ->
         formatInterval x (Some f) = ([], Throws SyntaxError)).
Proof.
  split.
  - exact formatInterval_fallback.
  - intros x f Hname Hmd.
    unfold formatInterval, formatIntervalWith, extensionNameOf.
    rewrite Hname, Hmd. reflexivity.
Qed.

(** X16: for a struct row in a field tagged pandas.interval whose
    metadata is the text pandas writes for [subtype] and [closed] (any
    strings that need no escape), [formatInterval] returns the two
    bounds, each formatted by the dispatcher under [subtype], between the
    brackets of [closed]: square on a side that [closed] names ("left",
    "right", or "both" for the two), round on any other.  A row without
    bounds comes out as two not-available markers. *)
Theorem formatInterval_canonical
  (interval : list (string * JsValue)) (fieldType : ArrowType)
  (md : list (string * string)) (subtype closed : string) :
  get "ARROW:extension:name" md = Some "pandas.interval" ->
  get "ARROW:extension:metadata" md = Some (intervalMetadata subtype closed) ->
  isPlainText subtype = true -> isPlainText closed = true ->
  let field := mkField fieldType md in
  let boundType := Some (typeNamed subtype) in
  formatInterval (VStructRow interval) (Some field)
  = (leftInterval <- format (getProp "left" interval) boundType (child field 0) ;;
     rightInterval <- format (getProp "right" interval) boundType (child field 1) ;;
     ret (leftBracketOf closed ++ leftInterval ++ ", "
          ++ rightInterval ++ rightBracketOf closed))
  /\ formatInterval (VStructRow []) (Some field)
     = ([], Returns (leftBracketOf closed ++ "<NA>, <NA>" ++ rightBracketOf closed)).
Proof.
  intros Hname Hmd Hsubtype Hclosed field boundType.
  pose proof (parse_intervalMetadata subtype closed Hsubtype Hclosed) as Hparse.
  split.
  - exact (formatInterval_parsed interval fieldType md
             (intervalMetadata subtype closed) subtype closed
             [("subtype", VString subtype); ("closed", VString closed)]
             Hname Hmd Hparse eq_refl eq_refl).
  - rewrite (formatInterval_parsed [] fieldType md
               (intervalMetadata subtype closed) subtype closed
               [("subtype", VString subtype); ("closed", VString closed)]
               Hname Hmd Hparse eq_refl eq_refl).
    cbn [getProp]. rewrite !format_undefined, !bind_ret_l. reflexivity.
Qed.

End IntervalEdges.

(** A number in a field with no extension, and an interval field whose
    metadata is missing, under the sample runtime. *)
Lemma formatInterval_without_extension_witness :
  formatInterval (E := sampleExternals) (VNumber 7) (Some plainField)
  = ([], Returns "7")
  /\ formatInterval (E := sampleExternals) (VStructRow [])
       (Some (mkField (mkArrowType Struct None None None [])
                      [("ARROW:extension:name", "pandas.interval")]))
     = ([], Throws SyntaxError).
Proof.
  destruct (formatInterval_without_extension (E := sampleExternals))
    as [Hfallback Hmissing].
  split.
  - exact (Hfallback (VNumber 7) (Some plainField) eq_refl).
  - exact (Hmissing (VStructRow [])
             (mkField (mkArrowType Struct None None None [])
                      [("ARROW:extension:name", "pandas.interval")])
             eq_refl eq_refl).
Defined.

(** An interval open on both sides whose right bound is missing. *)
Lemma formatInterval_canonical_witness :
  formatInterval (E := sampleExternals) (VStructRow [("left", VBigInt 3)])
    (Some (intervalField "int64" "neither"))
  = ([], Returns "(3, <NA>)").
Proof.
  exact (proj1 (formatInterval_canonical (E := sampleExternals)
                  [("left", VBigInt 3)]
                  (mkArrowType Struct None None None [plainField; plainField])
                  [("ARROW:extension:name", "pandas.interval");
                   ("ARROW:extension:metadata", intervalMetadata "int64" "neither")]
                  "int64" "neither" eq_refl eq_refl eq_refl eq_refl)).
Defined.

(** ** Dates and datetimes *)

(** Below 2^53 the number of a bigint is finite and truncates to it. *)
Lemma truncate_ofZ_small (z : Z) :
  Z.abs z < 2 ^ 53 ->
  JsNumber.isFinite (JsNumber.ofZ z) = true
  /\ JsNumber.truncate (JsNumber.ofZ z) = Some z.
Proof.
  intros Hz. unfold JsNumber.isFinite, JsNumber.truncate, JsNumber.ofZ.
  rewrite Prim2SF_SF2Prim by apply binary_normalize_valid.
  assert (Hround : forall s p, Z.pos p < 2 ^ 53 ->
            exists m e, binary_round 53 1024 s p 0 = S754_finite s m e
                        /\ (if 0 <=? e then Z.pos m * 2 ^ e else Z.pos m / 2 ^ (- e))
                           = Z.pos p).
  { intros s p Hp.
    destruct (binary_round_small s p Hp) as (m & e & Heq & He & Hm & _).
    exists m, e. split; [exact Heq |].
    destruct (Z.leb_spec 0 e) as [H0 | H0].
    - replace e with 0 in * by lia. cbn in Hm. lia.
    - rewrite Hm, Z.div_mul by (apply Z.pow_nonzero; lia). reflexivity. }
  destruct z as [| p | p]; cbn [binary_normalize].
  - split; reflexivity.
  - destruct (Hround false p Hz) as (m & e & -> & Hval). rewrite Hval.
    split; reflexivity.
  - destruct (Hround true p Hz) as (m & e & -> & Hval). rewrite Hval.
    split; reflexivity.
Qed.

(** The moment of a number of milliseconds within the range of dates. *)
Lemma ofNumber_ofZ (t : Z) :
  Z.abs t <= MAX_TIME -> ofNumber (JsNumber.ofZ t) = Some t.
Proof.
  intros Ht. unfold ofNumber.
  rewrite (proj2 (truncate_ofZ_small t ltac:(unfold MAX_TIME in Ht; lia))).
  unfold timeClip. destruct (Z.leb_spec (Z.abs t) MAX_TIME); [reflexivity | lia].
Qed.

(** A Date and a number of milliseconds at the same instant are the
    same moment. *)
Lemma timeValueOf_instant (day r : Z) :
  Z.abs day <= 99999000 -> 0 <= r < MS_PER_DAY ->
  let t := day * MS_PER_DAY + r in
  timeValueOf (VNumber (JsNumber.ofZ t)) = Some t
  /\ isDateLike (VNumber (JsNumber.ofZ t)) = true.
Proof.
  intros Hday Hr t.
  assert (Hrange : Z.abs t <= MAX_TIME)
    by (unfold t, MAX_TIME, MS_PER_DAY in *; lia).
  split.
  - apply ofNumber_ofZ. exact Hrange.
  - apply truncate_ofZ_small. unfold MAX_TIME in Hrange. lia.
Qed.

Section DateRules.

Context {E : Externals}.

Lemma format_date (x : JsValue) (type : Type_) (field : option Field) :
  getTypeName type = "date" ->
  isDateLike x = true ->
  format x (Some type) field = ([], Returns (formatWith isoDate (timeValueOf x))).
Proof.
  intros Hname Hdate.
  destruct x; try discriminate Hdate;
    cbn [format isNullOrUndefined isDateLike option_map] in *;
    rewrite Hname, ?Hdate; evalTypeTests; cbn [andb];
    unfold formatDate; rewrite ?Hdate; reflexivity.
Qed.

(** X17: under the type name "date", a Date and a finite number are
    formatted as the day, YYYY-MM-DD in UTC, of the moment they stand for,
    a number being taken as milliseconds since the epoch whatever the
    unit of the field; nothing is logged, so the warning of [formatDate]
    is never reached from the dispatcher.  A Date or a number at any
    millisecond [r] of the date [y-m-d] gives that date: the time of the
    day is dropped.  An invalid Date gives "Invalid date". *)
Theorem format_date_rule (type : Type_) (field : option Field) :
  getTypeName type = "date" ->
  (forall x, isDateLike x = true ->
             format x (Some type) field
             = ([], Returns (formatWith isoDate (timeValueOf x))))
  /\ (forall y m d r,
         validDate y m d = true -> Z.abs y <= 200000 -> 0 <= r < 86400000 ->
         let t := days_from_civil y m d * 86400000 + r in
         format (VDate (Some t)) (Some type) field = ([], Returns (isoText y m d))
         /\ format (VNumber (JsNumber.ofZ t)) (Some type) field
            = ([], Returns (isoText y m d)))
  /\ format (VDate None) (Some type) field = ([], Returns "Invalid date").
Proof.
  intros Hname. split; [| split].
  - intros x Hdate. apply format_date; assumption.
  - intros y m d r Hvalid Hy Hr t.
    pose proof (validDate_in_range y m d Hvalid Hy) as Hday.
    change 86400000 with MS_PER_DAY in *.
    destruct (timeValueOf_instant _ r Hday Hr) as [Hvalue Hlike].
    fold t in Hvalue, Hlike.
    rewrite !format_date by (assumption || reflexivity).
    rewrite Hvalue. cbn [timeValueOf formatWith]. unfold t.
    rewrite isoDate_split by exact Hr.
    rewrite isoOfDay_civil by exact Hvalid. split; reflexivity.
  - rewrite format_date by (assumption || reflexivity). reflexivity.
Qed.

Lemma format_datetime (x : JsValue) (type : option Type_) (field : option Field) :
  let typeName := option_map getTypeName type in
  isDateLike x = true ->
  typeIs typeName "date" = false ->
  typeStartsWith typeName "datetime" || fieldTypeIs field Timestamp = true ->
  format x type field
  = match timezoneOf field with
    | Some (String c z) => ([], Returns (zonedFormat (timeValueOf x) (String c z)))
    | Some EmptyString | None =>
        ([], Returns (formatWith (fun t => isoDate t ++ " " ++ clock t)
                                 (timeValueOf x)))
    end.
Proof.
  intros typeName Hdate Hnot Hrule.
  destruct x; try discriminate Hdate;
    cbn [format isNullOrUndefined isDateLike isBigIntValue option_map andb] in *;
    fold typeName; rewrite ?Hdate, Hnot, Hrule; cbn [andb];
    unfold formatDatetime, momentUtc; rewrite lift_returns, bind_ret_l;
    destruct (timezoneOf field) as [[| c z] |]; reflexivity.
Qed.

(** X18: a Date or a finite number whose type name starts with
    "datetime", or whose field has Timestamp storage, and whose type name
    is not "date", is formatted as a datetime.  A number is taken as
    milliseconds since the epoch, whatever the unit of the field.  When
    the field has no timezone, or an empty one, the result is
    "YYYY-MM-DD HH:mm:ss" in UTC: at the time [h:mi:s.ms] of the date
    [y-m-d] it is that date and that time, the milliseconds dropped.  With
    a timezone the moment is handed to the zone formatting of moment. *)
Theorem format_datetime_rule
  (x : JsValue) (type : option Type_) (field : option Field) :
  let typeName := option_map getTypeName type in
  isDateLike x = true ->
  typeIs typeName "date" = false ->
  typeStartsWith typeName "datetime" || fieldTypeIs field Timestamp = true ->
  (forall zone, timezoneOf field = Some zone -> zone <> EmptyString ->
                format x type field
                = ([], Returns (zonedFormat (timeValueOf x) zone)))
  /\ (timezoneOf field = None \/ timezoneOf field = Some EmptyString ->
      format x type field
      = ([], Returns (formatWith (fun t => isoDate t ++ " " ++ clock t)
                                 (timeValueOf x)))
      /\ forall y m d h mi s ms,
          validDate y m d = true -> Z.abs y <= 200000 ->
          validClock h mi s = true -> 0 <= ms < 1000 ->
          timeValueOf x = Some (days_from_civil y m d * 86400000
                                + 3600000 * h + 60000 * mi + 1000 * s + ms) ->
          format x type field
          = ([], Returns (isoText y m d ++ " " ++ clockText h mi s))).
Proof.
  intros typeName Hdate Hnot Hrule.
  pose proof (format_datetime x type field Hdate Hnot Hrule) as Hformat.
  split.
  - intros zone Hzone Hne. rewrite Hformat, Hzone.
    destruct zone; [contradiction | reflexivity].
  - intros Hzone.
    assert (Hplain : format x type field
                     = ([], Returns (formatWith (fun t => isoDate t ++ " " ++ clock t)
                                                (timeValueOf x)))).
    { rewrite Hformat. destruct Hzone as [-> | ->]; reflexivity. }
    split; [exact Hplain |].
    intros y m d h mi s ms Hvalid Hy Hclock Hms Hvalue.
    apply validClock_spec in Hclock as (Hh & Hmi & Hs).
    pose proof (validDate_in_range y m d Hvalid Hy) as Hday.
    rewrite Hplain, Hvalue.
    replace (days_from_civil y m d * 86400000
             + 3600000 * h + 60000 * mi + 1000 * s + ms)
      with (days_from_civil y m d * MS_PER_DAY
            + (3600000 * h + 60000 * mi + 1000 * s + ms))
      by (unfold MS_PER_DAY; lia).
    pose proof (formatWith_instant _ h mi s ms Hday Hh Hmi Hs Hms) as Htext.
    cbv zeta in Htext. rewrite timeClip_split in Htext
      by (assumption || (unfold MS_PER_DAY; lia)).
    rewrite (proj1 (proj2 Htext)).
    rewrite isoOfDay_civil by exact Hvalid. reflexivity.
Qed.

(** ** Cells that no rule takes *)

(** The dispatcher on a cell that none of its rules takes. *)
Lemma format_unmatched (x : JsValue) (type : option Type_) (field : option Field) :
  let typeName := option_map getTypeName type in
  namesNoRule typeName = true ->
  typeIs (extensionNameOf field) "pandas.period" = false ->
  isDateLike x && (typeIs typeName "date" || typeStartsWith typeName "datetime"
                   || fieldTypeIs field Timestamp) = false ->
  fieldTypeIs field Float && isFiniteNumber x = false ->
  format x type field
  = ([], Returns (if isNullOrUndefined x then "<NA>" else toString x)).
Proof.
  intros typeName Hnames Hext Hdate Hfloat. unfold namesNoRule in Hnames.
  repeat (apply andb_true_iff in Hnames as [Hnames ?]).
  repeat match goal with H : negb _ = true |- _ => apply negb_true_iff in H end.
  rewrite format_elsewhere by assumption. fold typeName.
  destruct (isNullOrUndefined x); [reflexivity |].
  repeat match goal with H : _ = false |- _ => rewrite H end.
  rewrite !andb_false_r. cbn [orb andb].
  destruct (isDateLike x); cbn [andb] in *.
  - apply orb_false_iff in Hdate as [Hdate Hstamp].
    apply orb_false_iff in Hdate as [Hd Hdt]. rewrite Hd, Hdt, Hstamp. cbn [orb].
    rewrite Hfloat. reflexivity.
  - rewrite Hfloat. reflexivity.
Qed.

Lemma datetime_names (name : string) :
  startsWith name "datetime" = true -> namesNoRule (Some name) = true.
Proof.
  unfold startsWith. intros H.
  do 2 (destruct name as [| c name]; [discriminate H |];
        cbn [String.prefix] in H;
        match type of H with
        | (if ascii_dec ?a c then _ else _) = true =>
            destruct (ascii_dec a c) as [<- | ?]; [| discriminate H]
        end).
  reflexivity.
Qed.

(** X19: a bigint is never formatted as a date.  Under the type name
    "date", under a type name that starts with "datetime", and under any
    type name that selects no rule (or none at all) in a field of any
    storage, Timestamp included, a bigint cell is rendered as its decimal
    digits, unless the field carries the pandas.period extension. *)
Theorem format_bigint_is_no_date
  (z : Z) (type : option Type_) (field : option Field) :
  let typeName := option_map getTypeName type in
  typeIs typeName "date" || typeStartsWith typeName "datetime"
  || namesNoRule typeName = true ->
  typeIs (extensionNameOf field) "pandas.period" = false ->
  format (VBigInt z) type field = ([], Returns (JsString.ofZ z)).
Proof.
  intros typeName Hnames Hext.
  assert (Hrule : namesNoRule typeName = true).
  { apply orb_true_iff in Hnames as [Hnames | Hnames]; [| exact Hnames].
    unfold typeName in *. destruct (option_map getTypeName type) as [name |];
      [| discriminate Hnames].
    apply orb_true_iff in Hnames as [Hdate | Hdatetime].
    - apply String.eqb_eq in Hdate. subst name. reflexivity.
    - apply datetime_names. exact Hdatetime. }
  rewrite format_unmatched; try assumption; try reflexivity.
  cbn [isFiniteNumber]. apply andb_false_r.
Qed.

(** X20: a cell that no rule takes is rendered by raw stringification,
    and nothing is logged: this is the case when the type name selects no
    rule (or there is no type), the field does not carry the
    pandas.period extension, the cell is not a date-like value under a
    date or datetime name or in Timestamp storage, and is not a finite
    number in Float storage.  With neither a type nor a field every cell
    is such a cell. *)
Theorem format_default_rule
  (x : JsValue) (type : option Type_) (field : option Field) :
  let typeName := option_map getTypeName type in
  namesNoRule typeName = true ->
  typeIs (extensionNameOf field) "pandas.period" = false ->
  isDateLike x && (typeIs typeName "date" || typeStartsWith typeName "datetime"
                   || fieldTypeIs field Timestamp) = false ->
  fieldTypeIs field Float && isFiniteNumber x = false ->
  format x type field
  = ([], Returns (if isNullOrUndefined x then "<NA>" else toString x))
  /\ (forall v, format v None None
                = ([], Returns (if isNullOrUndefined v then "<NA>" else toString v))).
Proof.
  intros typeName Hnames Hext Hdate Hfloat. split.
  - apply format_unmatched; assumption.
  - intros v. apply format_unmatched; try reflexivity.
    apply andb_false_r.
Qed.

End DateRules.

(** The last second of 1999 as a Date, and the leap day of 2024 as a
    number of milliseconds, under the sample runtime. *)
Lemma format_date_rule_witness :
  format (E := sampleExternals) (VDate (Some 946684799000))
         (Some (typeNamed "date")) None
  = ([], Returns "1999-12-31")
  /\ format (E := sampleExternals) (VNumber 1709164800000)
            (Some (typeNamed "date")) (Some (unitField TimeUnit.SECOND))
     = ([], Returns "2024-02-29").
Proof.
  destruct (format_date_rule (E := sampleExternals) (typeNamed "date") None eq_refl)
    as (_ & Hnone & _).
  destruct (format_date_rule (E := sampleExternals) (typeNamed "date")
              (Some (unitField TimeUnit.SECOND)) eq_refl)
    as (_ & Hunit & _).
  split.
  - exact (proj1 (Hnone 1999 12 31 86399000 eq_refl ltac:(cbn; lia) ltac:(lia))).
  - exact (proj2 (Hunit 2024 2 29 0 eq_refl ltac:(cbn; lia) ltac:(lia))).
Defined.

(** A Date in a Timestamp field with no timezone, under the sample
    runtime. *)
Lemma format_datetime_rule_witness :
  format (E := sampleExternals) (VDate (Some 1709251199999)) None
         (Some (mkField (mkArrowType Timestamp None None None []) []))
  = ([], Returns "2024-02-29 23:59:59").
Proof.
  exact (proj2 (proj2 (format_datetime_rule (E := sampleExternals)
                         (VDate (Some 1709251199999)) None
                         (Some (mkField (mkArrowType Timestamp None None None []) []))
                         eq_refl eq_refl eq_refl)
                      (or_introl eq_refl))
               2024 2 29 23 59 59 999 eq_refl ltac:(cbn; lia) eq_refl ltac:(lia)
               eq_refl).
Defined.

(** A bigint under a datetime type name in Timestamp storage, under the
    sample runtime. *)
Lemma format_bigint_is_no_date_witness :
  format (E := sampleExternals) (VBigInt 1709251199999)
         (Some (typeNamed "datetime64[ns]"))
         (Some (mkField (mkArrowType Timestamp None None None []) []))
  = ([], Returns "1709251199999").
Proof.
  exact (format_bigint_is_no_date (E := sampleExternals) 1709251199999
           (Some (typeNamed "datetime64[ns]"))
           (Some (mkField (mkArrowType Timestamp None None None []) []))
           eq_refl eq_refl).
Defined.

(** A string under the type name "unicode" and a boolean under "bool",
    under the sample runtime. *)
Lemma format_default_rule_witness :
  format (E := sampleExternals) (VString "text") (Some (typeNamed "unicode"))
         (Some plainField)
  = ([], Returns "text")
  /\ format (E := sampleExternals) (VBool true) (Some (typeNamed "bool")) None
     = ([], Returns "true").
Proof.
  split.
  - exact (proj1 (format_default_rule (E := sampleExternals) (VString "text")
                    (Some (typeNamed "unicode")) (Some plainField)
                    eq_refl eq_refl eq_refl eq_refl)).
  - exact (proj1 (format_default_rule (E := sampleExternals) (VBool true)
                    (Some (typeNamed "bool")) None eq_refl eq_refl eq_refl eq_refl)).
Defined.

(** ** The shape of a formatted time *)

(** X21: [formatTime] returns the text of an invalid moment,
    "Invalid date", or a time of the day and nothing else: HH:mm:ss with
    an hour below 24 and minutes and seconds below 60 when the time in
    seconds is a whole number, and HH:mm:ss.SSS, with the milliseconds,
    when it is not.  Whole days are dropped, and no date is shown. *)
Theorem formatTime_shape (timestamp : Numeric) (field : option Field) :
  let timeInSeconds :=
    convertTimestampToSeconds timestamp (unitOr field TimeUnit.SECOND) in
  formatTime timestamp field = "Invalid date"
  \/ exists h mi s ms,
      validClock h mi s = true /\ 0 <= ms < 1000
      /\ formatTime timestamp field
         = if JsNumber.isIntegral timeInSeconds then clockText h mi s
           else clockText h mi s ++ "." ++ zeroFill ms 3.
Proof.
  intros timeInSeconds. unfold formatTime. fold timeInSeconds.
  destruct (ofNumber (timeInSeconds * 1000)) as [t |]; [right | left; reflexivity].
  assert (Hr : 0 <= msOfDay t < 86400000)
    by (unfold msOfDay, MS_PER_DAY; apply Z.mod_pos_bound; lia).
  exists (msOfDay t / 3600000), (msOfDay t / 60000 mod 60),
         (msOfDay t / 1000 mod 60), (msOfDay t mod 1000).
  split; [| split].
  - unfold validClock.
    rewrite !andb_true_iff, !Z.leb_le, !Z.ltb_lt.
    Z.div_mod_to_equations. lia.
  - Z.div_mod_to_equations. lia.
  - cbn [formatWith]. destruct (JsNumber.isIntegral timeInSeconds); reflexivity.
Qed.

(** ** The timedelta rule *)

Lemma timedelta_names (name : string) :
  startsWith name "timedelta" = true ->
  String.eqb name "date" = false /\ String.eqb name "time" = false
  /\ startsWith name "datetime" = false /\ startsWith name "period" = false
  /\ startsWith name "interval" = false.
Proof.
  unfold startsWith. intros H.
  do 5 (destruct name as [| c name]; [discriminate H |];
        cbn [String.prefix] in H;
        match type of H with
        | (if ascii_dec ?a c then _ else _) = true =>
            destruct (ascii_dec a c) as [<- | ?]; [| discriminate H]
        end).
  repeat split; reflexivity.
Qed.

Section TimedeltaRule.

Context {E : Externals}.

(** X22: under a type name that starts with "timedelta", a number or a
    bigint cell is rendered by moment's [humanize] from its value in
    seconds, where the unit is that of the field and nanoseconds when the
    field has none, unless the field carries the pandas.period extension
    or the cell is a finite number in Timestamp storage.  For a bigint
    [b] in a field without a unit, the seconds are [Number(b) / 10^9] when
    [b] lies between the safe bounds, and the number of the bigint
    quotient of [b] by 10^9 when it does not. *)
Theorem format_timedelta_rule
  (x : JsValue) (duration : Numeric) (type : Type_) (field : option Field) :
  startsWith (getTypeName type) "timedelta" = true ->
  asNumeric x = Some duration ->
  typeIs (extensionNameOf field) "pandas.period" = false ->
  isDateLike x && fieldTypeIs field Timestamp = false ->
  format x (Some type) field
  = ([], Returns (humanize (convertTimestampToSeconds duration
                              (unitOr field TimeUnit.NANOSECOND))))
  /\ (forall b, duration = NumBigInt b ->
                unitOr field TimeUnit.NANOSECOND = TimeUnit.NANOSECOND ->
                format x (Some type) field
                = ([], Returns (humanize
                     (if Z.abs b <=? JsNumber.MAX_SAFE_INTEGER
                      then (JsNumber.ofZ b / 1000000000)%float
                      else JsNumber.ofZ (Z.quot b 1000000000))))).
Proof.
  intros Hname Hnum Hext Hstamp.
  destruct (timedelta_names _ Hname) as (Hdate & Htime & Hdatetime & Hperiod & Hinterval).
  assert (Hformat : format x (Some type) field
                    = ([], Returns (humanize (convertTimestampToSeconds duration
                                                (unitOr field TimeUnit.NANOSECOND))))).
  { rewrite format_elsewhere by assumption.
    cbn [option_map typeIs typeStartsWith].
    rewrite Hdate, Htime, Hdatetime, Hname.
    rewrite !andb_false_r. cbn [orb].
    destruct x; try discriminate Hnum; injection Hnum as <-;
      cbn [isNullOrUndefined asDuration toNumber];
      rewrite ?Hstamp; reflexivity. }
  split; [exact Hformat |].
  intros b -> Hunit. rewrite Hformat, Hunit.
  rewrite convertTimestampToSeconds_bigint, isSafeInteger_ofZ. reflexivity.
Qed.

End TimedeltaRule.

(** A minute and a half in nanoseconds, and a bigint past the safe
    bounds, under the sample runtime. *)
Lemma format_timedelta_rule_witness :
  format (E := sampleExternals) (VBigInt 90000000000)
         (Some (typeNamed "timedelta64[ns]")) None
  = ([], Returns "humanize(90)")
  /\ format (E := sampleExternals) (VBigInt (2 ^ 60 + 12345))
            (Some (typeNamed "timedelta64[ns]")) (Some plainField)
     = ([], Returns "humanize(1152921504)").
Proof.
  split.
  - exact (proj2 (format_timedelta_rule (E := sampleExternals) (VBigInt 90000000000)
                    (NumBigInt 90000000000) (typeNamed "timedelta64[ns]") None
                    eq_refl eq_refl eq_refl eq_refl)
                 90000000000 eq_refl eq_refl).
  - exact (proj2 (format_timedelta_rule (E := sampleExternals)
                    (VBigInt (2 ^ 60 + 12345)) (NumBigInt (2 ^ 60 + 12345))
                    (typeNamed "timedelta64[ns]") (Some plainField)
                    eq_refl eq_refl eq_refl eq_refl)
                 (2 ^ 60 + 12345) eq_refl eq_refl).
Defined.

(** ** Exact products and quotients of bigint numbers

    [Number(a) * Number(b)] and [Number(q * b) / Number(b)] are computed
    without rounding when the integers involved are below 2^53: the
    mantissa of the product or of the quotient ends in the bits that the
    rounding shifts out. *)

(** Halving an even mantissa loses nothing. *)
Lemma shr_1_exact (m : Z) :
  0 <= m -> m mod 2 = 0 ->
  shr_1 (Build_shr_record m false false) = Build_shr_record (m / 2) false false.
Proof.
  intros Hm Heven.
  destruct m as [| [q | q |] | q]; cbn [shr_1 orb]; try lia.
  - reflexivity.
  - exfalso. rewrite Pos2Z.inj_xI in Heven. Z.div_mod_to_equations. lia.
  - f_equal. rewrite Pos2Z.inj_xO. apply (Z.div_unique _ 2 _ 0); lia.
  - exfalso. cbn in Heven. discriminate.
Qed.

Lemma shr_1_double (c : Z) :
  0 <= c ->
  shr_1 (Build_shr_record (c * 2) false false) = Build_shr_record c false false.
Proof.
  intros Hc. rewrite shr_1_exact by (try apply Z.mod_mul; lia).
  rewrite Z.div_mul by discriminate. reflexivity.
Qed.

(** A mantissa that ends in [n] zero bits is shifted by [n] without
    loss. *)
Lemma shr_iter_exact (n : positive) (c : Z) :
  0 <= c ->
  iter_pos shr_1 n (Build_shr_record (c * 2 ^ Z.pos n) false false)
  = Build_shr_record c false false.
Proof.
  revert c. induction n as [n IH | n IH |]; intros c Hc; cbn [iter_pos].
  - assert (Hpow : 0 < 2 ^ Z.pos n) by (apply Z.pow_pos_nonneg; lia).
    replace (c * 2 ^ Z.pos n~1) with (c * 2 ^ Z.pos n * 2 ^ Z.pos n * 2).
    + rewrite shr_1_double by nia. rewrite IH by nia. apply IH. exact Hc.
    + replace (Z.pos n~1) with (Z.pos n + Z.pos n + 1) by lia.
      rewrite !Z.pow_add_r by lia. lia.
  - assert (Hpow : 0 < 2 ^ Z.pos n) by (apply Z.pow_pos_nonneg; lia).
    replace (c * 2 ^ Z.pos n~0) with (c * 2 ^ Z.pos n * 2 ^ Z.pos n).
    + rewrite IH by nia. apply IH. exact Hc.
    + replace (Z.pos n~0) with (Z.pos n + Z.pos n) by lia.
      rewrite !Z.pow_add_r by lia. lia.
  - apply shr_1_double. exact Hc.
Qed.

(** The digits of a mantissa shifted to the left. *)
Lemma digits2_shifted (n : positive) (k : Z) (m : positive) :
  0 <= k -> Z.pos m = Z.pos n * 2 ^ k ->
  Z.pos (digits2_pos m) = Z.pos (digits2_pos n) + k.
Proof.
  intros Hk Hm. apply digits2_unique. rewrite Hm.
  pose proof (digits2_bounds n) as [Hlo Hhi].
  assert (Hpow : 0 < 2 ^ k) by (apply Z.pow_pos_nonneg; lia).
  replace (Z.pos (digits2_pos n) + k - 1) with (Z.pos (digits2_pos n) - 1 + k) by lia.
  rewrite !Z.pow_add_r by lia. nia.
Qed.

(** Rounding a mantissa of at least 53 digits that stands for an
    integer below 2^53 gives the double of that integer. *)
Lemma binary_round_aux_integer (s : bool) (M n : positive) (k : Z) :
  0 <= k -> Z.pos M = Z.pos n * 2 ^ k -> Z.pos n < 2 ^ 53 ->
  53 <= Z.pos (digits2_pos M) -> k <= 1074 ->
  binary_round_aux 53 1024 s (Z.pos M) (- k) loc_Exact = binary_round 53 1024 s n 0.
Proof.
  intros Hk HM Hn Hdigits Hkmax.
  pose proof (digits2_shifted n k M Hk HM) as HdM.
  destruct (binary_round_small s n Hn) as (m & e & -> & He & Hm & Hd).
  assert (Hdn : Z.pos (digits2_pos n) = 53 + e).
  { pose proof (digits2_shifted n (- e) m ltac:(lia) Hm). lia. }
  set (sh := Z.pos (digits2_pos M) - 53).
  assert (Hshift : fexp 53 1024 (Z.pos (digits2_pos M) + - k) - - k = sh)
    by (unfold fexp, emin, sh; lia).
  assert (Hk' : k = sh + - e) by (unfold sh; lia).
  assert (HMm : Z.pos M = Z.pos m * 2 ^ sh).
  { rewrite HM, Hm, Hk', Z.pow_add_r by (unfold sh; lia). lia. }
  destruct (Z.eq_dec sh 0) as [Hzero | Hpos].
  - assert (M = m) by (rewrite Hzero in HMm; cbn in HMm; lia). subst M.
    replace (- k) with e by lia.
    apply binary_round_aux_exact; [exact Hd | lia].
  - unfold binary_round_aux, shr_fexp at 1. unfold Zdigits2 at 1.
    rewrite Hshift. cbn [shr_record_of_loc].
    destruct sh as [| p | p] eqn:Hsh; [contradiction | | unfold sh in Hsh; lia].
    cbn [shr]. rewrite HMm, shr_iter_exact by lia.
    cbn [shr_m loc_of_shr_record round_nearest_even].
    unfold shr_fexp, Zdigits2. rewrite Hd.
    replace (fexp 53 1024 (53 + (- k + Z.pos p)) - (- k + Z.pos p)) with 0
      by (unfold fexp, emin; lia).
    cbn [shr shr_record_of_loc shr_m].
    destruct (Z.leb_spec (- k + Z.pos p) (1024 - 53)) as [_ | H]; [| lia].
    f_equal. lia.
Qed.

(** The double of a bigint below 2^53: its sign, and a mantissa of 53
    digits that holds the bigint. *)
Lemma Prim2SF_ofZ (z : Z) :
  Prim2SF (JsNumber.ofZ z) = binary_normalize 53 1024 z 0 false.
Proof. unfold JsNumber.ofZ. apply Prim2SF_SF2Prim, binary_normalize_valid. Qed.

Lemma digits2_mul (p q : positive) :
  Z.pos (digits2_pos (p * q))
  <= Z.pos (digits2_pos p) + Z.pos (digits2_pos q).
Proof.
  pose proof (digits2_bounds p) as [_ Hp].
  pose proof (digits2_bounds q) as [_ Hq].
  pose proof (digits2_bounds (p * q)) as [Hpq _].
  assert (Hlt : 2 ^ (Z.pos (digits2_pos (p * q)) - 1)
                < 2 ^ (Z.pos (digits2_pos p) + Z.pos (digits2_pos q))).
  { rewrite Z.pow_add_r by lia. rewrite Pos2Z.inj_mul in Hpq. nia. }
  apply Z.pow_lt_mono_r_iff in Hlt; lia.
Qed.


(** The quotient of a multiple below 2^53 by its divisor is computed
    exactly. *)
Lemma div_ofZ (q b : Z) :
  0 < b < 2 ^ 53 -> Z.abs (q * b) < 2 ^ 53 ->
  (JsNumber.ofZ (q * b) / JsNumber.ofZ b)%float = JsNumber.ofZ q.
Proof.
  intros Hb Hab. apply Prim2SF_inj.
  rewrite div_spec, !Prim2SF_ofZ. unfold SF64div.
  destruct b as [| pb | pb]; try lia.
  assert (Hround : forall s pq, Z.pos (pq * pb) < 2 ^ 53 ->
            SFdiv prec emax (binary_round 53 1024 s (pq * pb) 0)
                            (binary_round 53 1024 false pb 0)
            = binary_round 53 1024 s pq 0).
  { intros s pq Hprod.
    assert (Hpq : Z.pos pq < 2 ^ 53) by (rewrite Pos2Z.inj_mul in Hprod; nia).
    assert (Hpb : Z.pos pb < 2 ^ 53) by (rewrite Pos2Z.inj_mul in Hprod; nia).
    destruct (binary_round_small s (pq * pb) Hprod) as (ma & ea & -> & Hea & Hma & Hda).
    destruct (binary_round_small false pb Hpb) as (mb & eb & -> & Heb & Hmb & Hdb).
    pose proof (digits2_shifted (pq * pb) (- ea) ma ltac:(lia) Hma) as Hdprod.
    pose proof (digits2_shifted pb (- eb) mb ltac:(lia) Hmb) as Hdb'.
    pose proof (digits2_mul pq pb) as Hmul.
    set (k := 53 - ea + eb).
    assert (Hk : 1 <= k <= 105) by (unfold k; lia).
    assert (Hcore : SFdiv_core_binary prec emax (Z.pos ma) ea (Z.pos mb) eb
                    = (Z.pos pq * 2 ^ k, - k, loc_Exact)).
    { unfold SFdiv_core_binary, Zdigits2. rewrite Hda, Hdb.
      replace (Z.min (fexp prec emax (53 + ea - (53 + eb))) (ea - eb)) with (- k)
        by (unfold fexp, emin, prec, emax, k; lia).
      replace (ea - eb - - k) with 53 by (unfold k; lia).
      rewrite Z.shiftl_mul_pow2 by lia.
      assert (Hsplit : Z.pos ma * 2 ^ 53 = Z.pos pq * 2 ^ k * Z.pos mb).
      { assert (Hpow : 2 ^ k * 2 ^ (- eb) = 2 ^ 53 * 2 ^ (- ea))
          by (rewrite <- !Z.pow_add_r by lia; f_equal; unfold k; lia).
        rewrite Hma, Hmb, Pos2Z.inj_mul.
        transitivity (Z.pos pq * Z.pos pb * (2 ^ 53 * 2 ^ (- ea))); [ring |].
        rewrite <- Hpow. ring. }
      rewrite Hsplit.
      unfold Z.div_eucl at 1.
      pose proof (Z.div_eucl_eq (Z.pos pq * 2 ^ k * Z.pos mb) (Z.pos mb) ltac:(lia)) as Heq.
      pose proof (Z.mod_mul (Z.pos pq * 2 ^ k) (Z.pos mb) ltac:(lia)) as Hmod.
      pose proof (Z.div_mul (Z.pos pq * 2 ^ k) (Z.pos mb) ltac:(lia)) as Hquot.
      unfold Z.modulo, Z.div in Hmod, Hquot.
      fold (Z.div_eucl (Z.pos pq * 2 ^ k * Z.pos mb) (Z.pos mb)).
      destruct (Z.div_eucl (Z.pos pq * 2 ^ k * Z.pos mb) (Z.pos mb)) as [q' r'].
      subst q' r'. unfold new_location, new_location_even, new_location_odd.
      destruct (Z.even (Z.pos mb)); reflexivity. }
    cbn [SFdiv]. rewrite Hcore, xorb_false_r.
    assert (Hpos : exists Q, Z.pos pq * 2 ^ k = Z.pos Q).
    { assert (Hgt : 0 < Z.pos pq * 2 ^ k)
        by (apply Z.mul_pos_pos; [lia | apply Z.pow_pos_nonneg; lia]).
      destruct (Z.pos pq * 2 ^ k) as [| Q | Q] eqn:HQ; try lia.
      exists Q. reflexivity. }
    destruct Hpos as [Q HQ]. rewrite HQ.
    apply (binary_round_aux_integer s Q pq k); try lia.
    pose proof (digits2_shifted pq k Q ltac:(lia) ltac:(lia)) as HdQ.
    unfold k in *. lia. }
  destruct q as [| pq | pq]; cbn [binary_normalize Z.mul].
  - destruct (binary_round_small false pb ltac:(lia)) as (mb & eb & -> & _).
    reflexivity.
  - apply Hround. exact Hab.
  - apply Hround. exact Hab.
Qed.

(** ** Times that are whole seconds *)

Lemma unitDivisor_bounds (unit : Z) : 0 < unitDivisor unit < 2 ^ 53.
Proof.
  unfold unitDivisor.
  destruct (unit =? TimeUnit.MILLISECOND); [cbn; lia |].
  destruct (unit =? TimeUnit.MICROSECOND); [cbn; lia |].
  destruct (unit =? TimeUnit.NANOSECOND); cbn; lia.
Qed.

(** The seconds of a number that is a whole multiple of its unit. *)
Lemma convertTimestampToSeconds_whole (k unit : Z) :
  Z.abs (k * unitDivisor unit) < 2 ^ 53 ->
  convertTimestampToSeconds (NumNumber (JsNumber.ofZ (k * unitDivisor unit))) unit
  = JsNumber.ofZ k.
Proof.
  intros Hk. rewrite convertTimestampToSeconds_number.
  destruct (isTimeUnit unit) eqn:Hunit.
  - apply div_ofZ; [apply unitDivisor_bounds | exact Hk].
  - assert (Hone : unitDivisor unit = 1).
    { revert Hunit. unfold isTimeUnit, unitDivisor.
      destruct (unit =? TimeUnit.MILLISECOND); [discriminate |].
      destruct (unit =? TimeUnit.MICROSECOND); [discriminate |].
      destruct (unit =? TimeUnit.NANOSECOND); [discriminate | reflexivity]. }
    rewrite Hone, Z.mul_1_r. reflexivity.
Qed.


Section WholeSeconds.

Context {E : Externals}.


End WholeSeconds.


(** ** Whole multiples of the unit *)

(** X24: a bigint that is a whole multiple [k] of the divisor of its
    unit converts to the number of [k], whatever its size: below the safe
    bound by an exact division of numbers, above it by the division of
    bigints.  A number that is such a multiple, below 2^53, converts to
    the number of [k] as well. *)
Theorem convertTimestampToSeconds_multiples (k unit : Z) :
  convertTimestampToSeconds (NumBigInt (k * unitDivisor unit)) unit = JsNumber.ofZ k
  /\ (Z.abs (k * unitDivisor unit) < 2 ^ 53 ->
      convertTimestampToSeconds (NumNumber (JsNumber.ofZ (k * unitDivisor unit))) unit
      = JsNumber.ofZ k).
Proof.
  split; [| apply convertTimestampToSeconds_whole].
  pose proof (unitDivisor_bounds unit) as Hdiv.
  rewrite convertTimestampToSeconds_bigint, isSafeInteger_ofZ.
  destruct (isTimeUnit unit) eqn:Hunit.
  - destruct (Z.leb_spec (Z.abs (k * unitDivisor unit)) JsNumber.MAX_SAFE_INTEGER)
      as [Hsafe | Hunsafe].
    + apply div_ofZ; [exact Hdiv |]. unfold JsNumber.MAX_SAFE_INTEGER in Hsafe. lia.
    + rewrite Z.quot_mul by lia. reflexivity.
  - assert (Hone : unitDivisor unit = 1).
    { revert Hunit. unfold isTimeUnit, unitDivisor.
      destruct (unit =? TimeUnit.MILLISECOND); [discriminate |].
      destruct (unit =? TimeUnit.MICROSECOND); [discriminate |].
      destruct (unit =? TimeUnit.NANOSECOND); [discriminate | reflexivity]. }
    rewrite Hone, Z.mul_1_r. reflexivity.
Qed.


(** Ninety seconds in nanoseconds, and 2^70 seconds in milliseconds. *)
Lemma convertTimestampToSeconds_multiples_witness :
  convertTimestampToSeconds (NumNumber 90000000000) TimeUnit.NANOSECOND = 90%float
  /\ convertTimestampToSeconds (NumBigInt (2 ^ 70 * 1000)) TimeUnit.MILLISECOND
     = JsNumber.ofZ (2 ^ 70).
Proof.
  split.
  - exact (proj2 (convertTimestampToSeconds_multiples 90 TimeUnit.NANOSECOND)
                 ltac:(cbn; lia)).
  - exact (proj1 (convertTimestampToSeconds_multiples (2 ^ 70) TimeUnit.MILLISECOND)).
Defined.

(** ** Lists of strings *)

Lemma escape_plain (s : string) : isPlainText s = true -> escape s = s.
Proof.
  induction s as [| c s IH]; intros Hplain; [reflexivity |].
  cbn [isPlainText] in Hplain. apply andb_true_iff in Hplain as [Hc Hs].
  cbn [escape]. rewrite (IH Hs).
  unfold isPlainChar in Hc.
  apply andb_true_iff in Hc as [Hc H92]. apply andb_true_iff in Hc as [H32 H34].
  apply negb_true_iff in H92, H34.
  apply Nat.leb_le in H32. apply Nat.eqb_neq in H92, H34.
  unfold escapeChar.
  repeat match goal with
    | |- context [?a =? ?b] => destruct (Z.eqb_spec a b); [lia |]
    end.
  destruct (Z.ltb_spec (Z.of_nat (nat_of_ascii c)) 32); [lia | reflexivity].
Qed.

Lemma quote_plain (s : string) : isPlainText s = true -> quote s = quoted s.
Proof. intros H. unfold quote, quoted. rewrite (escape_plain s H). reflexivity. Qed.

Lemma arrayItems_texts (texts : list string) :
  arrayItems (map Text texts) = Some texts.
Proof.
  induction texts as [| t ts IH]; [reflexivity |].
  cbn [map arrayItems]. rewrite IH. reflexivity.
Qed.

Lemma serialize_strings (replacer : JsValue -> JsValue) (xs : list string) :
  (forall s, replacer (VString s) = VString s) ->
  serialize replacer (VVector (map VString xs))
  = Text ("[" ++ join "," (map quote xs) ++ "]")
  /\ serialize replacer (VArray (map VString xs))
     = Text ("[" ++ join "," (map quote xs) ++ "]").
Proof.
  intros Hleaf.
  assert (Hitems : map (serialize replacer) (map VString xs) = map Text (map quote xs)).
  { induction xs as [| x xs IH]; [reflexivity |].
    cbn [map serialize]. rewrite Hleaf, IH. reflexivity. }
  split; cbn [serialize]; rewrite Hitems; unfold array;
    rewrite arrayItems_texts; reflexivity.
Qed.

Lemma itemsText_join (x : string) (xs : list string) (rest : string) :
  join "," (map quoted (x :: xs)) ++ String "]" rest = itemsText x xs rest.
Proof.
  revert x. induction xs as [| y ys IH]; intros x.
  - cbn [map join itemsText]. unfold quoted, dq.
    cbn [append]. rewrite append_associative. reflexivity.
  - change (map quoted (x :: y :: ys)) with (quoted x :: map quoted (y :: ys)).
    change (join "," (quoted x :: map quoted (y :: ys)))
      with (quoted x ++ "," ++ join "," (map quoted (y :: ys))).
    cbn [itemsText]. rewrite <- IH.
    unfold quoted at 1, dq. cbn [append]. rewrite !append_associative. reflexivity.
Qed.

Lemma itemsText_length (x : string) (xs : list string) (rest : string) :
  (List.length (x :: xs) <= String.length (itemsText x xs rest))%nat.
Proof.
  revert x. induction xs as [| y ys IH]; intros x; cbn [itemsText String.length List.length].
  - lia.
  - specialize (IH y). cbn [List.length] in IH.
    assert (Hlen : forall a b, String.length (a ++ b) = (String.length a + String.length b)%nat).
    { intros a b. induction a as [| c a IHa]; cbn [append String.length]; lia. }
    rewrite Hlen. cbn [String.length]. lia.
Qed.

(** An element that a comma follows, and the last element of an
    array. *)
Lemma elements_next (fuel : nat) (r r1 r2 : string) (v : JsValue)
  (acc : list JsValue) :
  JSON.value fuel r = Some (v, r1) ->
  JSON.skipWhitespace r1 = String "," r2 ->
  JSON.elements (S fuel) r acc = JSON.elements fuel r2 (acc ++ [v]).
Proof. intros Hvalue Hcomma. cbn [JSON.elements]. rewrite Hvalue, Hcomma. reflexivity. Qed.

Lemma elements_last (fuel : nat) (r r1 r2 : string) (v : JsValue)
  (acc : list JsValue) :
  JSON.value fuel r = Some (v, r1) ->
  JSON.skipWhitespace r1 = String "]" r2 ->
  JSON.elements (S fuel) r acc = Some (VArray (acc ++ [v]), r2).
Proof. intros Hvalue Hend. cbn [JSON.elements]. rewrite Hvalue, Hend. reflexivity. Qed.

Lemma elements_strings (xs : list string) :
  forall (x : string) (acc : list JsValue) (fuel : nat) (rest : string),
    isPlainText x = true -> allPlain xs = true ->
    (List.length xs + 2 <= fuel)%nat ->
    JSON.elements fuel (itemsText x xs rest) acc
    = Some (VArray (acc ++ map VString (x :: xs)), rest).
Proof.
  induction xs as [| y ys IH]; intros x acc fuel rest Hx Hxs Hfuel.
  - destruct fuel as [| [| fuel]]; cbn [List.length] in Hfuel; try lia.
    cbn [itemsText].
    apply (elements_last _ _ (String "]" rest)); [| reflexivity].
    apply value_string, stringBody_plain. exact Hx.
  - destruct fuel as [| [| fuel]]; cbn [List.length] in Hfuel; try lia.
    cbn [allPlain forallb] in Hxs. apply andb_true_iff in Hxs as [Hy Hys].
    cbn [itemsText].
    rewrite (elements_next _ _ (String "," (itemsText y ys rest))
               (itemsText y ys rest) (VString x));
      [| apply value_string, stringBody_plain; exact Hx | reflexivity].
    rewrite (IH y (acc ++ [VString x])%list (S fuel) rest Hy Hys) by lia.
    rewrite <- app_assoc. reflexivity.
Qed.

Lemma parse_strings (xs : list string) :
  allPlain xs = true ->
  JSON.parse ("[" ++ join "," (map quoted xs) ++ "]")
  = Returns (VArray (map VString xs)).
Proof.
  intros Hplain. destruct xs as [| x xs]; [reflexivity |].
  cbn [allPlain forallb] in Hplain. apply andb_true_iff in Hplain as [Hx Hxs].
  change ("[" ++ join "," (map quoted (x :: xs)) ++ "]")
    with (String "[" (join "," (map quoted (x :: xs)) ++ String "]" EmptyString)).
  rewrite itemsText_join. unfold JSON.parse.
  pose proof (itemsText_length x xs EmptyString) as Hlen.
  cbn [String.length List.length] in *.
  set (n := String.length (itemsText x xs EmptyString)) in *.
  replace (2 * S n + 2)%nat with (S (2 * n + 3))%nat by lia.
  assert (Hvalue : forall fuel,
             JSON.value (S fuel) (String "[" (itemsText x xs EmptyString))
             = JSON.elements fuel (itemsText x xs EmptyString) [])
    by (intros fuel; destruct xs; reflexivity).
  rewrite Hvalue.
  rewrite (elements_strings xs x [] _ EmptyString Hx Hxs) by lia.
  reflexivity.
Qed.

(** X25: a list cell, or an array, of strings that need no escape is
    rendered by [formatObject], for a field of any type, as the strings
    between double quotes, separated by commas, between square brackets,
    and nothing is logged; [JSON.parse] reads the text back as the array
    of the same strings. *)
Theorem formatObject_string_list (xs : list string) (field : option Field) :
  allPlain xs = true ->
  let text := "[" ++ join "," (map quoted xs) ++ "]" in
  formatObject (VVector (map VString xs)) field = ([], Returns text)
  /\ formatObject (VArray (map VString xs)) field = ([], Returns text)
  /\ JSON.parse text = Returns (VArray (map VString xs)).
Proof.
  intros Hplain text.
  assert (Hquote : map quote xs = map quoted xs).
  { revert Hplain. unfold allPlain.
    induction xs as [| x xs IH]; [reflexivity |].
    cbn [forallb map]. intros H. apply andb_true_iff in H as [Hx Hxs].
    rewrite (quote_plain x Hx), (IH Hxs). reflexivity. }
  assert (Hleaf : forall s,
             (if isStruct field then structReplacer else bigintReplacer) (VString s)
             = VString s)
    by (intros s; destruct (isStruct field); reflexivity).
  destruct (serialize_strings _ xs Hleaf) as [Hvector Harray].
  rewrite Hquote in Hvector, Harray. fold text in Hvector, Harray.
  unfold formatObject, stringify.
  rewrite Hvector, Harray.
  repeat split; try reflexivity.
  apply parse_strings. exact Hplain.
Qed.

(** A list of two strings in a Struct field. *)
Lemma formatObject_string_list_witness :
  formatObject (VVector [VString "a"; VString "b c"]) (Some structField)
  = ([], Returns ("[" ++ dq ++ "a" ++ dq ++ "," ++ dq ++ "b c" ++ dq ++ "]"))
  /\ JSON.parse ("[" ++ dq ++ "a" ++ dq ++ "," ++ dq ++ "b c" ++ dq ++ "]")
     = Returns (VArray [VString "a"; VString "b c"]).
Proof.
  destruct (formatObject_string_list ["a"; "b c"] (Some structField) eq_refl)
    as (Hvector & _ & Hparse).
  split; [exact Hvector | exact Hparse].
Defined.
